(** * Studio booking assistant: the booking controller

    A shallow embedding of [server/src/controllers/booking.controller.js]
    (Express handlers over Mongoose models) and of the validators that
    [server/src/routes/booking.routes.js] puts in front of it.

    - Collections are finite maps from document ids to documents.
    - A handler is a function from the world (collections, sent mail,
      console) to a response and a new world; [await]ed calls that can
      reject and property reads on [null] are completions of an
      exception monad, and the handler's [try { } catch] turns a throw
      into the 500 answer.
    - JavaScript numbers are binary64 floats: the price is computed with
      the kernel's primitive floats. Timestamps are integer milliseconds.

    The Mongoose schemas ([models/]), the mailer ([utils/email]) and the
    [protect] and [authorize] middleware are not among the sources. A
    [save()] stores the document as it is, an assignment to a field stores
    the value as it is, request fields have the type their use expects
    (ids, timestamps, strings, arrays of ids), [req.user] is taken as
    given, and whether a mail goes out is a parameter. *)

From Stdlib Require Import ZArith QArith Floats Lia.
From stdpp Require Import gmap strings list fin_maps sorting.

Close Scope Q_scope.
Open Scope Z_scope.

(* Decimal literals such as 0.1 denote the nearest binary64 value, as in
   JavaScript. *)
Set Warnings "-inexact-float".

(** ** Documents *)

Abbreviation Id := N.

(** A booking document; its [_id] is the key it is stored under. *)
Record Booking := {
  room : Id;
  client : Id;
  startTime : Z;
  endTime : Z;
  equipment : list Id;
  staff : list Id;
  totalAmount : float;
  notes : option string;
  status : string;
  cancellationReason : option string;
  cancelledBy : option Id;
  cancelledAt : option Z
}.

Record RoomDoc := { room_name : string; room_hourlyRate : float; room_studio : Id }.
Record StudioDoc := { studio_name : string; studio_owner : Id }.
Record EquipmentDoc := { equipment_name : string }.
Record StaffDoc := { staff_user : Id; staff_studio : Id }.
Record UserDoc := { user_name : string; user_email : string }.

Record Email := { to : string; subject : string; text : string; html : string }.

(** ** The world a handler runs in *)

Record World := {
  Bookings : gmap N Booking;
  Rooms : gmap N RoomDoc;
  Studios : gmap N StudioDoc;
  Equipments : gmap N EquipmentDoc;
  Staffs : gmap N StaffDoc;
  Users : gmap N UserDoc;
  outbox : list Email;
  console : list string
}.

Definition setBookings (m : gmap N Booking) (w : World) : World :=
  {| Bookings := m; Rooms := Rooms w; Studios := Studios w;
     Equipments := Equipments w; Staffs := Staffs w; Users := Users w;
     outbox := outbox w; console := console w |}.

Definition pushMail (m : Email) (w : World) : World :=
  {| Bookings := Bookings w; Rooms := Rooms w; Studios := Studios w;
     Equipments := Equipments w; Staffs := Staffs w; Users := Users w;
     outbox := outbox w ++ [m]; console := console w |}.

Definition console_error (line : string) (w : World) : World :=
  {| Bookings := Bookings w; Rooms := Rooms w; Studios := Studios w;
     Equipments := Equipments w; Staffs := Staffs w; Users := Users w;
     outbox := outbox w; console := console w ++ [line] |}.

(** What the controller takes from outside its own text.

    - [mailer m] tells whether [sendEmail m] resolves ([utils/email] is not
      part of the sources).
    - [Staff_bound] tells whether the identifier [Staff] resolves. The
      controller requires [Booking], [Room], [Equipment], [User] and
      [sendEmail] only, so as the file is written it does not:
      see [asWritten].
    - [Date_now] is the clock read by [cancelBooking]. *)
Record Runtime := {
  mailer : Email -> bool;
  Staff_bound : bool;
  Date_now : Z
}.

Definition asWritten (mail : Email -> bool) (now : Z) : Runtime :=
  {| mailer := mail; Staff_bound := false; Date_now := now |}.

(** ** Completions and the handler monad *)

Inductive Exn :=
| ReferenceError (ident : string)
| TypeError (prop : string)
| MailError.

Definition exnMessage (e : Exn) : string :=
  match e with
  | ReferenceError x => x +:+ " is not defined"
  | TypeError p => "Cannot read properties of null (reading '" +:+ p +:+ "')"
  | MailError => "sendEmail rejected"
  end.

Inductive Completion (A : Type) :=
| Normal (a : A)
| Throw (e : Exn).
Arguments Normal {A} a.
Arguments Throw {A} e.

Definition Async (A : Type) : Type := World -> Completion A * World.

Definition ret {A} (a : A) : Async A := fun w => (Normal a, w).
Definition throw {A} (e : Exn) : Async A := fun w => (Throw e, w).
Definition bind {A B} (m : Async A) (k : A -> Async B) : Async B :=
  fun w => match m w with
           | (Normal a, w') => k a w'
           | (Throw e, w') => (Throw e, w')
           end.

Notation "'let!' x ':=' m 'in' k" := (bind m (fun x => k))
  (at level 10, x name, m at level 100, k at level 200).
Notation "m ';;;' k" := (bind m (fun _ => k))
  (at level 100, k at level 200, right associativity).

(** [o.p] where [o] may be [null]. *)
Definition prop {A} (o : option A) (p : string) : Async A :=
  match o with
  | Some a => ret a
  | None => throw (TypeError p)
  end.

(** ** Responses *)

Inductive Payload :=
| Errors (errors : list string)
| Message (message : string)
| Doc (doc : option Booking).

Record Response := { statusCode : Z; json : Payload }.

Definition res (code : Z) (p : Payload) : Response := {| statusCode := code; json := p |}.

(** The [catch] block: [console.error(label, error.message)] and the 500. *)
Definition serverError (label : string) (e : Exn) (w : World) : Response * World :=
  (res 500 (Message "Server error"), console_error (label +:+ " " +:+ exnMessage e) w).

(** [try { m } catch (error) { ... }] *)
Definition try_catch (label : string) (m : Async Response) (w : World) : Response * World :=
  match m w with
  | (Normal r, w') => (r, w')
  | (Throw e, w') => serverError label e w'
  end.

(** ** Model calls *)

Definition Booking_findById (i : Id) : Async (option Booking) :=
  fun w => (Normal (Bookings w !! i), w).

Definition documents (m : gmap N Booking) : list Booking := snd <$> map_to_list m.

Definition Booking_findOne (q : Booking -> bool) : Async (option Booking) :=
  fun w => (Normal (List.find q (documents (Bookings w))), w).

(** [new Booking(...)] draws an id no stored booking has. *)
Definition newObjectId (m : gmap N Booking) : Id := fresh (dom m).

(** [booking.save()] and [booking.remove()], for the document of id [i]. *)
Definition Booking_save (i : Id) (b : Booking) : Async unit :=
  fun w => (Normal tt, setBookings (<[i := b]> (Bookings w)) w).

Definition Booking_remove (i : Id) : Async unit :=
  fun w => (Normal tt, setBookings (delete i (Bookings w)) w).

(** [Room.findById(id).populate('studio')] *)
Definition Room_findById (i : Id) : Async (option (RoomDoc * option StudioDoc)) :=
  fun w => (Normal ((fun r => (r, Studios w !! room_studio r)) <$> Rooms w !! i), w).

(** [Equipment.find({ _id: { $in: ids } })] *)
Definition Equipment_find (ids : list Id) : Async (list (N * EquipmentDoc)) :=
  fun w => (Normal (map_to_list (filter (fun kv => kv.1 ∈ ids) (Equipments w))), w).

Definition Equipment_findById (i : Id) : Async (option EquipmentDoc) :=
  fun w => (Normal (Equipments w !! i), w).

Definition User_findById (i : Id) : Async (option UserDoc) :=
  fun w => (Normal (Users w !! i), w).

(** Reading the identifier [Staff]. *)
Definition Staff (rt : Runtime) : Async unit :=
  if Staff_bound rt then ret tt else throw (ReferenceError "Staff").

Definition Staff_find (rt : Runtime) (ids : list Id) : Async (list (N * StaffDoc)) :=
  Staff rt ;;;
  fun w => (Normal (map_to_list (filter (fun kv => kv.1 ∈ ids) (Staffs w))), w).

(** [Staff.findById(id).populate('user', 'name')] *)
Definition Staff_findById (rt : Runtime) (i : Id) : Async (option (StaffDoc * option UserDoc)) :=
  Staff rt ;;;
  fun w => (Normal ((fun s => (s, Users w !! staff_user s)) <$> Staffs w !! i), w).

(** [Staff.exists({ user, studio })] *)
Definition Staff_exists (rt : Runtime) (u studioId : Id) : Async bool :=
  Staff rt ;;;
  fun w => (Normal (existsb (fun s => bool_decide (staff_user s = u) && bool_decide (staff_studio s = studioId))
                      (snd <$> map_to_list (Staffs w))), w).

Definition sendEmail (rt : Runtime) (m : Email) : Async unit :=
  fun w => if mailer rt m then (Normal tt, pushMail m w) else (Throw MailError, w).

(** ** Requests *)

(** [req.user], as the [protect] middleware leaves it. *)
Record Actor := { user_id : Id; userType : string }.

Record Request (B : Type) := { user : Actor; params_id : Id; body : B }.
Arguments user {B} r.
Arguments params_id {B} r.
Arguments body {B} r.

(** The body of [POST /api/bookings]. [roomId] is [None] when missing or
    empty; a time is [None] when the string is not ISO 8601, and the
    timestamp [new Date] makes of it otherwise. [equipmentIds] and
    [staffIds] default to the empty array. *)
Module Create.
Record body := {
  roomId : option Id;
  startTime : option Z;
  endTime : option Z;
  equipmentIds : list Id;
  staffIds : list Id;
  notes : option string
}.
End Create.

(** The body of [PUT /api/bookings/:id]; an absent field is [None]. *)
Module Update.
Record body := {
  status : option string;
  staffIds : option (list Id);
  notes : option string;
  equipmentIds : option (list Id)
}.
End Update.

(** The body of [POST /api/bookings/:id/cancel]. *)
Module Cancel.
Record body := { reason : option string }.
End Cancel.

(** Truthiness of an optional string: [undefined] and [''] are falsy. *)
Definition truthy (o : option string) : bool :=
  match o with
  | Some s => negb (bool_decide (s = ""))
  | None => false
  end.

(** ** The validators of the route *)

Definition validationResult (b : Create.body) : list string :=
  match Create.roomId b with Some _ => [] | None => ["Room ID is required"] end ++
  match Create.startTime b with Some _ => [] | None => ["Valid start time is required"] end ++
  match Create.endTime b with Some _ => [] | None => ["Valid end time is required"] end.

(** ** The availability query *)

(** The [$or] of the three clauses, for a stored booking [b] and the
    requested [startTime], [endTime]. *)
Definition orClauses (s e : Z) (b : Booking) : bool :=
  ((startTime b <=? s) && (s <? endTime b))
  || ((startTime b <? e) && (e <=? endTime b))
  || ((s <=? startTime b) && (endTime b <=? e)).

Definition notCancelled (b : Booking) : bool := negb (bool_decide (status b = "cancelled")).

Inductive Resource :=
| OfRoom (roomId : Id)
| OfEquipment (equipId : Id)
| OfStaff (staffId : Id).

(** [{ room: id }], [{ equipment: id }], [{ staff: id }]: the last two
    match an array that holds the id. *)
Definition references (r : Resource) (b : Booking) : bool :=
  match r with
  | OfRoom i => bool_decide (room b = i)
  | OfEquipment i => bool_decide (i ∈ equipment b)
  | OfStaff i => bool_decide (i ∈ staff b)
  end.

Definition conflictQuery (r : Resource) (s e : Z) (b : Booking) : bool :=
  references r b && notCancelled b && orClauses s e b.

(** ** Price *)

(** A difference of two dates, as a number. *)
Definition number_of_Z (z : Z) : float :=
  if z <? 0 then PrimFloat.opp (PrimFloat.of_uint63 (Uint63.of_Z (- z)))
  else PrimFloat.of_uint63 (Uint63.of_Z z).

Definition durationHours (s e : Z) : float :=
  (number_of_Z (e - s) / (1000 * 60 * 60))%float.

Definition computeTotal (r : RoomDoc) (s e : Z) : float :=
  (room_hourlyRate r * durationHours s e)%float.

(** ** createBooking *)

Definition notAvailable (kind name : string) : Response :=
  res 400 (Message (kind +:+ " " +:+ name +:+ " is not available for the requested time")).

(** [for (const equipId of equipmentIds)]: [Some] is the early return. *)
Fixpoint equipmentLoop (ids : list Id) (s e : Z) : Async (option Response) :=
  match ids with
  | [] => ret None
  | equipId :: rest =>
      let! equipmentConflict := Booking_findOne (conflictQuery (OfEquipment equipId) s e) in
      match equipmentConflict with
      | Some _ =>
          let! conflictingEquipment := Equipment_findById equipId in
          let! d := prop conflictingEquipment "name" in
          ret (Some (notAvailable "Equipment" (equipment_name d)))
      | None => equipmentLoop rest s e
      end
  end.

Definition checkEquipment (ids : list Id) (s e : Z) : Async (option Response) :=
  match ids with
  | [] => ret None
  | _ =>
      let! found := Equipment_find ids in
      if negb (length found =? length ids)%nat
      then ret (Some (res 400 (Message "One or more equipment items not found")))
      else equipmentLoop ids s e
  end.

Fixpoint staffLoop (rt : Runtime) (ids : list Id) (s e : Z) : Async (option Response) :=
  match ids with
  | [] => ret None
  | staffId :: rest =>
      let! staffConflict := Booking_findOne (conflictQuery (OfStaff staffId) s e) in
      match staffConflict with
      | Some _ =>
          let! conflictingStaff := Staff_findById rt staffId in
          let! d := prop conflictingStaff "user" in
          let! u := prop (snd d) "name" in
          ret (Some (notAvailable "Staff member" (user_name u)))
      | None => staffLoop rt rest s e
      end
  end.

Definition checkStaff (rt : Runtime) (ids : list Id) (s e : Z) : Async (option Response) :=
  match ids with
  | [] => ret None
  | _ =>
      let! found := Staff_find rt ids in
      if negb (length found =? length ids)%nat
      then ret (Some (res 400 (Message "One or more staff members not found")))
      else staffLoop rt ids s e
  end.

Definition newBookingEmail (ownerEmail studioName : string) : Email :=
  {| to := ownerEmail;
     subject := "New Booking Request";
     text := "A new booking request has been made for " +:+ studioName
             +:+ ". Please log in to confirm or reject the booking.";
     html := "<p>A new booking request has been made for " +:+ studioName
             +:+ ".</p><p>Please log in to confirm or reject the booking.</p>" |}.

(** [new Booking({ ... })] *)
Definition newBooking (req : Request Create.body) (roomId : Id) (room : RoomDoc)
    (s e : Z) : Booking :=
  let totalAmount := computeTotal room s e in
  {| room := roomId;
     client := user_id (user req);
     startTime := s;
     endTime := e;
     equipment := Create.equipmentIds (body req);
     staff := Create.staffIds (body req);
     totalAmount := totalAmount;
     notes := Create.notes (body req);
     status := "pending";
     cancellationReason := None;
     cancelledBy := None;
     cancelledAt := None |}.

(** From the price to the answer: build, save, notify, read back. *)
Definition persistAndNotify (rt : Runtime) (req : Request Create.body)
    (roomId : Id) (room : RoomDoc * option StudioDoc) (s e : Z) : Async Response :=
  fun w =>
    let _id := newObjectId (Bookings w) in
    let booking := newBooking req roomId (fst room) s e in
    (Booking_save _id booking ;;;
     let! studio := prop (snd room) "owner" in
     let! studioOwner := User_findById (studio_owner studio) in
     let! o := prop studioOwner "email" in
     sendEmail rt (newBookingEmail (user_email o) (studio_name studio)) ;;;
     let! savedBooking := Booking_findById _id in
     ret (res 201 (Doc savedBooking))) w.

Definition createBooking (rt : Runtime) (req : Request Create.body) (w : World)
    : Response * World :=
  match validationResult (body req) with
  | (_ :: _) as errors => (res 400 (Errors errors), w)
  | [] =>
    match Create.roomId (body req), Create.startTime (body req), Create.endTime (body req) with
    | Some roomId, Some s, Some e =>
      try_catch "Create booking error:" (
        let! room := Room_findById roomId in
        match room with
        | None => ret (res 404 (Message "Room not found"))
        | Some room =>
          let! conflictingBooking := Booking_findOne (conflictQuery (OfRoom roomId) s e) in
          match conflictingBooking with
          | Some _ => ret (res 400 (Message "Room is not available for the requested time"))
          | None =>
            let! early := checkEquipment (Create.equipmentIds (body req)) s e in
            match early with
            | Some r => ret r
            | None =>
              let! early := checkStaff rt (Create.staffIds (body req)) s e in
              match early with
              | Some r => ret r
              | None => persistAndNotify rt req roomId room s e
              end
            end
          end
        end) w
    | _, _, _ => (res 400 (Errors (validationResult (body req))), w)
    end
  end.

(** ** Who is asking *)

(** The lines every handler repeats after loading the booking:
    [room.studio.owner] compared with [req.user._id], and
    [req.user.userType === 'staff' && await Staff.exists(...)]. *)
Definition studioRelation (rt : Runtime) (u : Actor) (booking : Booking)
    : Async (StudioDoc * bool * bool) :=
  let! room := Room_findById (room booking) in
  let! r := prop room "studio" in
  let! studio := prop (snd r) "owner" in
  let isStudioOwner := bool_decide (studio_owner studio = user_id u) in
  let! isStaff :=
    (if bool_decide (userType u = "staff")
     then Staff_exists rt (user_id u) (room_studio (fst r))
     else ret false) in
  ret (studio, isStudioOwner, isStaff).

Definition isClientOf (u : Actor) (booking : Booking) : bool :=
  bool_decide (client booking = user_id u).

(** [res.json(await Booking.findById(req.params.id)...)] *)
Definition respondWithBooking (i : Id) : Async Response :=
  let! updatedBooking := Booking_findById i in
  ret (res 200 (Doc updatedBooking)).

(** ** updateBooking *)

Definition clientEdit (b : Update.body) (booking : Booking) : Booking :=
  {| room := room booking; client := client booking;
     startTime := startTime booking; endTime := endTime booking;
     equipment := match Update.equipmentIds b with
                  | Some ids => ids
                  | None => equipment booking
                  end;
     staff := staff booking;
     totalAmount := totalAmount booking;
     notes := if truthy (Update.notes b) then Update.notes b else notes booking;
     status := status booking;
     cancellationReason := cancellationReason booking;
     cancelledBy := cancelledBy booking;
     cancelledAt := cancelledAt booking |}.

Definition managerEdit (b : Update.body) (booking : Booking) : Booking :=
  {| room := room booking; client := client booking;
     startTime := startTime booking; endTime := endTime booking;
     equipment := equipment booking;
     staff := match Update.staffIds b with
              | Some ids => ids
              | None => staff booking
              end;
     totalAmount := totalAmount booking;
     notes := if truthy (Update.notes b) then Update.notes b else notes booking;
     status := match Update.status b with
               | Some s => if truthy (Some s) then s else status booking
               | None => status booking
               end;
     cancellationReason := cancellationReason booking;
     cancelledBy := cancelledBy booking;
     cancelledAt := cancelledAt booking |}.

(** [status && status !== booking.status], read on the booking as it is
    when the test runs. *)
Definition statusWasUpdated (b : Update.body) (booking : Booking) : bool :=
  match Update.status b with
  | Some s => truthy (Some s) && negb (bool_decide (s = status booking))
  | None => false
  end.

Definition statusEmail (clientEmail studioName : string) (s : string) : Email :=
  let word := if bool_decide (s = "confirmed") then "confirmed" else "updated" in
  {| to := clientEmail;
     subject := "Booking " +:+ (if bool_decide (s = "confirmed") then "Confirmed" else "Updated");
     text := "Your booking for " +:+ studioName +:+ " has been " +:+ word
             +:+ ". Please log in to view details.";
     html := "<p>Your booking for " +:+ studioName +:+ " has been " +:+ word
             +:+ ".</p><p>Please log in to view details.</p>" |}.

Definition updateBooking (rt : Runtime) (req : Request Update.body) : World -> Response * World :=
  try_catch "Update booking error:" (
    let! found := Booking_findById (params_id req) in
    match found with
    | None => ret (res 404 (Message "Booking not found"))
    | Some booking =>
      let isClient := isClientOf (user req) booking in
      let! rel := studioRelation rt (user req) booking in
      let '(studio, isStudioOwner, isStaff) := rel in
      if negb isClient && negb isStudioOwner && negb isStaff
      then ret (res 403 (Message "Not authorized to update this booking"))
      else if isClient then
        if negb (bool_decide (status booking = "pending"))
        then ret (res 400 (Message "Cannot update a confirmed or cancelled booking"))
        else
          Booking_save (params_id req) (clientEdit (body req) booking) ;;;
          respondWithBooking (params_id req)
      else
        let booking := managerEdit (body req) booking in
        Booking_save (params_id req) booking ;;;
        (if statusWasUpdated (body req) booking
         then
           let! c := User_findById (client booking) in
           let! c := prop c "email" in
           sendEmail rt (statusEmail (user_email c) (studio_name studio)
                           (default "" (Update.status (body req))))
         else ret tt) ;;;
        respondWithBooking (params_id req)
    end).

(** ** deleteBooking *)

Definition deleteBooking (rt : Runtime) (req : Request unit) : World -> Response * World :=
  try_catch "Delete booking error:" (
    let! found := Booking_findById (params_id req) in
    match found with
    | None => ret (res 404 (Message "Booking not found"))
    | Some booking =>
      let isClient := isClientOf (user req) booking in
      let! rel := studioRelation rt (user req) booking in
      let '(studio, isStudioOwner, isStaff) := rel in
      if negb isClient && negb isStudioOwner && negb isStaff
      then ret (res 403 (Message "Not authorized to delete this booking"))
      else if isClient && negb (bool_decide (status booking = "pending"))
      then ret (res 400 (Message "Cannot delete a confirmed booking. Please use cancel instead."))
      else
        Booking_remove (params_id req) ;;;
        ret (res 200 (Message "Booking deleted successfully"))
    end).

(** ** confirmBooking *)

Definition withStatus (s : string) (booking : Booking) : Booking :=
  {| room := room booking; client := client booking;
     startTime := startTime booking; endTime := endTime booking;
     equipment := equipment booking; staff := staff booking;
     totalAmount := totalAmount booking; notes := notes booking;
     status := s;
     cancellationReason := cancellationReason booking;
     cancelledBy := cancelledBy booking;
     cancelledAt := cancelledAt booking |}.

Definition confirmedEmail (clientEmail studioName : string) : Email :=
  {| to := clientEmail;
     subject := "Booking Confirmed";
     text := "Your booking for " +:+ studioName +:+ " has been confirmed.";
     html := "<p>Your booking for " +:+ studioName
             +:+ " has been confirmed.</p><p>Please log in to view details.</p>" |}.

Definition confirmBooking (rt : Runtime) (req : Request unit) : World -> Response * World :=
  try_catch "Confirm booking error:" (
    let! found := Booking_findById (params_id req) in
    match found with
    | None => ret (res 404 (Message "Booking not found"))
    | Some booking =>
      let! rel := studioRelation rt (user req) booking in
      let '(studio, isStudioOwner, isStaff) := rel in
      if negb isStudioOwner && negb isStaff
      then ret (res 403 (Message "Not authorized to confirm this booking"))
      else
        Booking_save (params_id req) (withStatus "confirmed" booking) ;;;
        let! c := User_findById (client booking) in
        let! c := prop c "email" in
        sendEmail rt (confirmedEmail (user_email c) (studio_name studio)) ;;;
        respondWithBooking (params_id req)
    end).

(** ** cancelBooking *)

Definition cancelled (rt : Runtime) (req : Request Cancel.body) (booking : Booking) : Booking :=
  {| room := room booking; client := client booking;
     startTime := startTime booking; endTime := endTime booking;
     equipment := equipment booking; staff := staff booking;
     totalAmount := totalAmount booking; notes := notes booking;
     status := "cancelled";
     cancellationReason :=
       if truthy (Cancel.reason (body req)) then Cancel.reason (body req)
       else Some "No reason provided";
     cancelledBy := Some (user_id (user req));
     cancelledAt := Some (Date_now rt) |}.

Definition cancelledEmail (recipient studioName : string) (byClient : bool) (reason : string)
    : Email :=
  {| to := recipient;
     subject := if byClient then "Booking Cancelled by Client" else "Booking Cancelled";
     text := (if byClient
              then "A booking for " +:+ studioName +:+ " has been cancelled by the client. Reason: "
              else "Your booking for " +:+ studioName +:+ " has been cancelled. Reason: ")
             +:+ reason;
     html := (if byClient
              then "<p>A booking for " +:+ studioName +:+ " has been cancelled by the client.</p><p>Reason: "
              else "<p>Your booking for " +:+ studioName +:+ " has been cancelled.</p><p>Reason: ")
             +:+ reason +:+ "</p>" |}.

Definition cancelBooking (rt : Runtime) (req : Request Cancel.body) : World -> Response * World :=
  try_catch "Cancel booking error:" (
    let! found := Booking_findById (params_id req) in
    match found with
    | None => ret (res 404 (Message "Booking not found"))
    | Some booking =>
      let isClient := isClientOf (user req) booking in
      let! rel := studioRelation rt (user req) booking in
      let '(studio, isStudioOwner, isStaff) := rel in
      if negb isClient && negb isStudioOwner && negb isStaff
      then ret (res 403 (Message "Not authorized to cancel this booking"))
      else
        let booking := cancelled rt req booking in
        Booking_save (params_id req) booking ;;;
        let! c := User_findById (client booking) in
        let! studioOwner := User_findById (studio_owner studio) in
        let reason := default "" (cancellationReason booking) in
        (if negb isClient
         then let! c := prop c "email" in
              sendEmail rt (cancelledEmail (user_email c) (studio_name studio) false reason)
         else ret tt) ;;;
        (if isClient
         then let! o := prop studioOwner "email" in
              sendEmail rt (cancelledEmail (user_email o) (studio_name studio) true reason)
         else ret tt) ;;;
        respondWithBooking (params_id req)
    end).

(** ** A small studio, for the examples *)

Module Scenario.

(** Times of day 0, in milliseconds. *)
Definition t10_00 : Z := 36000000.
Definition t10_30 : Z := 37800000.
Definition t11_00 : Z := 39600000.
Definition t11_30 : Z := 41400000.
Definition t12_00 : Z := 43200000.
Definition t13_00 : Z := 46800000.

Definition owner : Actor := {| user_id := 1; userType := "studio_owner" |}.
Definition musician : Actor := {| user_id := 2; userType := "musician" |}.
Definition otherMusician : Actor := {| user_id := 3; userType := "musician" |}.
Definition engineer : Actor := {| user_id := 4; userType := "staff" |}.

Definition users : gmap N UserDoc :=
  <[1%N := {| user_name := "Olga"; user_email := "olga@studio.test" |}]>
  (<[2%N := {| user_name := "Mo"; user_email := "mo@band.test" |}]>
  (<[3%N := {| user_name := "Ana"; user_email := "ana@band.test" |}]>
  (<[4%N := {| user_name := "Eli"; user_email := "eli@studio.test" |}]> ∅))).

Definition studios : gmap N StudioDoc :=
  {[ 1%N := {| studio_name := "Studio One"; studio_owner := 1%N |} ]}.

(** Room 1 costs 50.00 an hour, room 2 costs 0.10 an hour. *)
Definition rooms : gmap N RoomDoc :=
  <[1%N := {| room_name := "R"; room_hourlyRate := 50%float; room_studio := 1%N |}]>
  (<[2%N := {| room_name := "Booth"; room_hourlyRate := 0.1%float; room_studio := 1%N |}]> ∅).

Definition equipments : gmap N EquipmentDoc :=
  {[ 1%N := {| equipment_name := "Microphone" |} ]}.

Definition staffs : gmap N StaffDoc :=
  {[ 1%N := {| staff_user := 4%N; staff_studio := 1%N |} ]}.

Definition studio (bookings : gmap N Booking) : World :=
  {| Bookings := bookings; Rooms := rooms; Studios := studios;
     Equipments := equipments; Staffs := staffs; Users := users;
     outbox := []; console := [] |}.

Definition booked (roomId clientId : N) (s e : Z) (eq : list N) (st : string) : Booking :=
  {| room := roomId; client := clientId; startTime := s; endTime := e;
     equipment := eq; staff := []; totalAmount := 0%float; notes := None;
     status := st; cancellationReason := None; cancelledBy := None;
     cancelledAt := None |}.

Definition mailUp : Runtime := asWritten (fun _ => true) 0.
Definition mailDown : Runtime := asWritten (fun _ => false) 0.

Definition post (u : Actor) (roomId : N) (s e : Z) (eq st : list N) : Request Create.body :=
  {| user := u; params_id := 0%N;
     body := {| Create.roomId := Some roomId; Create.startTime := Some s;
                Create.endTime := Some e; Create.equipmentIds := eq;
                Create.staffIds := st; Create.notes := None |} |}.

Definition put (u : Actor) (i : N) (b : Update.body) : Request Update.body :=
  {| user := u; params_id := i; body := b |}.

Definition on (u : Actor) (i : N) : Request unit :=
  {| user := u; params_id := i; body := tt |}.

Definition cancelBy (u : Actor) (i : N) (why : option string) : Request Cancel.body :=
  {| user := u; params_id := i; body := {| Cancel.reason := why |} |}.

(** A request whose window is empty, 10:00 to 10:00, on the empty studio,
    and the world it leaves. *)
Definition emptyWindow : Request Create.body := post musician 1 t10_00 t10_00 [] [].
Definition afterEmptyWindow : World := (createBooking mailUp emptyWindow (studio ∅)).2.

(** Booking A on room R, 10:00 to 11:00, cancelled. *)
Definition cancelledA : World :=
  studio {[ 1%N := booked 1 2 t10_00 t11_00 [] "cancelled" ]}.

(** Booking A on room R, 10:00 to 11:00, in the other states. *)
Definition confirmedA : World :=
  studio {[ 1%N := booked 1 2 t10_00 t11_00 [] "confirmed" ]}.
Definition completedA : World :=
  studio {[ 1%N := booked 1 2 t10_00 t11_00 [] "completed" ]}.

(** Booking 1 holds the microphone from 10:00 to 11:00. *)
Definition microphoneHeld : World :=
  studio {[ 1%N := booked 1 2 t10_00 t11_00 [1%N] "pending" ]}.

(** And booking 2, of another client in the other room and without
    equipment, runs from 10:30 to 11:30. *)
Definition sharedMicrophone : World :=
  studio (<[1%N := booked 1 2 t10_00 t11_00 [1%N] "pending"]>
         (<[2%N := booked 2 3 t10_30 t11_30 [] "pending"]> ∅)).

Definition takeMicrophone : Request Update.body :=
  put otherMusician 2
    {| Update.status := None; Update.staffIds := None; Update.notes := None;
       Update.equipmentIds := Some [1%N] |}.

(** Booking 1 on room R was cancelled and booking 2 took its window. *)
Definition rebooked : World :=
  studio (<[1%N := booked 1 2 t10_00 t11_00 [] "cancelled"]>
         (<[2%N := booked 1 3 t10_00 t11_00 [] "pending"]> ∅)).

Definition revive : Request Update.body :=
  put owner 1
    {| Update.status := Some "confirmed"; Update.staffIds := None;
       Update.notes := None; Update.equipmentIds := None |}.

(** A window that ends before it starts. *)
Definition inverted : Request Create.body := post musician 1 t12_00 t10_00 [] [].

(** Room R, 50.00 an hour, from 10:00 to 12:00; the booth, 0.10 an hour,
    from 10:00 to 13:00. *)
Definition twoHours : Request Create.body := post musician 1 t10_00 t12_00 [] [].
Definition threeHoursBooth : Request Create.body := post musician 2 t10_00 t13_00 [] [].

End Scenario.

(** ** Exact amounts *)

(** The rational a binary64 number stands for; [None] for NaN and the
    infinities. *)
Definition floatValue (f : float) : option Q :=
  match Prim2SF f with
  | S754_zero _ => Some (Qmake 0 1)
  | S754_finite sign m ex =>
      let n := if sign then Z.neg m else Z.pos m in
      Some (match ex with
            | Z0 => Qmake n 1
            | Zpos p => Qmake (n * 2 ^ Zpos p) 1
            | Zneg p => Qmake n (2 ^ p)
            end)
  | _ => None
  end.

(** The decimal product of the specification: an hourly rate given in
    hundredths, as the schema's [decimal(10, 2)] stores it, times the
    length of the window in hours. *)
Definition exactAmount (hundredths : Z) (s e : Z) : Q :=
  ((hundredths # 100) * ((e - s) # 3600000))%Q.

(** ** The specification's conflict rule *)

(** Half-open overlap of the requested window [[s, e)] with the window of
    a stored booking: [s < e' AND s' < e]. *)
Definition halfOpenOverlap (s e : Z) (b : Booking) : bool :=
  (s <? endTime b) && (startTime b <? e).

(** [checkConflict]: some stored booking with status other than
    [cancelled] reserves the resource with an overlapping window. *)
Definition checkConflict (w : World) (r : Resource) (s e : Z) : bool :=
  existsb (fun b => references r b && notCancelled b && halfOpenOverlap s e b)
          (documents (Bookings w)).

(** The same rule over the collection, as a proposition. *)
Definition reserved (w : World) (r : Resource) (s e : Z) : Prop :=
  ∃ i b, Bookings w !! i = Some b ∧ references r b = true ∧ status b ≠ "cancelled"
         ∧ s < endTime b ∧ startTime b < e.

(** ** The controller's checks, read off the world

    These restate what the availability code computes as functions of the
    collections; the lemmas [checkEquipment_run], [checkStaff_run] and
    [createBooking_stages] prove them equal to the code above. *)

(** What the controller's query answers on the same question. *)
Definition queryHits (w : World) (r : Resource) (s e : Z) : bool :=
  match List.find (conflictQuery r s e) (documents (Bookings w)) with
  | Some _ => true
  | None => false
  end.

(** Every stored window has [endTime] after [startTime]. *)
Definition properWindows (w : World) : bool :=
  forallb (fun b => startTime b <? endTime b) (documents (Bookings w)).

(** The length test after [Equipment.find] and after [Staff.find]. *)
Definition equipmentFound (w : World) (ids : list Id) : bool :=
  (length (map_to_list (filter (fun kv => kv.1 ∈ ids) (Equipments w))) =? length ids)%nat.

Definition staffFound (w : World) (ids : list Id) : bool :=
  (length (map_to_list (filter (fun kv => kv.1 ∈ ids) (Staffs w))) =? length ids)%nat.

Definition roomUnavailable : Response :=
  res 400 (Message "Room is not available for the requested time").

(** The answers of the two availability stages as functions of the
    collections. *)
Definition equipmentStage (w : World) (ids : list Id) (s e : Z) : Completion (option Response) :=
  match ids with
  | [] => Normal None
  | _ =>
      if negb (equipmentFound w ids)
      then Normal (Some (res 400 (Message "One or more equipment items not found")))
      else match List.find (fun i => queryHits w (OfEquipment i) s e) ids with
           | None => Normal None
           | Some i =>
               match Equipments w !! i with
               | Some d => Normal (Some (notAvailable "Equipment" (equipment_name d)))
               | None => Throw (TypeError "name")
               end
           end
  end.

Definition staffStage (rt : Runtime) (w : World) (ids : list Id) (s e : Z)
    : Completion (option Response) :=
  match ids with
  | [] => Normal None
  | _ =>
      if negb (Staff_bound rt) then Throw (ReferenceError "Staff")
      else if negb (staffFound w ids)
      then Normal (Some (res 400 (Message "One or more staff members not found")))
      else match List.find (fun i => queryHits w (OfStaff i) s e) ids with
           | None => Normal None
           | Some i =>
               match Staffs w !! i with
               | Some d =>
                   match Users w !! staff_user d with
                   | Some u => Normal (Some (notAvailable "Staff member" (user_name u)))
                   | None => Throw (TypeError "name")
                   end
               | None => Throw (TypeError "user")
               end
           end
  end.


(** ** Reservations that exclude one another *)

(** Two stored windows share an instant. *)
Definition overlapping (a b : Booking) : Prop :=
  startTime a < endTime b ∧ startTime b < endTime a.

(** No two distinct bookings that are not cancelled hold the same room,
    equipment item or staff member over windows that share an instant. *)
Definition noDoubleBooking (w : World) : Prop :=
  ∀ i j a b r,
    i ≠ j → Bookings w !! i = Some a → Bookings w !! j = Some b →
    references r a = true → references r b = true →
    status a ≠ "cancelled" → status b ≠ "cancelled" →
    ¬ overlapping a b.

(** Rooms, studios, equipment, staff and users are the same in both
    worlds. *)
Definition sameDirectory (w w' : World) : Prop :=
  Rooms w' = Rooms w ∧ Studios w' = Studios w ∧ Equipments w' = Equipments w
  ∧ Staffs w' = Staffs w ∧ Users w' = Users w.

(** ** The reading handlers *)

(** The answer of a handler that lists bookings. *)
Inductive ListPayload :=
| ListMessage (message : string)
| Docs (docs : list Booking).

Record ListResponse := { listStatus : Z; listJson : ListPayload }.

(** The [catch] block and the [try] of the listing handlers. *)
Definition listServerError (label : string) (e : Exn) (w : World) : ListResponse * World :=
  ({| listStatus := 500; listJson := ListMessage "Server error" |},
   console_error (label +:+ " " +:+ exnMessage e) w).

Definition try_catch_list (label : string) (m : Async ListResponse) (w : World)
    : ListResponse * World :=
  match m w with
  | (Normal r, w') => (r, w')
  | (Throw e, w') => listServerError label e w'
  end.

(** [.sort({ startTime: 1 })] *)
Definition byStartTime (a b : Booking) : Prop := startTime a ≤ startTime b.

#[global] Instance byStartTime_dec a b : Decision (byStartTime a b) := Z_le_dec _ _.

(** [Booking.find(query)....sort({ startTime: 1 })]; which of two bookings
    that start together comes first is the database's choice, here the
    sort's. *)
Definition Booking_find (q : Booking -> bool) : Async (list Booking) :=
  fun w => (Normal (merge_sort byStartTime (List.filter q (documents (Bookings w)))), w).

(** Reading the identifier [Studio]; like [Staff], the controller never
    requires it, so as the file is written [bound] is [false]. *)
Definition Studio (bound : bool) : Async unit :=
  if bound then ret tt else throw (ReferenceError "Studio").

(** [Studio.find({ owner }).select('_id')], then [Room.find({ studio: { $in:
    studioIds } }).select('_id')]: the ids of the rooms of the studios of
    an owner. *)
Definition studioIdsOf (w : World) (ownerId : Id) : list Id :=
  fst <$> map_to_list (filter (fun kv => studio_owner kv.2 = ownerId) (Studios w)).

Definition roomIdsIn (w : World) (studioIds : list Id) : list Id :=
  fst <$> map_to_list (filter (fun kv => room_studio kv.2 ∈ studioIds) (Rooms w)).

(** [Staff.findOne({ user }).select('studio')] *)
Definition Staff_findOne (rt : Runtime) (u : Id) : Async (option StaffDoc) :=
  Staff rt ;;;
  fun w => (Normal (List.find (fun s => bool_decide (staff_user s = u))
                      (snd <$> map_to_list (Staffs w))), w).

(** [query = {}] is [None]; [query.room = { $in: roomIds }] is [Some]. *)
Definition roomFilter (q : option (list Id)) (b : Booking) : bool :=
  match q with
  | None => true
  | Some roomIds => bool_decide (room b ∈ roomIds)
  end.

Definition respondWithList (q : Booking -> bool) : Async ListResponse :=
  let! bookings := Booking_find q in
  ret {| listStatus := 200; listJson := Docs bookings |}.

Definition getAllBookings (rt : Runtime) (studioBound : bool) (req : Request unit)
    : World -> ListResponse * World :=
  try_catch_list "Get all bookings error:" (
    let! query :=
      (if bool_decide (userType (user req) = "studio_owner")
       then Studio studioBound ;;;
            fun w => (Normal (Some (roomIdsIn w (studioIdsOf w (user_id (user req))))), w)
       else ret None) in
    if bool_decide (userType (user req) = "staff")
    then
      let! staff := Staff_findOne rt (user_id (user req)) in
      match staff with
      | None => ret {| listStatus := 404; listJson := ListMessage "Staff record not found" |}
      | Some st =>
          let! query := (fun w => (Normal (Some (roomIdsIn w [staff_studio st])), w)) in
          respondWithList (roomFilter query)
      end
    else respondWithList (roomFilter query)).

Definition getUserBookings (rt : Runtime) (studioBound : bool) (req : Request unit)
    : World -> ListResponse * World :=
  try_catch_list "Get user bookings error:" (
    if bool_decide (userType (user req) = "musician")
    then respondWithList (fun b => bool_decide (client b = user_id (user req)))
    else fun w =>
      let (r, w') := getAllBookings rt studioBound req w in (Normal r, w')).

Definition getBookingById (rt : Runtime) (req : Request unit) : World -> Response * World :=
  try_catch "Get booking by ID error:" (
    let! found := Booking_findById (params_id req) in
    match found with
    | None => ret (res 404 (Message "Booking not found"))
    | Some booking =>
      let! c := User_findById (client booking) in
      let! _ := prop c "_id" in
      let isClient := isClientOf (user req) booking in
      let! rel := studioRelation rt (user req) booking in
      let '(studio, isStudioOwner, isStaff) := rel in
      if negb isClient && negb isStudioOwner && negb isStaff
      then ret (res 403 (Message "Not authorized to access this booking"))
      else ret (res 200 (Doc (Some booking)))
    end).

(** ** middleware/errorMiddleware.js *)

Module ErrorMiddleware.





End ErrorMiddleware.

(** ** The bookings slice of the client's store *)

Module BookingSlice.

(** A booking as the client holds it: the [id] the reducers compare, and
    the rest. *)
Record Item := { id : Id; fields : Booking }.

Record State := {
  bookings : list Item;
  selectedBooking : option Item;
  isLoading : bool;
  error : option string
}.

Definition initialState : State :=
  {| bookings := []; selectedBooking := None; isLoading := false; error := None |}.

(** The actions of the slice. A [rejected] action carries
    [action.payload?.message], absent when there is no payload or no
    message. *)
Inductive Action :=
| clearBookingError
| clearSelectedBooking
| fetchBookings_pending
| fetchBookings_fulfilled (payload : list Item)
| fetchBookings_rejected (message : option string)
| fetchBookingById_pending
| fetchBookingById_fulfilled (payload : Item)
| fetchBookingById_rejected (message : option string)
| createBooking_pending
| createBooking_fulfilled (payload : Item)
| createBooking_rejected (message : option string)
| updateBooking_pending
| updateBooking_fulfilled (payload : Item)
| updateBooking_rejected (message : option string)
| deleteBooking_pending
| deleteBooking_fulfilled (payload : Id)
| deleteBooking_rejected (message : option string).

Definition pending (state : State) : State :=
  {| bookings := bookings state; selectedBooking := selectedBooking state;
     isLoading := true; error := None |}.

(** [state.error = action.payload?.message || fallback] *)
Definition rejected (state : State) (message : option string) (fallback : string) : State :=
  {| bookings := bookings state; selectedBooking := selectedBooking state;
     isLoading := false;
     error := Some (if truthy message then default "" message else fallback) |}.

(** [state.bookings.findIndex(...)] and the assignment at that index. *)
Definition replaceById (payload : Item) (l : list Item) : list Item :=
  match list_find (fun booking => id booking = id payload) l with
  | Some (index, _) => <[index := payload]> l
  | None => l
  end.

Definition reducer (state : State) (action : Action) : State :=
  match action with
  | clearBookingError =>
      {| bookings := bookings state; selectedBooking := selectedBooking state;
         isLoading := isLoading state; error := None |}
  | clearSelectedBooking =>
      {| bookings := bookings state; selectedBooking := None;
         isLoading := isLoading state; error := error state |}
  | fetchBookings_pending | fetchBookingById_pending | createBooking_pending
  | updateBooking_pending | deleteBooking_pending => pending state
  | fetchBookings_fulfilled payload =>
      {| bookings := payload; selectedBooking := selectedBooking state;
         isLoading := false; error := error state |}
  | fetchBookings_rejected m => rejected state m "Failed to fetch bookings"
  | fetchBookingById_fulfilled payload =>
      {| bookings := bookings state; selectedBooking := Some payload;
         isLoading := false; error := error state |}
  | fetchBookingById_rejected m => rejected state m "Failed to fetch booking"
  | createBooking_fulfilled payload =>
      {| bookings := bookings state ++ [payload]; selectedBooking := selectedBooking state;
         isLoading := false; error := error state |}
  | createBooking_rejected m => rejected state m "Failed to create booking"
  | updateBooking_fulfilled payload =>
      {| bookings := replaceById payload (bookings state);
         selectedBooking := Some payload;
         isLoading := false; error := error state |}
  | updateBooking_rejected m => rejected state m "Failed to update booking"
  | deleteBooking_fulfilled payload =>
      {| bookings := filter (fun booking => id booking ≠ payload) (bookings state);
         selectedBooking :=
           match selectedBooking state with
           | Some selected => if bool_decide (id selected = payload) then None
                              else Some selected
           | None => None
           end;
         isLoading := false; error := error state |}
  | deleteBooking_rejected m => rejected state m "Failed to delete booking"
  end.

(** The last part of an action's type: the phase of its request, or none
    for the two plain reducers. *)
Inductive Phase := Plain | Pending | Fulfilled | Rejected.

Definition phase (action : Action) : Phase :=
  match action with
  | clearBookingError | clearSelectedBooking => Plain
  | fetchBookings_pending | fetchBookingById_pending | createBooking_pending
  | updateBooking_pending | deleteBooking_pending => Pending
  | fetchBookings_fulfilled _ | fetchBookingById_fulfilled _ | createBooking_fulfilled _
  | updateBooking_fulfilled _ | deleteBooking_fulfilled _ => Fulfilled
  | fetchBookings_rejected _ | fetchBookingById_rejected _ | createBooking_rejected _
  | updateBooking_rejected _ | deleteBooking_rejected _ => Rejected
  end.

End BookingSlice.

(** ** controllers/auth.controller.js

    The handlers of the accounts, with the validators that
    [routes/auth.routes.js] puts in front of them. What [bcryptjs],
    [jsonwebtoken], the validators [isEmail] and [isLength], the mailer
    and the environment give during a request is a parameter,
    [Libraries]; the library calls are taken not to throw, except
    [jwt.verify] and [sendEmail]. The fields of a request body are
    strings or missing. *)

Module Auth.

Record Account := {
  name : string;
  email : string;
  password : string;
  userType : string;
  resetPasswordToken : option string;
  resetPasswordExpires : option Z
}.

(** The [user] object of the answers. *)
Record View := { view_id : Id; view_name : string; view_email : string; view_userType : string }.

Definition view (i : Id) (a : Account) : View :=
  {| view_id := i; view_name := name a; view_email := email a; view_userType := userType a |}.

Inductive Payload :=
| Errors (errors : list string)
| Message (message : string)
| Session (token : string) (user : View)
| Profile (user : View).

Record Response := { statusCode : Z; json : Payload }.

Definition res (code : Z) (p : Payload) : Response := {| statusCode := code; json := p |}.

Record World := {
  Users : gmap N Account;
  outbox : list Email;
  console : list string
}.

Definition setUsers (m : gmap N Account) (w : World) : World :=
  {| Users := m; outbox := outbox w; console := console w |}.

Definition pushMail (m : Email) (w : World) : World :=
  {| Users := Users w; outbox := outbox w ++ [m]; console := console w |}.

Definition console_error (line : string) (w : World) : World :=
  {| Users := Users w; outbox := outbox w; console := console w ++ [line] |}.

(** What [jwt.verify] does with a token: the decoded id, or the error it
    throws. *)
Inductive Verified :=
| Decoded (id : Id)
| VerifyThrows (errorName errorMessage : string).

Record Libraries := {
  isEmail : string -> bool;
  isLength : nat -> string -> bool;       (* [isLength({ min })] of the validator *)
  genSalt : string;                       (* the salt [bcrypt.genSalt(10)] draws *)
  hash : string -> string -> string;      (* [bcrypt.hash(password, salt)] *)
  compare : string -> string -> bool;     (* [bcrypt.compare(password, hashed)] *)
  sign : Id -> string -> string;          (* [jwt.sign({ id }, secret, { expiresIn })] *)
  verify : string -> Verified;            (* [jwt.verify(token, secret)] *)
  mailer : Email -> bool;
  Date_now : Z;
  JWT_EXPIRES_IN : string;
  origin : string                         (* [req.protocol]://[req.get('host')] *)
}.

Definition serverError (label message : string) (w : World) : Response * World :=
  (res 500 (Message "Server error"), console_error (label +:+ " " +:+ message) w).

Definition generateToken (lib : Libraries) (i : Id) : string :=
  sign lib i (JWT_EXPIRES_IN lib).

(** [User.findOne({ email })] *)
Definition findByEmail (w : World) (e : string) : option (N * Account) :=
  List.find (fun kv => bool_decide (email kv.2 = e)) (map_to_list (Users w)).

Definition validEmail (lib : Libraries) (o : option string) : bool :=
  match o with
  | Some e => isEmail lib e
  | None => false
  end.

Definition longEnough (lib : Libraries) (o : option string) : bool :=
  match o with
  | Some p => isLength lib 6 p
  | None => false
  end.

Module Register.
Record body := {
  name : option string;
  email : option string;
  password : option string;
  userType : option string
}.
End Register.

Definition registerErrors (lib : Libraries) (b : Register.body) : list string :=
  (if truthy (Register.name b) then [] else ["Name is required"]) ++
  (if validEmail lib (Register.email b) then [] else ["Please include a valid email"]) ++
  (if longEnough lib (Register.password b) then []
   else ["Password must be at least 6 characters"]) ++
  (if bool_decide (Register.userType b ∈ [Some "studio_owner"; Some "musician"; Some "staff"])
   then [] else ["User type is required"]).

Definition register (lib : Libraries) (b : Register.body) (w : World) : Response * World :=
  match registerErrors lib b with
  | (_ :: _) as errors => (res 400 (Errors errors), w)
  | [] =>
    match Register.name b, Register.email b, Register.password b, Register.userType b with
    | Some name, Some email, Some password, Some userType =>
      match findByEmail w email with
      | Some _ => (res 400 (Message "User already exists"), w)
      | None =>
          let _id := fresh (dom (Users w)) in
          let user :=
            {| name := name; email := email;
               password := hash lib password (genSalt lib);
               userType := userType;
               resetPasswordToken := None; resetPasswordExpires := None |} in
          (res 201 (Session (generateToken lib _id) (view _id user)),
           setUsers (<[_id := user]> (Users w)) w)
      end
    | _, _, _, _ => (res 400 (Errors (registerErrors lib b)), w)
    end
  end.

Module Login.
Record body := { email : option string; password : option string }.
End Login.

Definition loginErrors (lib : Libraries) (b : Login.body) : list string :=
  (if validEmail lib (Login.email b) then [] else ["Please include a valid email"]) ++
  (match Login.password b with Some _ => [] | None => ["Password is required"] end).

Definition login (lib : Libraries) (b : Login.body) (w : World) : Response * World :=
  match loginErrors lib b with
  | (_ :: _) as errors => (res 400 (Errors errors), w)
  | [] =>
    match Login.email b, Login.password b with
    | Some email, Some password =>
      match findByEmail w email with
      | None => (res 401 (Message "Invalid credentials"), w)
      | Some (_id, user) =>
          if negb (compare lib password (Auth.password user))
          then (res 401 (Message "Invalid credentials"), w)
          else (res 200 (Session (generateToken lib _id) (view _id user)), w)
      end
    | _, _ => (res 400 (Errors (loginErrors lib b)), w)
    end
  end.

Module UpdateProfile.
Record body := {
  name : option string;
  email : option string;
  currentPassword : option string;
  newPassword : option string
}.
End UpdateProfile.

(** The fields [updateProfile] assigns before it looks at the passwords. *)
Definition renamed (b : UpdateProfile.body) (user : Account) : Account :=
  {| name := if truthy (UpdateProfile.name b) then default "" (UpdateProfile.name b)
             else name user;
     email := if truthy (UpdateProfile.email b) then default "" (UpdateProfile.email b)
              else email user;
     password := password user;
     userType := userType user;
     resetPasswordToken := resetPasswordToken user;
     resetPasswordExpires := resetPasswordExpires user |}.

Definition withPassword (hashed : string) (user : Account) : Account :=
  {| name := name user; email := email user; password := hashed;
     userType := userType user;
     resetPasswordToken := resetPasswordToken user;
     resetPasswordExpires := resetPasswordExpires user |}.

(** The message of the [TypeError] when [User.findById] gave [null]: the
    first use of [user] decides it. *)
Definition nullUserMessage (b : UpdateProfile.body) : string :=
  if truthy (UpdateProfile.name b) then "Cannot set properties of null (setting 'name')"
  else if truthy (UpdateProfile.email b) then "Cannot set properties of null (setting 'email')"
  else if truthy (UpdateProfile.currentPassword b) && truthy (UpdateProfile.newPassword b)
  then exnMessage (TypeError "password")
  else exnMessage (TypeError "save").

Definition updateProfile (lib : Libraries) (uid : Id) (b : UpdateProfile.body) (w : World)
    : Response * World :=
  match Users w !! uid with
  | None => serverError "Update profile error:" (nullUserMessage b) w
  | Some user =>
      let user := renamed b user in
      if truthy (UpdateProfile.currentPassword b) && truthy (UpdateProfile.newPassword b)
      then
        if negb (compare lib (default "" (UpdateProfile.currentPassword b)) (password user))
        then (res 401 (Message "Current password is incorrect"), w)
        else
          let user := withPassword (hash lib (default "" (UpdateProfile.newPassword b))
                                      (genSalt lib)) user in
          (res 200 (Profile (view uid user)), setUsers (<[uid := user]> (Users w)) w)
      else (res 200 (Profile (view uid user)), setUsers (<[uid := user]> (Users w)) w)
  end.

(** The double quote of the [href] attribute. *)
Definition quote : string := String (Ascii.ascii_of_nat 34) EmptyString.

Definition resetEmail (recipient resetUrl : string) : Email :=
  {| to := recipient;
     subject := "Password Reset";
     text := "You requested a password reset. Please go to this link to reset your password: "
             +:+ resetUrl;
     html := "<p>You requested a password reset.</p><p>Please click <a href=" +:+ quote
             +:+ resetUrl +:+ quote +:+ ">here</a> to reset your password.</p>" |}.

Definition forgotPassword (lib : Libraries) (email : option string) (w : World)
    : Response * World :=
  if negb (validEmail lib email) then (res 400 (Errors ["Please include a valid email"]), w)
  else
    match findByEmail w (default "" email) with
    | None => (res 404 (Message "User not found"), w)
    | Some (_id, user) =>
        let resetToken := sign lib _id "1h" in
        let user :=
          {| name := name user; email := Auth.email user; password := password user;
             userType := userType user;
             resetPasswordToken := Some resetToken;
             resetPasswordExpires := Some (Date_now lib + 3600000) |} in
        let saved := setUsers (<[_id := user]> (Users w)) w in
        let resetUrl := origin lib +:+ "/reset-password/" +:+ resetToken in
        let m := resetEmail (Auth.email user) resetUrl in
        if mailer lib m
        then (res 200 (Message "Password reset email sent"), pushMail m saved)
        else serverError "Forgot password error:" (exnMessage MailError) saved
    end.

Module ResetPassword.
Record body := { token : option string; password : option string }.
End ResetPassword.

Definition resetErrors (lib : Libraries) (b : ResetPassword.body) : list string :=
  (if truthy (ResetPassword.token b) then [] else ["Token is required"]) ++
  (if longEnough lib (ResetPassword.password b) then []
   else ["Password must be at least 6 characters"]).

Definition resetPassword (lib : Libraries) (b : ResetPassword.body) (w : World)
    : Response * World :=
  match resetErrors lib b with
  | (_ :: _) as errors => (res 400 (Errors errors), w)
  | [] =>
    match ResetPassword.token b, ResetPassword.password b with
    | Some token, Some password =>
      match verify lib token with
      | VerifyThrows errorName errorMessage =>
          let w := console_error ("Reset password error: " +:+ errorMessage) w in
          if bool_decide (errorName = "JsonWebTokenError")
          then (res 400 (Message "Invalid token"), w)
          else (res 500 (Message "Server error"), w)
      | Decoded id =>
          match Users w !! id with
          | Some user =>
              if bool_decide (resetPasswordToken user = Some token)
                 && match resetPasswordExpires user with
                    | Some expires => Date_now lib <? expires
                    | None => false
                    end
              then
                let user :=
                  {| name := name user; email := email user;
                     password := hash lib password (genSalt lib);
                     userType := userType user;
                     resetPasswordToken := None; resetPasswordExpires := None |} in
                (res 200 (Session (generateToken lib id) (view id user)),
                 setUsers (<[id := user]> (Users w)) w)
              else (res 400 (Message "Invalid or expired token"), w)
          | None => (res 400 (Message "Invalid or expired token"), w)
          end
      end
    | _, _ => (res 400 (Errors (resetErrors lib b)), w)
    end
  end.

(** No two accounts have the same email. *)
Definition uniqueEmails (w : World) : Prop :=
  ∀ i j a b, Users w !! i = Some a → Users w !! j = Some b → email a = email b → i = j.

(** A run of the libraries, and a store with one account, for the
    examples. *)
Module Scenario.

Definition libraries (now : Z) (mail : bool) : Libraries :=
  {| isEmail := fun s => negb (bool_decide (s = ""));
     isLength := fun n s => (n <=? String.length s)%nat;
     genSalt := "salt";
     hash := fun p salt => salt +:+ "$" +:+ p;
     compare := fun p hashed => bool_decide (hashed = "salt$" +:+ p);
     sign := fun i expiresIn => match i with 0%N => "zero." | _ => "other." end +:+ expiresIn;
     verify := fun t => if bool_decide (t = "zero.1h") then Decoded 0
                        else VerifyThrows "JsonWebTokenError" "jwt malformed";
     mailer := fun _ => mail;
     Date_now := now;
     JWT_EXPIRES_IN := "30d";
     origin := "http://localhost:5000" |}.

Definition ada : Account :=
  {| name := "Ada"; email := "ada@example.org"; password := "salt$secret1";
     userType := "musician";
     resetPasswordToken := None; resetPasswordExpires := None |}.

Definition oneAccount : World :=
  {| Users := {[ 0%N := ada ]}; outbox := []; console := [] |}.

Definition newcomer : Register.body :=
  {| Register.name := Some "Bob"; Register.email := Some "bob@example.org";
     Register.password := Some "hunter22"; Register.userType := Some "staff" |}.

End Scenario.

End Auth.

(** The account [resetPassword] saves. *)
Definition afterReset (lib : Auth.Libraries) (p : string) (user : Auth.Account) : Auth.Account :=
  {| Auth.name := Auth.name user; Auth.email := Auth.email user;
     Auth.password := Auth.hash lib p (Auth.genSalt lib);
     Auth.userType := Auth.userType user;
     Auth.resetPasswordToken := None; Auth.resetPasswordExpires := None |}.

(** Room R is booked back to back with the microphone, from 10:00 to 11:00
    and from 11:00 to 12:00. *)
Definition backToBack : World :=
  Scenario.studio
    (<[1%N := Scenario.booked 1 2 Scenario.t10_00 Scenario.t11_00 [1%N] "pending"]>
    (<[2%N := Scenario.booked 1 3 Scenario.t11_00 Scenario.t12_00 [1%N] "confirmed"]> ∅)).

(** * Properties *)

(** ** The availability query and the overlap rule *)

Section Queries.
Implicit Types (w : World) (b : Booking) (r : Resource) (s e : Z).

Lemma elem_of_documents (m : gmap N Booking) b :
  b ∈ documents m ↔ ∃ i, m !! i = Some b.
Proof.
  unfold documents. rewrite list_elem_of_fmap. split.
  - intros [[i b'] [-> Hin]]. exists i. by apply elem_of_map_to_list.
  - intros [i Hi]. exists (i, b). split; [done|]. by apply elem_of_map_to_list.
Qed.

Lemma find_existsb {A} (q : A → bool) (l : list A) :
  match List.find q l with Some _ => true | None => false end = existsb q l.
Proof. induction l as [|a l IH]; simpl; [done|]. by destruct (q a). Qed.

Lemma queryHits_existsb w r s e :
  queryHits w r s e = existsb (conflictQuery r s e) (documents (Bookings w)).
Proof. apply find_existsb. Qed.

Lemma orClauses_of_overlap s e b :
  halfOpenOverlap s e b = true → orClauses s e b = true.
Proof. unfold halfOpenOverlap, orClauses. lia. Qed.

Lemma orClauses_proper s e b :
  s < e → startTime b < endTime b → orClauses s e b = halfOpenOverlap s e b.
Proof. unfold halfOpenOverlap, orClauses. lia. Qed.

Lemma existsb_ext_forallb {A} (p q g : A → bool) (l : list A) :
  forallb g l = true → (∀ a, g a = true → p a = q a) → existsb p l = existsb q l.
Proof.
  intros Hg Hpq. induction l as [|a l IH]; simpl in *; [done|].
  apply andb_prop in Hg as [Ha Hl]. by rewrite (Hpq a Ha), IH.
Qed.

Lemma queryHits_checkConflict w r s e :
  properWindows w = true → s < e → queryHits w r s e = checkConflict w r s e.
Proof.
  intros Hw Hse. rewrite queryHits_existsb. unfold checkConflict.
  apply (existsb_ext_forallb _ _ _ _ Hw). intros b Hb. unfold conflictQuery.
  f_equal. apply orClauses_proper; lia.
Qed.

Lemma checkConflict_queryHits w r s e :
  checkConflict w r s e = true → queryHits w r s e = true.
Proof.
  rewrite queryHits_existsb. unfold checkConflict. rewrite !existsb_exists.
  intros [b [Hin Hb]]. exists b. split; [done|]. unfold conflictQuery.
  apply andb_prop in Hb as [-> Ho]. by rewrite (orClauses_of_overlap _ _ _ Ho).
Qed.

Lemma notCancelled_true b : notCancelled b = true ↔ status b ≠ "cancelled".
Proof. unfold notCancelled. rewrite negb_true_iff, bool_decide_eq_false. done. Qed.

Lemma checkConflict_reserved w r s e :
  checkConflict w r s e = true ↔ reserved w r s e.
Proof.
  unfold checkConflict, reserved. rewrite existsb_exists. split.
  - intros [b [Hin Hb]]. apply list_elem_of_In, elem_of_documents in Hin as [i Hi].
    exists i, b. unfold halfOpenOverlap in Hb.
    rewrite !andb_true_iff, notCancelled_true in Hb. intuition lia.
  - intros (i & b & Hi & Hr & Hs & H1 & H2). exists b. split.
    + apply list_elem_of_In, elem_of_documents. eauto.
    + unfold halfOpenOverlap. rewrite !andb_true_iff, notCancelled_true. intuition lia.
Qed.

Lemma size_list_to_set_le (ids : list N) :
  (size (list_to_set ids : gset N) ≤ length ids)%nat.
Proof.
  induction ids as [|a ids IH].
  - change (list_to_set [] : gset N) with (∅ : gset N). by rewrite size_empty.
  - change (list_to_set (a :: ids) : gset N) with ({[a]} ∪ list_to_set ids : gset N).
    rewrite size_union_alt, size_singleton. simpl.
    assert (Hsub : (list_to_set ids ∖ {[a]} : gset N) ⊆ list_to_set ids).
    { intros x Hx. by apply elem_of_difference in Hx as [Hx _]. }
    apply subseteq_size in Hsub. lia.
Qed.

Lemma found_all {A} (m : gmap N A) (ids : list N) :
  length (map_to_list (filter (λ kv, kv.1 ∈ ids) m)) = length ids →
  ∀ i, i ∈ ids → is_Some (m !! i).
Proof.
  intros Hlen. rewrite length_map_to_list, <- (size_dom (D := gset N)) in Hlen.
  set (D := dom (filter (λ kv : N * A, kv.1 ∈ ids) m)) in *.
  assert (HD : D ⊆ list_to_set ids).
  { intros i Hi. apply elem_of_dom in Hi as [x Hx].
    apply map_lookup_filter_Some in Hx as [_ Hx]. by apply elem_of_list_to_set. }
  pose proof (size_list_to_set_le ids) as Hle.
  assert (HE : D = list_to_set ids) by (apply set_subseteq_size_eq; [done | lia]).
  intros i Hi. apply (elem_of_list_to_set (C := gset N)) in Hi. rewrite <- HE in Hi.
  apply elem_of_dom in Hi as [x Hx]. apply map_lookup_filter_Some in Hx as [Hx _]. eauto.
Qed.

(** The stages run without touching the world. *)
Lemma equipmentLoop_run ids s e w :
  equipmentLoop ids s e w =
  (match List.find (fun i => queryHits w (OfEquipment i) s e) ids with
   | None => Normal None
   | Some i =>
       match Equipments w !! i with
       | Some d => Normal (Some (notAvailable "Equipment" (equipment_name d)))
       | None => Throw (TypeError "name")
       end
   end, w).
Proof.
  induction ids as [|i ids IH]; simpl; [done|].
  unfold bind, Booking_findOne, queryHits at 1.
  destruct (List.find _ (documents (Bookings w))); [|apply IH].
  unfold Equipment_findById. by destruct (Equipments w !! i).
Qed.

Lemma checkEquipment_run ids s e w :
  checkEquipment ids s e w = (equipmentStage w ids s e, w).
Proof.
  destruct ids as [|i ids]; [done|].
  unfold checkEquipment, equipmentStage, equipmentFound. generalize (i :: ids). intros l.
  unfold bind, Equipment_find.
  destruct (negb _); [done|]. apply equipmentLoop_run.
Qed.

Lemma staffLoop_run rt ids s e w :
  Staff_bound rt = true →
  staffLoop rt ids s e w =
  (match List.find (fun i => queryHits w (OfStaff i) s e) ids with
   | None => Normal None
   | Some i =>
       match Staffs w !! i with
       | Some d =>
           match Users w !! staff_user d with
           | Some u => Normal (Some (notAvailable "Staff member" (user_name u)))
           | None => Throw (TypeError "name")
           end
       | None => Throw (TypeError "user")
       end
   end, w).
Proof.
  intros Hb. induction ids as [|i ids IH]; simpl; [done|].
  unfold bind, Booking_findOne, queryHits at 1.
  destruct (List.find _ (documents (Bookings w))); [|apply IH].
  unfold Staff_findById, Staff, bind. rewrite Hb. simpl.
  destruct (Staffs w !! i) as [d|]; simpl; [|done].
  by destruct (Users w !! staff_user d).
Qed.

Lemma checkStaff_run rt ids s e w :
  checkStaff rt ids s e w = (staffStage rt w ids s e, w).
Proof.
  destruct ids as [|i ids]; [done|].
  unfold checkStaff, staffStage, staffFound. generalize (i :: ids). intros l.
  unfold bind, Staff_find, Staff.
  destruct (Staff_bound rt) eqn:Hb; simpl; [|done]. unfold bind; simpl.
  destruct (negb _); [done|]. by apply staffLoop_run.
Qed.
End Queries.

(** ** The stages of createBooking *)

Section CreateRuns.
Variables (rt : Runtime) (req : Request Create.body) (w : World).
Variables (roomId : Id) (s e : Z) (room : RoomDoc).
Hypothesis Hroom : Create.roomId (body req) = Some roomId.
Hypothesis Hstart : Create.startTime (body req) = Some s.
Hypothesis Hend : Create.endTime (body req) = Some e.

Let booking := newBooking req roomId room s e.
Let saved := setBookings (<[newObjectId (Bookings w) := booking]> (Bookings w)) w.

Lemma persist_run (studio : option StudioDoc) :
  try_catch "Create booking error:" (persistAndNotify rt req roomId (room, studio) s e) w =
  match studio with
  | None => serverError "Create booking error:" (TypeError "owner") saved
  | Some st =>
      match Users w !! studio_owner st with
      | None => serverError "Create booking error:" (TypeError "email") saved
      | Some o =>
          let m := newBookingEmail (user_email o) (studio_name st) in
          if mailer rt m then (res 201 (Doc (Some booking)), pushMail m saved)
          else serverError "Create booking error:" MailError saved
      end
  end.
Proof.
  unfold try_catch, persistAndNotify, bind, Booking_save, User_findById, sendEmail,
    Booking_findById, serverError. cbn [fst snd].
  destruct studio as [st|]; cbn; [|done].
  destruct (Users w !! studio_owner st) as [o|]; cbn; [|done].
  destruct (mailer rt _); cbn; [|done].
  by rewrite lookup_insert_eq.
Qed.

Lemma createBooking_stages :
  Rooms w !! roomId = Some room →
  createBooking rt req w =
  if queryHits w (OfRoom roomId) s e then (roomUnavailable, w)
  else match equipmentStage w (Create.equipmentIds (body req)) s e with
       | Normal (Some r) => (r, w)
       | Throw ex => serverError "Create booking error:" ex w
       | Normal None =>
           match staffStage rt w (Create.staffIds (body req)) s e with
           | Normal (Some r) => (r, w)
           | Throw ex => serverError "Create booking error:" ex w
           | Normal None =>
               try_catch "Create booking error:"
                 (persistAndNotify rt req roomId (room, Studios w !! room_studio room) s e) w
           end
       end.
Proof.
  intros Hr. unfold createBooking, validationResult. rewrite Hroom, Hstart, Hend.
  cbn [app]. unfold try_catch at 1. unfold bind at 1. unfold Room_findById at 1.
  rewrite Hr. cbn [fmap option_fmap option_map].
  unfold bind at 1. unfold Booking_findOne at 1. unfold queryHits.
  destruct (List.find _ _); [done|].
  unfold bind at 1. rewrite checkEquipment_run.
  destruct (equipmentStage _ _ _ _) as [[r|]|ex]; [done| |done].
  unfold bind at 1. rewrite checkStaff_run.
  destruct (staffStage _ _ _ _ _) as [[r|]|ex]; [done| |done].
  reflexivity.
Qed.
End CreateRuns.

Lemma find_hit w (R : Id → Resource) s e ids i :
  properWindows w = true → s < e →
  List.find (fun i => queryHits w (R i) s e) ids = Some i →
  i ∈ ids ∧ reserved w (R i) s e.
Proof.
  intros Hw Hse Hf. apply find_some in Hf as [Hin Hq].
  rewrite queryHits_checkConflict in Hq by done.
  split; [by apply list_elem_of_In | by apply checkConflict_reserved].
Qed.

Lemma find_no_hit w (R : Id → Resource) s e ids :
  List.find (fun i => queryHits w (R i) s e) ids = None →
  ∀ i, i ∈ ids → ¬ reserved w (R i) s e.
Proof.
  intros Hf i Hi Hres. apply list_elem_of_In in Hi.
  pose proof (find_none _ _ Hf i Hi) as Hq. cbv beta in Hq.
  apply checkConflict_reserved, checkConflict_queryHits in Hres. congruence.
Qed.

Lemma persist_status rt req w roomId room s e :
  let a := (try_catch "Create booking error:" (persistAndNotify rt req roomId room s e) w).1 in
  statusCode a = 201 ∨ statusCode a = 500.
Proof.
  destruct room as [room studio]. rewrite persist_run. unfold serverError.
  destruct studio as [st|]; [|by right].
  destruct (Users w !! studio_owner st); [|by right].
  cbv zeta. destruct (mailer rt _); [by left | by right].
Qed.

Lemma equipmentStage_cases w ids s e :
  properWindows w = true → s < e →
  match equipmentStage w ids s e with
  | Normal None => ∀ i, i ∈ ids → ¬ reserved w (OfEquipment i) s e
  | Normal (Some r) =>
      (r = res 400 (Message "One or more equipment items not found")
       ∧ equipmentFound w ids = false)
      ∨ (∃ i d, r = notAvailable "Equipment" (equipment_name d)
                ∧ i ∈ ids ∧ reserved w (OfEquipment i) s e)
  | Throw _ => False
  end.
Proof.
  intros Hw Hse. unfold equipmentStage.
  destruct ids as [|i0 ids0]; [by intros i Hi; apply elem_of_nil in Hi|].
  generalize (i0 :: ids0). intros ids.
  destruct (equipmentFound w ids) eqn:Hfound; cbn [negb]; [|left; done].
  destruct (List.find _ ids) as [i|] eqn:Hfind.
  - destruct (find_hit w OfEquipment s e ids i Hw Hse Hfind) as [Hi Hres].
    apply Nat.eqb_eq in Hfound. destruct (found_all _ _ Hfound i Hi) as [d Hd].
    rewrite Hd. right. eauto.
  - by apply find_no_hit.
Qed.

Lemma staffStage_cases rt w ids s e :
  properWindows w = true → s < e →
  match staffStage rt w ids s e with
  | Normal None => ∀ i, i ∈ ids → ¬ reserved w (OfStaff i) s e
  | Normal (Some r) =>
      (r = res 400 (Message "One or more staff members not found")
       ∧ staffFound w ids = false)
      ∨ (∃ i name, r = notAvailable "Staff member" name
                   ∧ i ∈ ids ∧ reserved w (OfStaff i) s e)
  | Throw _ =>
      Staff_bound rt = false
      ∨ (∃ i d, i ∈ ids ∧ Staffs w !! i = Some d ∧ Users w !! staff_user d = None)
  end.
Proof.
  intros Hw Hse. unfold staffStage.
  destruct ids as [|i0 ids0]; [by intros i Hi; apply elem_of_nil in Hi|].
  generalize (i0 :: ids0). intros ids.
  destruct (Staff_bound rt); cbn [negb]; [|by left].
  destruct (staffFound w ids) eqn:Hfound; cbn [negb]; [|by left].
  destruct (List.find _ ids) as [i|] eqn:Hfind; [|by apply find_no_hit].
  destruct (find_hit w OfStaff s e ids i Hw Hse Hfind) as [Hi Hres].
  apply Nat.eqb_eq in Hfound. destruct (found_all _ _ Hfound i Hi) as [d Hd].
  rewrite Hd. destruct (Users w !! staff_user d) as [u|] eqn:Hu; right; eauto.
Qed.

(** C1, as the controller has it. Take a request for an existing room and
    a window [[s, e)] with [s < e], on a collection where every stored
    booking ends after it starts. Then
    - createBooking answers that the room is not available exactly when
      some stored booking of that room with a status other than [cancelled]
      has a window [[s', e')] with [s < e'] and [s' < e];
    - when the room is free and the equipment ids pass the lookup,
      it answers that an equipment item is not available exactly when one
      of the requested ids is held by such a booking;
    - an answer that a staff member is not available comes from such a
      booking holding one of the requested staff ids; where the identifier
      [Staff] resolves, the room and the requested equipment are free and
      the requested staff ids and their users resolve, that answer is given
      exactly when one of the requested staff ids is held by such a booking;
    - with any of these three answers nothing is stored.
    A cancelled booking therefore never makes the room or an item
    unavailable. *)
Theorem createBooking_reports_overlap
    (rt : Runtime) (req : Request Create.body) (w : World) (roomId : Id) (s e : Z) :
  Create.roomId (body req) = Some roomId →
  Create.startTime (body req) = Some s →
  Create.endTime (body req) = Some e →
  s < e →
  properWindows w = true →
  is_Some (Rooms w !! roomId) →
  let answer := (createBooking rt req w).1 in
  let ids := Create.equipmentIds (body req) in
  let sids := Create.staffIds (body req) in
  (answer = roomUnavailable ↔ reserved w (OfRoom roomId) s e)
  ∧ (¬ reserved w (OfRoom roomId) s e → equipmentFound w ids = true →
     ((∃ name, answer = notAvailable "Equipment" name)
      ↔ ∃ i, i ∈ ids ∧ reserved w (OfEquipment i) s e))
  ∧ (∀ name, answer = notAvailable "Staff member" name →
     ∃ i, i ∈ sids ∧ reserved w (OfStaff i) s e)
  ∧ (Staff_bound rt = true →
     ¬ reserved w (OfRoom roomId) s e →
     equipmentFound w ids = true →
     (∀ i, i ∈ ids → ¬ reserved w (OfEquipment i) s e) →
     staffFound w sids = true →
     (∀ i d, i ∈ sids → Staffs w !! i = Some d → is_Some (Users w !! staff_user d)) →
     ((∃ name, answer = notAvailable "Staff member" name)
      ↔ ∃ i, i ∈ sids ∧ reserved w (OfStaff i) s e))
  ∧ (answer = roomUnavailable
     ∨ (∃ name, answer = notAvailable "Equipment" name)
     ∨ (∃ name, answer = notAvailable "Staff member" name) →
     (createBooking rt req w).2 = w).
Proof.
  intros Hroom Hstart Hend Hse Hw [room Hr] answer ids sids.
  pose proof (createBooking_stages rt req w roomId s e room Hroom Hstart Hend Hr) as Hrun.
  pose proof (queryHits_checkConflict w (OfRoom roomId) s e Hw Hse) as Hq.
  pose proof (checkConflict_reserved w (OfRoom roomId) s e) as Hc.
  pose proof (persist_status rt req w roomId (room, Studios w !! room_studio room) s e) as Hp.
  subst answer. rewrite Hrun. clear Hrun.
  destruct (queryHits w (OfRoom roomId) s e) eqn:Hhit.
  { (* the room query hits *)
    assert (Hres : reserved w (OfRoom roomId) s e) by (apply Hc; congruence).
    cbn [fst snd]. split; [|split; [|split; [|split]]]; [done| | | |done].
    - by intros Hfree.
    - intros name H. by inversion H.
    - by intros _ Hfree. }
  assert (Hfree : ¬ reserved w (OfRoom roomId) s e).
  { intros Hres. apply Hc in Hres. congruence. }
  pose proof (equipmentStage_cases w ids s e Hw Hse) as He.
  pose proof (staffStage_cases rt w sids s e Hw Hse) as Hs.
  fold ids sids.
  destruct (equipmentStage w ids s e) as [[r|]|ex]; [| |done].
  { (* the equipment stage answers *)
    cbn [fst snd]. destruct He as [[-> Hnf]|(i & d & -> & Hi & Hres)].
    - split; [|split; [|split; [|split]]]; [| | | |done].
      + split; [intros H; by inversion H | done].
      + intros _ Hfound. congruence.
      + intros name H. by inversion H.
      + intros _ _ Hfound. congruence.
    - split; [|split; [|split; [|split]]]; [| | | |done].
      + split; [intros H; by inversion H | done].
      + intros _ _. split; eauto.
      + intros name H. by inversion H.
      + intros _ _ _ Hno. by destruct (Hno i Hi). }
  destruct (staffStage rt w sids s e) as [[r|]|ex].
  - (* the staff stage answers *)
    cbn [fst snd]. split; [|split; [|split; [|split]]]; [| | | |done].
    + split; [|done]. intros ->.
      destruct Hs as [[H _]|(i & name & H & _)]; by inversion H.
    + intros _ _. split.
      * intros [name ->]. destruct Hs as [[H _]|(i & name' & H & _)]; by inversion H.
      * intros (i & Hi & Hres). by destruct (He i Hi).
    + intros name ->. destruct Hs as [[H _]|(i & name' & H & Hi & Hres)]; [by inversion H|eauto].
    + intros _ _ _ _ Hfound _.
      destruct Hs as [[_ Hnf]|(i & name & -> & Hi & Hres)]; [congruence|].
      split; eauto.
  - (* the booking is built *)
    assert (Hneq : ∀ m, (try_catch "Create booking error:"
              (persistAndNotify rt req roomId (room, Studios w !! room_studio room) s e) w).1
              ≠ res 400 m).
    { intros m Hm. rewrite Hm in Hp. cbn in Hp. lia. }
    split; [|split; [|split; [|split]]].
    + split; [|done]. intros H. by apply Hneq in H.
    + intros _ _. split.
      * intros [name H]. by apply Hneq in H.
      * intros (i & Hi & Hres). by destruct (He i Hi).
    + intros name H. by apply Hneq in H.
    + intros _ _ _ _ _ _. split.
      * intros [name H]. by apply Hneq in H.
      * intros (i & Hi & Hres). by destruct (Hs i Hi).
    + intros [H|[[name H]|[name H]]]; by apply Hneq in H.
  - (* the staff stage throws *)
    cbn [fst snd]. split; [|split; [|split; [|split]]].
    + split; [intros H; by inversion H | done].
    + intros _ _. split.
      * intros [name H]. by inversion H.
      * intros (i & Hi & Hres). by destruct (He i Hi).
    + intros name H. by inversion H.
    + intros Hb _ _ _ _ Husers.
      destruct Hs as [Hs|(i & d & Hi & Hd & Hu)]; [congruence|].
      destruct (Husers i d Hi Hd) as [u Hu']. congruence.
    + intros [H|[[name H]|[name H]]]; by inversion H.
Qed.

(** As the controller is written, a request that names staff and passes the
    room and equipment stages ends in the catch block. *)
Lemma createBooking_staff_unbound rt req w roomId s e room :
  Create.roomId (body req) = Some roomId →
  Create.startTime (body req) = Some s →
  Create.endTime (body req) = Some e →
  Rooms w !! roomId = Some room →
  Staff_bound rt = false →
  queryHits w (OfRoom roomId) s e = false →
  equipmentStage w (Create.equipmentIds (body req)) s e = Normal None →
  Create.staffIds (body req) ≠ [] →
  createBooking rt req w = serverError "Create booking error:" (ReferenceError "Staff") w.
Proof.
  intros Hroom Hstart Hend Hr Hb Hq He Hs.
  rewrite (createBooking_stages rt req w roomId s e room Hroom Hstart Hend Hr), Hq, He.
  unfold staffStage. destruct (Create.staffIds (body req)); [done|]. by rewrite Hb.
Qed.

(** C1, as the specification states it, does not hold:
    createBooking stores a booking from
    10:00 to 10:00, and that booking makes the room query hit for 10:00 to
    11:00, although no stored window overlaps it. *)
Lemma createBooking_conflict_without_overlap :
  statusCode (createBooking Scenario.mailUp Scenario.emptyWindow (Scenario.studio ∅)).1 = 201
  ∧ (createBooking Scenario.mailUp
       (Scenario.post Scenario.otherMusician 1 Scenario.t10_00 Scenario.t11_00 [] [])
       Scenario.afterEmptyWindow).1 = roomUnavailable
  ∧ ¬ reserved Scenario.afterEmptyWindow (OfRoom 1) Scenario.t10_00 Scenario.t11_00.
Proof.
  split; [by vm_compute|]. split; [by vm_compute|].
  rewrite <- checkConflict_reserved. by vm_compute.
Qed.

(** Booking A is cancelled: B on the same room and window is created. *)
Lemma createBooking_reports_overlap_witness :
  properWindows Scenario.cancelledA = true
  ∧ ((createBooking Scenario.mailUp
        (Scenario.post Scenario.otherMusician 1 Scenario.t10_00 Scenario.t11_00 [] [])
        Scenario.cancelledA).1 = roomUnavailable
     ↔ reserved Scenario.cancelledA (OfRoom 1) Scenario.t10_00 Scenario.t11_00)
  ∧ statusCode (createBooking Scenario.mailUp
        (Scenario.post Scenario.otherMusician 1 Scenario.t10_00 Scenario.t11_00 [] [])
        Scenario.cancelledA).1 = 201.
Proof.
  split; [reflexivity|]. split; [|by vm_compute].
  apply (createBooking_reports_overlap Scenario.mailUp
           (Scenario.post Scenario.otherMusician 1 Scenario.t10_00 Scenario.t11_00 [] [])
           Scenario.cancelledA 1%N Scenario.t10_00 Scenario.t11_00);
    [reflexivity | reflexivity | reflexivity | reflexivity | reflexivity
    | eexists; reflexivity].
Defined.

(** ** The handlers on a stored booking *)

Lemma studioRelation_world rt u booking w : (studioRelation rt u booking w).2 = w.
Proof.
  unfold studioRelation, bind, Room_findById.
  destruct (Rooms w !! room booking) as [r|]; cbn; [|done].
  destruct (Studios w !! room_studio r) as [st|]; cbn; [|done].
  destruct (bool_decide (userType u = "staff")); cbn; [|done].
  unfold Staff_exists, Staff, bind. by destruct (Staff_bound rt).
Qed.

Lemma studioRelation_eq rt u booking w c :
  (studioRelation rt u booking w).1 = c → studioRelation rt u booking w = (c, w).
Proof.
  intros <-. rewrite <- (studioRelation_world rt u booking w) at 3.
  by destruct (studioRelation rt u booking w).
Qed.

(** What the relationship lines find, for an actor who is not of type
    [staff] and for one who is when [Staff] resolves. *)
Lemma studioRelation_not_staff rt u booking w r st :
  userType u ≠ "staff" →
  Rooms w !! room booking = Some r →
  Studios w !! room_studio r = Some st →
  (studioRelation rt u booking w).1
  = Normal (st, bool_decide (studio_owner st = user_id u), false).
Proof.
  intros Hu Hr Hst. unfold studioRelation, bind, Room_findById.
  rewrite Hr. cbn. rewrite Hst. cbn. by rewrite bool_decide_eq_false_2.
Qed.

Lemma studioRelation_staff rt u booking w r st :
  Staff_bound rt = true →
  userType u = "staff" →
  Rooms w !! room booking = Some r →
  Studios w !! room_studio r = Some st →
  (studioRelation rt u booking w).1
  = Normal (st, bool_decide (studio_owner st = user_id u),
            existsb (fun d => bool_decide (staff_user d = user_id u)
                              && bool_decide (staff_studio d = room_studio r))
                    (snd <$> map_to_list (Staffs w))).
Proof.
  intros Hb Hu Hr Hst. unfold studioRelation, bind, Room_findById.
  rewrite Hr. cbn. rewrite Hst. cbn. rewrite bool_decide_eq_true_2 by done.
  unfold Staff_exists, Staff, bind. by rewrite Hb.
Qed.

Lemma statusWasUpdated_managerEdit b booking :
  statusWasUpdated b (managerEdit b booking) = false.
Proof.
  unfold statusWasUpdated, managerEdit. cbn.
  destruct (Update.status b) as [s|]; [|done].
  destruct (negb (bool_decide (s = ""))); [|done]. cbn. by rewrite bool_decide_eq_true_2.
Qed.

Ltac load_booking Hfound Hrel :=
  unfold try_catch; unfold bind at 1; unfold Booking_findById at 1;
  rewrite Hfound; unfold bind at 1;
  rewrite (studioRelation_eq _ _ _ _ _ Hrel).

Section OnStoredBooking.
Variables (rt : Runtime) (w : World) (u : Actor) (i : Id) (booking : Booking).
Hypothesis Hfound : Bookings w !! i = Some booking.

Section Thrown.
Variable ex : Exn.
Hypothesis Hrel : (studioRelation rt u booking w).1 = Throw ex.

Lemma updateBooking_thrown b :
  updateBooking rt {| user := u; params_id := i; body := b |} w
  = serverError "Update booking error:" ex w.
Proof. unfold updateBooking. cbn [user params_id body]. by load_booking Hfound Hrel. Qed.

Lemma deleteBooking_thrown :
  deleteBooking rt {| user := u; params_id := i; body := tt |} w
  = serverError "Delete booking error:" ex w.
Proof. unfold deleteBooking. cbn [user params_id body]. by load_booking Hfound Hrel. Qed.

Lemma confirmBooking_thrown :
  confirmBooking rt {| user := u; params_id := i; body := tt |} w
  = serverError "Confirm booking error:" ex w.
Proof. unfold confirmBooking. cbn [user params_id body]. by load_booking Hfound Hrel. Qed.

Lemma cancelBooking_thrown b :
  cancelBooking rt {| user := u; params_id := i; body := b |} w
  = serverError "Cancel booking error:" ex w.
Proof. unfold cancelBooking. cbn [user params_id body]. by load_booking Hfound Hrel. Qed.
End Thrown.

Section Related.
Variables (studio : StudioDoc) (isStudioOwner isStaff : bool).
Hypothesis Hrel :
  (studioRelation rt u booking w).1 = Normal (studio, isStudioOwner, isStaff).

Let isClient := isClientOf u booking.
Let stranger := negb isClient && negb isStudioOwner && negb isStaff.

Lemma updateBooking_run b :
  updateBooking rt {| user := u; params_id := i; body := b |} w =
  if stranger then (res 403 (Message "Not authorized to update this booking"), w)
  else if isClient then
    if negb (bool_decide (status booking = "pending"))
    then (res 400 (Message "Cannot update a confirmed or cancelled booking"), w)
    else (res 200 (Doc (Some (clientEdit b booking))),
          setBookings (<[i := clientEdit b booking]> (Bookings w)) w)
  else (res 200 (Doc (Some (managerEdit b booking))),
        setBookings (<[i := managerEdit b booking]> (Bookings w)) w).
Proof.
  unfold updateBooking. cbn [user params_id body]. load_booking Hfound Hrel.
  subst stranger isClient. destruct (negb _ && negb _ && negb _); [done|].
  destruct (isClientOf u booking).
  - destruct (negb _); [done|]. cbn. by rewrite lookup_insert_eq.
  - rewrite statusWasUpdated_managerEdit. cbn. by rewrite lookup_insert_eq.
Qed.

Lemma deleteBooking_run :
  deleteBooking rt {| user := u; params_id := i; body := tt |} w =
  if stranger then (res 403 (Message "Not authorized to delete this booking"), w)
  else if isClient && negb (bool_decide (status booking = "pending"))
  then (res 400 (Message "Cannot delete a confirmed booking. Please use cancel instead."), w)
  else (res 200 (Message "Booking deleted successfully"),
        setBookings (delete i (Bookings w)) w).
Proof.
  unfold deleteBooking. cbn [user params_id body]. load_booking Hfound Hrel.
  subst stranger isClient. destruct (negb _ && negb _ && negb _); [done|].
  by destruct (isClientOf u booking && _).
Qed.

Lemma confirmBooking_run :
  confirmBooking rt {| user := u; params_id := i; body := tt |} w =
  if negb isStudioOwner && negb isStaff
  then (res 403 (Message "Not authorized to confirm this booking"), w)
  else
    let saved := setBookings (<[i := withStatus "confirmed" booking]> (Bookings w)) w in
    match Users w !! client booking with
    | None => serverError "Confirm booking error:" (TypeError "email") saved
    | Some c =>
        let m := confirmedEmail (user_email c) (studio_name studio) in
        if mailer rt m
        then (res 200 (Doc (Some (withStatus "confirmed" booking))), pushMail m saved)
        else serverError "Confirm booking error:" MailError saved
    end.
Proof.
  unfold confirmBooking. cbn [user params_id body]. load_booking Hfound Hrel.
  destruct (negb isStudioOwner && negb isStaff); [done|]. cbn.
  unfold bind, User_findById, sendEmail. cbn.
  destruct (Users w !! client booking) as [c|]; cbn; [|done].
  destruct (mailer rt _); cbn; [|done]. by rewrite lookup_insert_eq.
Qed.

Lemma cancelBooking_run b :
  let req := {| user := u; params_id := i; body := b |} in
  cancelBooking rt req w =
  if stranger then (res 403 (Message "Not authorized to cancel this booking"), w)
  else
    let after := cancelled rt req booking in
    let saved := setBookings (<[i := after]> (Bookings w)) w in
    let reason := default "" (cancellationReason after) in
    let recipient := if isClient then Users w !! studio_owner studio
                     else Users w !! client booking in
    match recipient with
    | None => serverError "Cancel booking error:" (TypeError "email") saved
    | Some r =>
        let m := cancelledEmail (user_email r) (studio_name studio) isClient reason in
        if mailer rt m then (res 200 (Doc (Some after)), pushMail m saved)
        else serverError "Cancel booking error:" MailError saved
    end.
Proof.
  intros req. unfold cancelBooking. subst req. cbn [user params_id body].
  load_booking Hfound Hrel.
  subst stranger isClient. destruct (negb _ && negb _ && negb _); [done|].
  cbn zeta. unfold bind, Booking_save, User_findById, sendEmail. cbn [client cancelled].
  destruct (isClientOf u booking); cbn.
  - destruct (Users w !! studio_owner studio) as [o|]; cbn; [|done].
    destruct (mailer rt _); cbn; [|done]. by rewrite lookup_insert_eq.
  - destruct (Users w !! client booking) as [c|]; cbn; [|done].
    destruct (mailer rt _); cbn; [|done]. by rewrite lookup_insert_eq.
Qed.
End Related.
End OnStoredBooking.

(** As the controller is written, the relationship lines throw for an
    actor of type [staff], so each of the four handlers answers 500 and
    changes no booking. *)
Lemma staff_actor_throws rt u booking w r st :
  Staff_bound rt = false →
  userType u = "staff" →
  Rooms w !! room booking = Some r →
  Studios w !! room_studio r = Some st →
  (studioRelation rt u booking w).1 = Throw (ReferenceError "Staff").
Proof.
  intros Hb Hu Hr Hst. unfold studioRelation, bind, Room_findById.
  rewrite Hr. cbn. rewrite Hst. cbn. rewrite bool_decide_eq_true_2 by done.
  unfold Staff_exists, Staff, bind. by rewrite Hb.
Qed.

Lemma staff_actor_answered_500 rt u i booking w r st :
  Staff_bound rt = false →
  userType u = "staff" →
  Bookings w !! i = Some booking →
  Rooms w !! room booking = Some r →
  Studios w !! room_studio r = Some st →
  (∀ b, updateBooking rt {| user := u; params_id := i; body := b |} w
        = serverError "Update booking error:" (ReferenceError "Staff") w)
  ∧ deleteBooking rt {| user := u; params_id := i; body := tt |} w
    = serverError "Delete booking error:" (ReferenceError "Staff") w
  ∧ confirmBooking rt {| user := u; params_id := i; body := tt |} w
    = serverError "Confirm booking error:" (ReferenceError "Staff") w
  ∧ (∀ b, cancelBooking rt {| user := u; params_id := i; body := b |} w
          = serverError "Cancel booking error:" (ReferenceError "Staff") w).
Proof.
  intros Hb Hu Hfound Hr Hst.
  pose proof (staff_actor_throws rt u booking w r st Hb Hu Hr Hst) as Hrel.
  split; [intros b; by apply updateBooking_thrown with booking|].
  split; [by apply deleteBooking_thrown with booking|].
  split; [by apply confirmBooking_thrown with booking|].
  intros b. by apply cancelBooking_thrown with booking.
Qed.

(** The studio's engineer, of type [staff] and on its staff, asks to confirm
    pending booking 1, and a client asks for the engineer: both requests end
    in the catch block. *)
Example staff_requests_as_written :
  confirmBooking Scenario.mailUp (Scenario.on Scenario.engineer 1) Scenario.microphoneHeld
  = serverError "Confirm booking error:" (ReferenceError "Staff") Scenario.microphoneHeld
  ∧ createBooking Scenario.mailUp
      (Scenario.post Scenario.musician 1 Scenario.t12_00 Scenario.t13_00 [] [1%N])
      Scenario.microphoneHeld
    = serverError "Create booking error:" (ReferenceError "Staff") Scenario.microphoneHeld.
Proof. split; by vm_compute. Qed.

(** ** Updating without availability checks *)

(** C2. updateBooking runs no availability query. Pending booking 1 holds
    the microphone from 10:00 to 11:00: asking createBooking for the other
    room with the microphone from 10:30 to 11:30 is answered that the
    equipment is not available, while booking 2, made for that room and
    window without equipment, takes the microphone through updateBooking and
    the answer is the updated booking. Likewise the owner puts cancelled
    booking 1 back to confirmed on a room that booking 2 now holds for the
    same window. *)
Theorem updateBooking_skips_availability :
  reserved Scenario.sharedMicrophone (OfEquipment 1) Scenario.t10_30 Scenario.t11_30
  ∧ (createBooking Scenario.mailUp
       (Scenario.post Scenario.otherMusician 2 Scenario.t10_30 Scenario.t11_30 [1%N] [])
       Scenario.microphoneHeld).1 = notAvailable "Equipment" "Microphone"
  ∧ (updateBooking Scenario.mailUp Scenario.takeMicrophone Scenario.sharedMicrophone).1
    = res 200 (Doc (Some (Scenario.booked 2 3 Scenario.t10_30 Scenario.t11_30 [1%N] "pending")))
  ∧ Bookings (updateBooking Scenario.mailUp Scenario.takeMicrophone
                Scenario.sharedMicrophone).2 !! 2%N
    = Some (Scenario.booked 2 3 Scenario.t10_30 Scenario.t11_30 [1%N] "pending")
  ∧ reserved Scenario.rebooked (OfRoom 1) Scenario.t10_00 Scenario.t11_00
  ∧ (updateBooking Scenario.mailUp Scenario.revive Scenario.rebooked).1
    = res 200 (Doc (Some (Scenario.booked 1 2 Scenario.t10_00 Scenario.t11_00 [] "confirmed"))).
Proof.
  split; [apply checkConflict_reserved; by vm_compute|].
  split; [by vm_compute|]. split; [by vm_compute|]. split; [by vm_compute|].
  split; [apply checkConflict_reserved; by vm_compute|]. by vm_compute.
Qed.

(** ** Confirming *)

(** C3, as the controller has it. For every stored booking, whatever its
    status, confirmBooking asked by an actor whom the handler finds to be the
    studio's owner or one of its staff stores the booking with status
    [confirmed], every other field and every other booking unchanged. No
    status is refused. The answer is 200 with the confirmed booking when the
    client's user record resolves and the mail goes out, and the 500 of the
    catch block otherwise. *)
Theorem confirmBooking_from_any_status
    (rt : Runtime) (req : Request unit) (w : World) (booking : Booking)
    (studio : StudioDoc) (isStudioOwner isStaff : bool) :
  Bookings w !! params_id req = Some booking →
  (studioRelation rt (user req) booking w).1 = Normal (studio, isStudioOwner, isStaff) →
  isStudioOwner || isStaff = true →
  Bookings (confirmBooking rt req w).2 !! params_id req
    = Some (withStatus "confirmed" booking)
  ∧ (∀ j, j ≠ params_id req →
          Bookings (confirmBooking rt req w).2 !! j = Bookings w !! j)
  ∧ ((confirmBooking rt req w).1 = res 200 (Doc (Some (withStatus "confirmed" booking)))
     ∨ (confirmBooking rt req w).1 = res 500 (Message "Server error"))
  ∧ ((confirmBooking rt req w).1 = res 200 (Doc (Some (withStatus "confirmed" booking)))
     ↔ ∃ c, Users w !! client booking = Some c
            ∧ mailer rt (confirmedEmail (user_email c) (studio_name studio)) = true).
Proof.
  destruct req as [u i []]. cbn [user params_id]. intros Hfound Hrel Hauth.
  rewrite (confirmBooking_run rt w u i booking Hfound studio isStudioOwner isStaff Hrel).
  assert (negb isStudioOwner && negb isStaff = false) as ->
    by (destruct isStudioOwner, isStaff; done).
  cbv zeta. unfold serverError.
  destruct (Users w !! client booking) as [c|]; cbn.
  - destruct (mailer rt _) eqn:Hm; cbn.
    + split; [by rewrite lookup_insert_eq|]. split; [by intros; rewrite lookup_insert_ne|].
      split; [by left|]. split; [eauto|done].
    + split; [by rewrite lookup_insert_eq|]. split; [by intros; rewrite lookup_insert_ne|].
      split; [by right|]. split; [done|]. intros (c' & [= <-] & Hc). congruence.
  - split; [by rewrite lookup_insert_eq|]. split; [by intros; rewrite lookup_insert_ne|].
    split; [by right|]. split; [done|]. by intros (c' & ? & _).
Qed.

(** The owner confirms cancelled booking A. *)
Lemma confirmBooking_from_any_status_witness :
  status <$> Bookings Scenario.cancelledA !! 1%N = Some "cancelled"
  ∧ Bookings (confirmBooking Scenario.mailUp (Scenario.on Scenario.owner 1)
                Scenario.cancelledA).2 !! 1%N
    = Some (withStatus "confirmed"
              (Scenario.booked 1 2 Scenario.t10_00 Scenario.t11_00 [] "cancelled")).
Proof.
  split; [reflexivity|].
  apply (confirmBooking_from_any_status Scenario.mailUp (Scenario.on Scenario.owner 1)
           Scenario.cancelledA
           (Scenario.booked 1 2 Scenario.t10_00 Scenario.t11_00 [] "cancelled")
           {| studio_name := "Studio One"; studio_owner := 1%N |} true false);
    reflexivity.
Defined.

(** C3, as the specification states it, does not hold:
    the owner confirms a cancelled
    booking, the answer is 200 and the stored status is [confirmed]. *)
Lemma confirmBooking_accepts_cancelled :
  status <$> Bookings Scenario.cancelledA !! 1%N = Some "cancelled"
  ∧ statusCode (confirmBooking Scenario.mailUp (Scenario.on Scenario.owner 1)
                  Scenario.cancelledA).1 = 200
  ∧ status <$> Bookings (confirmBooking Scenario.mailUp (Scenario.on Scenario.owner 1)
                           Scenario.cancelledA).2 !! 1%N = Some "confirmed".
Proof. split; [|split]; by vm_compute. Qed.

(** ** Statuses that are written over *)

(** C4, as the controller has it. For every stored booking and every actor
    for whom the handler's relationship lines complete without throwing
    (the booking's room and its studio resolve, and the [Staff] lookup,
    reached only for an actor of type [staff], does not throw):
    - updateBooking by the booking's client never changes the status,
      whether or not that client is also the studio's owner or on its
      staff, and on a booking that is not pending it is answered 400 and
      changes nothing;
    - cancelBooking by the client, the owner or the staff stores status
      [cancelled] whatever the status was, so also from [cancelled] and
      [completed];
    - updateBooking by the owner or the staff, not being the client, with
      a non-empty [status] stores that status whatever the status was;
    - confirmBooking by the owner or the staff stores [confirmed]. *)
Theorem status_written_from_any_state
    (rt : Runtime) (w : World) (u : Actor) (i : Id) (booking : Booking)
    (studio : StudioDoc) (isStudioOwner isStaff : bool) :
  Bookings w !! i = Some booking →
  (studioRelation rt u booking w).1 = Normal (studio, isStudioOwner, isStaff) →
  (isClientOf u booking = true →
   ∀ b, status <$> Bookings (updateBooking rt {| user := u; params_id := i; body := b |} w).2 !! i
        = Some (status booking)
        ∧ (status booking ≠ "pending" →
           updateBooking rt {| user := u; params_id := i; body := b |} w
           = (res 400 (Message "Cannot update a confirmed or cancelled booking"), w)))
  ∧ (isClientOf u booking || isStudioOwner || isStaff = true →
     ∀ b, status <$> Bookings (cancelBooking rt {| user := u; params_id := i; body := b |} w).2 !! i
          = Some "cancelled")
  ∧ (isClientOf u booking = false → isStudioOwner || isStaff = true →
     ∀ b s, Update.status b = Some s → s ≠ "" →
       status <$> Bookings (updateBooking rt {| user := u; params_id := i; body := b |} w).2 !! i
       = Some s)
  ∧ (isStudioOwner || isStaff = true →
     status <$> Bookings (confirmBooking rt {| user := u; params_id := i; body := tt |} w).2 !! i
     = Some "confirmed").
Proof.
  intros Hfound Hrel. split; [|split; [|split]].
  - intros Hc b.
    rewrite (updateBooking_run rt w u i booking Hfound studio isStudioOwner isStaff Hrel).
    rewrite Hc. cbn [negb andb].
    destruct (bool_decide (status booking = "pending")) eqn:Hs; cbn.
    + rewrite lookup_insert_eq. split; [done|].
      intros Hne. by apply bool_decide_eq_true in Hs.
    + by rewrite Hfound.
  - intros Hauth b.
    rewrite (cancelBooking_run rt w u i booking Hfound studio isStudioOwner isStaff Hrel).
    assert (negb (isClientOf u booking) && negb isStudioOwner && negb isStaff = false) as ->
      by (destruct (isClientOf u booking), isStudioOwner, isStaff; done).
    cbv zeta. unfold serverError.
    destruct (if isClientOf u booking then _ else _) as [r|]; cbn.
    + destruct (mailer rt _); cbn; by rewrite lookup_insert_eq.
    + by rewrite lookup_insert_eq.
  - intros Hc Hauth b s Hs Hne.
    rewrite (updateBooking_run rt w u i booking Hfound studio isStudioOwner isStaff Hrel).
    rewrite Hc. cbn [negb andb].
    assert (negb isStudioOwner && negb isStaff = false) as ->
      by (destruct isStudioOwner, isStaff; done).
    cbn. rewrite lookup_insert_eq. cbn. rewrite Hs. cbn.
    by rewrite bool_decide_eq_false_2.
  - intros Hauth.
    pose proof (confirmBooking_run rt w u i booking Hfound studio isStudioOwner isStaff Hrel)
      as Hrun.
    rewrite Hrun. clear Hrun.
    assert (negb isStudioOwner && negb isStaff = false) as ->
      by (destruct isStudioOwner, isStaff; done).
    cbv zeta. unfold serverError.
    destruct (Users w !! client booking) as [c|]; cbn.
    + destruct (mailer rt _); cbn; by rewrite lookup_insert_eq.
    + by rewrite lookup_insert_eq.
Qed.

(** The client cancels completed booking A. *)
Lemma status_written_from_any_state_witness :
  status <$> Bookings Scenario.completedA !! 1%N = Some "completed"
  ∧ status <$> Bookings (cancelBooking Scenario.mailUp
                           (Scenario.cancelBy Scenario.musician 1 None)
                           Scenario.completedA).2 !! 1%N = Some "cancelled".
Proof.
  split; [reflexivity|].
  destruct (status_written_from_any_state Scenario.mailUp Scenario.completedA
              Scenario.musician 1%N
              (Scenario.booked 1 2 Scenario.t10_00 Scenario.t11_00 [] "completed")
              {| studio_name := "Studio One"; studio_owner := 1%N |} false false
              eq_refl eq_refl) as (_ & Hcancel & _).
  exact (Hcancel eq_refl {| Cancel.reason := None |}).
Defined.

(** C4, as the specification states it, does not hold:
    a completed booking is cancelled by
    its client, and a cancelled one is set back to pending by the owner. *)
Lemma terminal_status_left :
  status <$> Bookings Scenario.completedA !! 1%N = Some "completed"
  ∧ statusCode (cancelBooking Scenario.mailUp (Scenario.cancelBy Scenario.musician 1 None)
                  Scenario.completedA).1 = 200
  ∧ status <$> Bookings (cancelBooking Scenario.mailUp
                           (Scenario.cancelBy Scenario.musician 1 None)
                           Scenario.completedA).2 !! 1%N = Some "cancelled"
  ∧ status <$> Bookings Scenario.cancelledA !! 1%N = Some "cancelled"
  ∧ status <$> Bookings
       (updateBooking Scenario.mailUp
          (Scenario.put Scenario.owner 1
             {| Update.status := Some "pending"; Update.staffIds := None;
                Update.notes := None; Update.equipmentIds := None |})
          Scenario.cancelledA).2 !! 1%N = Some "pending".
Proof. repeat split; by vm_compute. Qed.

(** ** Deleting *)

(** C5, as the controller has it. For every stored booking and every actor
    for whom the relationship lines complete without throwing (the
    booking's room and its studio resolve, and the [Staff] lookup, reached
    only for an actor of type [staff], does not throw), deleteBooking
    - answers 403 and changes nothing when the actor is neither the client
      nor the studio's owner nor its staff;
    - answers 400 and changes nothing when the actor is the client and the
      booking is not pending;
    - removes the booking and answers 200 otherwise: for the client of a
      pending booking, and for the owner or staff (not being the client)
      whatever the status. *)
Theorem deleteBooking_decision
    (rt : Runtime) (req : Request unit) (w : World) (booking : Booking)
    (studio : StudioDoc) (isStudioOwner isStaff : bool) :
  Bookings w !! params_id req = Some booking →
  (studioRelation rt (user req) booking w).1 = Normal (studio, isStudioOwner, isStaff) →
  (isClientOf (user req) booking = false → isStudioOwner || isStaff = false →
   deleteBooking rt req w = (res 403 (Message "Not authorized to delete this booking"), w))
  ∧ (isClientOf (user req) booking = true → status booking ≠ "pending" →
     deleteBooking rt req w
     = (res 400 (Message "Cannot delete a confirmed booking. Please use cancel instead."), w))
  ∧ ((isClientOf (user req) booking = true ∧ status booking = "pending")
     ∨ (isClientOf (user req) booking = false ∧ isStudioOwner || isStaff = true) →
     deleteBooking rt req w
     = (res 200 (Message "Booking deleted successfully"),
        setBookings (delete (params_id req) (Bookings w)) w)).
Proof.
  destruct req as [u i []]. cbn [user params_id]. intros Hfound Hrel.
  rewrite (deleteBooking_run rt w u i booking Hfound studio isStudioOwner isStaff Hrel).
  split; [|split].
  - intros -> Ho. by destruct isStudioOwner, isStaff.
  - intros -> Hs. cbn. by rewrite bool_decide_eq_false_2.
  - intros [[-> Hs]|[-> Ho]].
    + cbn. by rewrite bool_decide_eq_true_2.
    + by destruct isStudioOwner, isStaff.
Qed.

(** The owner deletes confirmed booking A. *)
Lemma deleteBooking_decision_witness :
  status <$> Bookings Scenario.confirmedA !! 1%N = Some "confirmed"
  ∧ deleteBooking Scenario.mailUp (Scenario.on Scenario.owner 1) Scenario.confirmedA
    = (res 200 (Message "Booking deleted successfully"),
       setBookings (delete 1%N (Bookings Scenario.confirmedA)) Scenario.confirmedA).
Proof.
  split; [reflexivity|].
  apply (deleteBooking_decision Scenario.mailUp (Scenario.on Scenario.owner 1)
           Scenario.confirmedA
           (Scenario.booked 1 2 Scenario.t10_00 Scenario.t11_00 [] "confirmed")
           {| studio_name := "Studio One"; studio_owner := 1%N |} true false);
    [reflexivity | reflexivity | right; split; reflexivity].
Defined.

(** C5, as the specification states it, does not hold:
    the studio's owner deletes a
    confirmed booking; the answer is 200, not 403, and the booking is gone. *)
Lemma deleteBooking_by_owner_succeeds :
  status <$> Bookings Scenario.confirmedA !! 1%N = Some "confirmed"
  ∧ (deleteBooking Scenario.mailUp (Scenario.on Scenario.owner 1) Scenario.confirmedA).1
    = res 200 (Message "Booking deleted successfully")
  ∧ Bookings (deleteBooking Scenario.mailUp (Scenario.on Scenario.owner 1)
                Scenario.confirmedA).2 !! 1%N = None.
Proof. repeat split; by vm_compute. Qed.

(** ** What createBooking validates, computes and does when the mail fails *)

Lemma createBooking_invalid rt req w :
  validationResult (body req) ≠ [] →
  createBooking rt req w = (res 400 (Errors (validationResult (body req))), w).
Proof. intros H. unfold createBooking. by destruct (validationResult (body req)). Qed.

Lemma equipmentStage_400 w ids s e r :
  equipmentStage w ids s e = Normal (Some r) → statusCode r = 400.
Proof.
  unfold equipmentStage. destruct ids as [|i0 ids0]; [done|]. generalize (i0 :: ids0).
  intros ids. destruct (negb _); [by intros [= <-]|].
  destruct (List.find _ ids) as [i|]; [|done].
  destruct (Equipments w !! i); [by intros [= <-] | done].
Qed.

Lemma staffStage_400 rt w ids s e r :
  staffStage rt w ids s e = Normal (Some r) → statusCode r = 400.
Proof.
  unfold staffStage. destruct ids as [|i0 ids0]; [done|]. generalize (i0 :: ids0).
  intros ids. destruct (negb (Staff_bound rt)); [done|].
  destruct (negb _); [by intros [= <-]|].
  destruct (List.find _ ids) as [i|]; [|done].
  destruct (Staffs w !! i) as [d|]; [|done].
  destruct (Users w !! staff_user d); [by intros [= <-] | done].
Qed.

(** C6, as the controller has it. The request is validated for format
    only: a body that fails one of the three validators of the route is
    answered 400 with their messages and nothing is read or stored. The two
    times are never compared: a request whose window has [endTime] at or
    before [startTime], on a room that exists, when the room query finds
    nothing, no equipment or staff is asked for, the studio and its owner
    resolve and the mail goes out, passes the validators and is stored as a
    pending booking with that window and answered 201. *)
Theorem createBooking_window_not_validated
    (rt : Runtime) (req : Request Create.body) (w : World) (roomId : Id) (s e : Z)
    (room : RoomDoc) (studio : StudioDoc) (o : UserDoc) :
  Create.roomId (body req) = Some roomId →
  Create.startTime (body req) = Some s →
  Create.endTime (body req) = Some e →
  e ≤ s →
  Rooms w !! roomId = Some room →
  Studios w !! room_studio room = Some studio →
  Users w !! studio_owner studio = Some o →
  mailer rt (newBookingEmail (user_email o) (studio_name studio)) = true →
  queryHits w (OfRoom roomId) s e = false →
  Create.equipmentIds (body req) = [] →
  Create.staffIds (body req) = [] →
  (∀ req', validationResult (body req') ≠ [] →
           createBooking rt req' w = (res 400 (Errors (validationResult (body req'))), w))
  ∧ validationResult (body req) = []
  ∧ createBooking rt req w
    = (res 201 (Doc (Some (newBooking req roomId room s e))),
       pushMail (newBookingEmail (user_email o) (studio_name studio))
         (setBookings (<[newObjectId (Bookings w) := newBooking req roomId room s e]>
                         (Bookings w)) w))
  ∧ status (newBooking req roomId room s e) = "pending"
  ∧ startTime (newBooking req roomId room s e) = s
  ∧ endTime (newBooking req roomId room s e) = e.
Proof.
  intros Hroom Hstart Hend Hes Hr Hst Ho Hm Hq Heq Hsf.
  split; [intros req'; apply createBooking_invalid|].
  split; [unfold validationResult; by rewrite Hroom, Hstart, Hend|].
  split; [|done].
  rewrite (createBooking_stages rt req w roomId s e room Hroom Hstart Hend Hr).
  rewrite Hq, Heq, Hsf. cbn [equipmentStage staffStage].
  rewrite persist_run, Hst, Ho. cbv zeta. by rewrite Hm.
Qed.

(** From 12:00 to 10:00 on the empty studio. *)
Lemma createBooking_window_not_validated_witness :
  Scenario.t10_00 ≤ Scenario.t12_00
  ∧ statusCode (createBooking Scenario.mailUp Scenario.inverted (Scenario.studio ∅)).1 = 201.
Proof.
  split; [by vm_compute|].
  pose proof (createBooking_window_not_validated Scenario.mailUp Scenario.inverted
                (Scenario.studio ∅) 1%N Scenario.t12_00 Scenario.t10_00
                {| room_name := "R"; room_hourlyRate := 50%float; room_studio := 1%N |}
                {| studio_name := "Studio One"; studio_owner := 1%N |}
                {| user_name := "Olga"; user_email := "olga@studio.test" |}
                eq_refl eq_refl eq_refl ltac:(by vm_compute) eq_refl eq_refl eq_refl
                eq_refl eq_refl eq_refl eq_refl) as (_ & _ & -> & _).
  reflexivity.
Defined.

(** C6, as the specification states it, does not hold:
    the request from 10:00 to 10:00
    passes the validators, is answered 201 and the booking is stored. *)
Lemma createBooking_stores_empty_window :
  Create.endTime (body Scenario.emptyWindow) = Create.startTime (body Scenario.emptyWindow)
  ∧ validationResult (body Scenario.emptyWindow) = []
  ∧ (createBooking Scenario.mailUp Scenario.emptyWindow (Scenario.studio ∅)).1
    = res 201 (Doc (Some (newBooking Scenario.emptyWindow 1
                            {| room_name := "R"; room_hourlyRate := 50%float;
                               room_studio := 1%N |}
                            Scenario.t10_00 Scenario.t10_00)))
  ∧ (fun b => (startTime b, endTime b, status b))
      <$> Bookings (createBooking Scenario.mailUp Scenario.emptyWindow (Scenario.studio ∅)).2
            !! newObjectId ∅
    = Some (Scenario.t10_00, Scenario.t10_00, "pending").
Proof. repeat split; by vm_compute. Qed.

(** C7, as the controller has it. Whenever createBooking answers 201, the
    booking it stored and returned carries
    [room.hourlyRate * ((endTime - startTime) / 3600000)], each operation
    being the binary64 one of JavaScript numbers (rounded to nearest), not a
    decimal one. At 50.00 an hour from 10:00 to 12:00 this is exactly 100. *)
Theorem createBooking_totalAmount
    (rt : Runtime) (req : Request Create.body) (w : World) (roomId : Id) (s e : Z)
    (room : RoomDoc) :
  Create.roomId (body req) = Some roomId →
  Create.startTime (body req) = Some s →
  Create.endTime (body req) = Some e →
  Rooms w !! roomId = Some room →
  statusCode (createBooking rt req w).1 = 201 →
  (∃ b, (createBooking rt req w).1 = res 201 (Doc (Some b))
        ∧ Bookings (createBooking rt req w).2 !! newObjectId (Bookings w) = Some b
        ∧ totalAmount b
          = (room_hourlyRate room * (number_of_Z (e - s) / 3600000))%float)
  ∧ (50 * (number_of_Z (Scenario.t12_00 - Scenario.t10_00) / 3600000))%float = 100%float.
Proof.
  intros Hroom Hstart Hend Hr Hcode. split; [|by vm_compute].
  rewrite (createBooking_stages rt req w roomId s e room Hroom Hstart Hend Hr) in *.
  destruct (queryHits w (OfRoom roomId) s e); [done|].
  destruct (equipmentStage _ _ _ _) as [[r|]|ex] eqn:He;
    [apply equipmentStage_400 in He; cbn in Hcode; congruence| |done].
  destruct (staffStage _ _ _ _ _) as [[r|]|ex] eqn:Hs;
    [apply staffStage_400 in Hs; cbn in Hcode; congruence| |done].
  rewrite persist_run in *. unfold serverError in *.
  destruct (Studios w !! room_studio room) as [st|]; [|done].
  destruct (Users w !! studio_owner st) as [o|]; [|done].
  cbv zeta in *. destruct (mailer rt _); [|done].
  exists (newBooking req roomId room s e). cbn. by rewrite lookup_insert_eq.
Qed.

(** Room R from 10:00 to 12:00. *)
Lemma createBooking_totalAmount_witness :
  ∃ b, (createBooking Scenario.mailUp Scenario.twoHours (Scenario.studio ∅)).1
       = res 201 (Doc (Some b))
       ∧ Bookings (createBooking Scenario.mailUp Scenario.twoHours (Scenario.studio ∅)).2
           !! newObjectId ∅ = Some b
       ∧ totalAmount b
         = (50 * (number_of_Z (Scenario.t12_00 - Scenario.t10_00) / 3600000))%float.
Proof.
  apply (createBooking_totalAmount Scenario.mailUp Scenario.twoHours (Scenario.studio ∅)
           1%N Scenario.t10_00 Scenario.t12_00
           {| room_name := "R"; room_hourlyRate := 50%float; room_studio := 1%N |});
    by vm_compute.
Defined.

(** C7, as the specification states it, does not hold:
    at 0.10 an hour (the number 10 / 100)
    from 10:00 to 13:00 the decimal product is 0.30; the stored amount is
    the binary64 number 5404319552844596 / 2^54, which is not 3/10 and is
    not the binary64 number nearest to 0.30 either. *)
Lemma createBooking_amount_not_decimal :
  room_hourlyRate <$> Scenario.rooms !! 2%N = Some 0.1%float
  ∧ (number_of_Z 10 / 100)%float = 0.1%float
  ∧ totalAmount <$> Bookings (createBooking Scenario.mailUp Scenario.threeHoursBooth
                                (Scenario.studio ∅)).2 !! newObjectId ∅
    = Some 0.30000000000000004%float
  ∧ floatValue 0.30000000000000004%float
    = Some (Qmake 5404319552844596 18014398509481984)
  ∧ Qeq_bool (Qmake 5404319552844596 18014398509481984)
             (exactAmount 10 Scenario.t10_00 Scenario.t13_00) = false
  ∧ Qeq_bool (exactAmount 10 Scenario.t10_00 Scenario.t13_00) (Qmake 3 10) = true
  ∧ PrimFloat.eqb 0.30000000000000004%float 0.3%float = false.
Proof. repeat split; by vm_compute. Qed.

(** C8, as the controller has it. When the booking has been stored and
    [sendEmail] rejects, the rejection reaches the handler's catch block:
    it is logged on the console and the caller is answered 500
    [Server error]; no mail is recorded and the stored booking stays. *)
Theorem createBooking_mail_rejected
    (rt : Runtime) (req : Request Create.body) (w : World) (roomId : Id) (s e : Z)
    (room : RoomDoc) (studio : StudioDoc) (o : UserDoc) :
  Create.roomId (body req) = Some roomId →
  Create.startTime (body req) = Some s →
  Create.endTime (body req) = Some e →
  Rooms w !! roomId = Some room →
  Studios w !! room_studio room = Some studio →
  Users w !! studio_owner studio = Some o →
  queryHits w (OfRoom roomId) s e = false →
  equipmentStage w (Create.equipmentIds (body req)) s e = Normal None →
  staffStage rt w (Create.staffIds (body req)) s e = Normal None →
  mailer rt (newBookingEmail (user_email o) (studio_name studio)) = false →
  (createBooking rt req w).1 = res 500 (Message "Server error")
  ∧ Bookings (createBooking rt req w).2
    = <[newObjectId (Bookings w) := newBooking req roomId room s e]> (Bookings w)
  ∧ outbox (createBooking rt req w).2 = outbox w
  ∧ console (createBooking rt req w).2
    = console w ++ ["Create booking error: sendEmail rejected"].
Proof.
  intros Hroom Hstart Hend Hr Hst Ho Hq He Hs Hm.
  rewrite (createBooking_stages rt req w roomId s e room Hroom Hstart Hend Hr).
  rewrite Hq, He, Hs, persist_run, Hst, Ho. cbv zeta. by rewrite Hm.
Qed.

(** The mail service is down when room R is asked for. *)
Lemma createBooking_mail_rejected_witness :
  (createBooking Scenario.mailDown Scenario.twoHours (Scenario.studio ∅)).1
  = res 500 (Message "Server error")
  ∧ Bookings (createBooking Scenario.mailDown Scenario.twoHours (Scenario.studio ∅)).2
    = <[newObjectId ∅ := newBooking Scenario.twoHours 1
                           {| room_name := "R"; room_hourlyRate := 50%float;
                              room_studio := 1%N |}
                           Scenario.t10_00 Scenario.t12_00]> ∅
  ∧ outbox (createBooking Scenario.mailDown Scenario.twoHours (Scenario.studio ∅)).2 = []
  ∧ console (createBooking Scenario.mailDown Scenario.twoHours (Scenario.studio ∅)).2
    = ["Create booking error: sendEmail rejected"].
Proof.
  apply (createBooking_mail_rejected Scenario.mailDown Scenario.twoHours (Scenario.studio ∅)
           1%N Scenario.t10_00 Scenario.t12_00
           {| room_name := "R"; room_hourlyRate := 50%float; room_studio := 1%N |}
           {| studio_name := "Studio One"; studio_owner := 1%N |}
           {| user_name := "Olga"; user_email := "olga@studio.test" |});
    reflexivity.
Defined.

(** C8, as the specification states it, does not hold:
    with the mail service down the
    booking is stored and the caller is answered 500, not 201. *)
Lemma createBooking_mail_failure_propagates :
  statusCode (createBooking Scenario.mailUp Scenario.twoHours (Scenario.studio ∅)).1 = 201
  ∧ (createBooking Scenario.mailDown Scenario.twoHours (Scenario.studio ∅)).1
    = res 500 (Message "Server error")
  ∧ status <$> Bookings (createBooking Scenario.mailDown Scenario.twoHours
                           (Scenario.studio ∅)).2 !! newObjectId ∅
    = Some "pending".
Proof. repeat split; by vm_compute. Qed.

(** ** What updateBooking leaves alone *)

Lemma updateBooking_not_found rt req w :
  Bookings w !! params_id req = None →
  updateBooking rt req w = (res 404 (Message "Booking not found"), w).
Proof.
  intros Hnone. unfold updateBooking, try_catch, bind, Booking_findById. by rewrite Hnone.
Qed.

(** C9. In updateBooking the test [status && status !== booking.status]
    is read after [booking.status = status] has run, so it is false for
    every body and every booking, and updateBooking sends no mail: the
    outbox after any call is the outbox before it. *)
Theorem updateBooking_sends_no_mail
    (rt : Runtime) (req : Request Update.body) (w : World) :
  (∀ booking, statusWasUpdated (body req) (managerEdit (body req) booking) = false)
  ∧ outbox (updateBooking rt req w).2 = outbox w.
Proof.
  split; [intros booking; apply statusWasUpdated_managerEdit|].
  destruct (Bookings w !! params_id req) as [booking|] eqn:Hfound;
    [|by rewrite updateBooking_not_found].
  destruct req as [u i b]. cbn [user params_id body] in *.
  destruct (studioRelation rt u booking w).1 as [[[studio isStudioOwner] isStaff]|ex] eqn:Hrel.
  - rewrite (updateBooking_run rt w u i booking Hfound studio isStudioOwner isStaff Hrel).
    destruct (negb _ && negb _ && negb _); [done|].
    destruct (isClientOf u booking); [|done]. by destruct (negb _).
  - by rewrite (updateBooking_thrown rt w u i booking Hfound ex Hrel).
Qed.

(** C10. updateBooking touches no other booking, and on the booking it is
    asked about:
    - room, client, start and end time, total amount and the cancellation
      fields are never changed;
    - [notes] is unchanged when the body's [notes] is absent or empty;
    - for the client: status and staff are unchanged, and equipment is
      unchanged when [equipmentIds] is absent;
    - for the owner or the staff (an actor who is not the client):
      equipment is unchanged, status is unchanged when the body's [status]
      is absent or empty, and staff is unchanged when [staffIds] is
      absent. *)
Theorem updateBooking_frame
    (rt : Runtime) (req : Request Update.body) (w : World) (booking : Booking) :
  Bookings w !! params_id req = Some booking →
  (∀ j, j ≠ params_id req → Bookings (updateBooking rt req w).2 !! j = Bookings w !! j)
  ∧ ∃ after,
      Bookings (updateBooking rt req w).2 !! params_id req = Some after
      ∧ (room after = room booking ∧ client after = client booking
         ∧ startTime after = startTime booking ∧ endTime after = endTime booking
         ∧ totalAmount after = totalAmount booking
         ∧ cancellationReason after = cancellationReason booking
         ∧ cancelledBy after = cancelledBy booking
         ∧ cancelledAt after = cancelledAt booking)
      ∧ (truthy (Update.notes (body req)) = false → notes after = notes booking)
      ∧ (isClientOf (user req) booking = true →
         status after = status booking ∧ staff after = staff booking
         ∧ (Update.equipmentIds (body req) = None → equipment after = equipment booking))
      ∧ (isClientOf (user req) booking = false →
         equipment after = equipment booking
         ∧ (truthy (Update.status (body req)) = false → status after = status booking)
         ∧ (Update.staffIds (body req) = None → staff after = staff booking)).
Proof.
  destruct req as [u i b]. cbn [user params_id body]. intros Hfound.
  assert (Hgoal : ∀ w' : World,
            ((∀ j, j ≠ i → Bookings w' !! j = Bookings w !! j)
             ∧ ∃ after, Bookings w' !! i = Some after
                 ∧ (after = booking
                    ∨ (isClientOf u booking = true ∧ after = clientEdit b booking)
                    ∨ (isClientOf u booking = false ∧ after = managerEdit b booking))) →
            (∀ j, j ≠ i → Bookings w' !! j = Bookings w !! j)
            ∧ ∃ after, Bookings w' !! i = Some after
                ∧ (room after = room booking ∧ client after = client booking
                   ∧ startTime after = startTime booking ∧ endTime after = endTime booking
                   ∧ totalAmount after = totalAmount booking
                   ∧ cancellationReason after = cancellationReason booking
                   ∧ cancelledBy after = cancelledBy booking
                   ∧ cancelledAt after = cancelledAt booking)
                ∧ (truthy (Update.notes b) = false → notes after = notes booking)
                ∧ (isClientOf u booking = true →
                   status after = status booking ∧ staff after = staff booking
                   ∧ (Update.equipmentIds b = None → equipment after = equipment booking))
                ∧ (isClientOf u booking = false →
                   equipment after = equipment booking
                   ∧ (truthy (Update.status b) = false → status after = status booking)
                   ∧ (Update.staffIds b = None → staff after = staff booking))).
  { intros w' [Hother (after & Hafter & Hcases)]. split; [done|]. exists after.
    split; [done|]. destruct Hcases as [->|[[Hc ->]|[Hc ->]]].
    - repeat split; done.
    - rewrite Hc. cbn. repeat split; try done.
      + by intros ->.
      + by intros ->.
    - rewrite Hc. cbn. repeat split; try done.
      + by intros ->.
      + destruct (Update.status b) as [s|]; [|done]. cbn. by intros ->.
      + by intros ->. }
  apply Hgoal. clear Hgoal.
  destruct (studioRelation rt u booking w).1 as [[[studio isStudioOwner] isStaff]|ex] eqn:Hrel.
  - rewrite (updateBooking_run rt w u i booking Hfound studio isStudioOwner isStaff Hrel).
    destruct (negb _ && negb _ && negb _); [cbn; split; [done|]; exists booking; auto|].
    destruct (isClientOf u booking) eqn:Hc.
    + destruct (negb _); [cbn; split; [done|]; exists booking; auto|].
      cbn. split; [by intros; rewrite lookup_insert_ne|].
      exists (clientEdit b booking). rewrite lookup_insert_eq. auto.
    + cbn. split; [by intros; rewrite lookup_insert_ne|].
      exists (managerEdit b booking). rewrite lookup_insert_eq. auto.
  - rewrite (updateBooking_thrown rt w u i booking Hfound ex Hrel).
    cbn. split; [done|]. exists booking. auto.
Qed.

(** The client sends empty notes and no equipment for pending booking 1 of
    the shared-microphone studio. *)
Lemma updateBooking_frame_witness :
  ∃ after,
    Bookings (updateBooking Scenario.mailUp
                (Scenario.put Scenario.musician 1
                   {| Update.status := Some "confirmed"; Update.staffIds := Some [1%N];
                      Update.notes := Some ""; Update.equipmentIds := None |})
                Scenario.sharedMicrophone).2 !! 1%N = Some after
    ∧ after = Scenario.booked 1 2 Scenario.t10_00 Scenario.t11_00 [1%N] "pending".
Proof.
  destruct (updateBooking_frame Scenario.mailUp
              (Scenario.put Scenario.musician 1
                 {| Update.status := Some "confirmed"; Update.staffIds := Some [1%N];
                    Update.notes := Some ""; Update.equipmentIds := None |})
              Scenario.sharedMicrophone
              (Scenario.booked 1 2 Scenario.t10_00 Scenario.t11_00 [1%N] "pending")
              eq_refl) as (_ & after & Hafter & _).
  exists after. split; [exact Hafter|].
  vm_compute in Hafter. by injection Hafter as <-.
Defined.

(** * Further properties of the controller *)

(** ** What createBooking does to the collections *)

Lemma newObjectId_fresh (m : gmap N Booking) : m !! newObjectId m = None.
Proof. unfold newObjectId. apply not_elem_of_dom. apply is_fresh. Qed.

Lemma createBooking_room_missing rt req w roomId s e :
  Create.roomId (body req) = Some roomId →
  Create.startTime (body req) = Some s →
  Create.endTime (body req) = Some e →
  Rooms w !! roomId = None →
  createBooking rt req w = (res 404 (Message "Room not found"), w).
Proof.
  intros Hroom Hstart Hend Hr. unfold createBooking, validationResult.
  rewrite Hroom, Hstart, Hend. cbn [app].
  unfold try_catch, bind, Room_findById. by rewrite Hr.
Qed.

(** Every run of createBooking is one of: refused by the validators, room
    not found, or the stages on a room that exists. *)
Lemma createBooking_cases rt req w :
  (validationResult (body req) ≠ []
   ∧ createBooking rt req w = (res 400 (Errors (validationResult (body req))), w))
  ∨ ∃ roomId s e,
      Create.roomId (body req) = Some roomId
      ∧ Create.startTime (body req) = Some s
      ∧ Create.endTime (body req) = Some e
      ∧ ((Rooms w !! roomId = None
          ∧ createBooking rt req w = (res 404 (Message "Room not found"), w))
         ∨ ∃ room, Rooms w !! roomId = Some room
             ∧ createBooking rt req w =
               if queryHits w (OfRoom roomId) s e then (roomUnavailable, w)
               else match equipmentStage w (Create.equipmentIds (body req)) s e with
                    | Normal (Some r) => (r, w)
                    | Throw ex => serverError "Create booking error:" ex w
                    | Normal None =>
                        match staffStage rt w (Create.staffIds (body req)) s e with
                        | Normal (Some r) => (r, w)
                        | Throw ex => serverError "Create booking error:" ex w
                        | Normal None =>
                            try_catch "Create booking error:"
                              (persistAndNotify rt req roomId
                                 (room, Studios w !! room_studio room) s e) w
                        end
                    end).
Proof.
  destruct (Create.roomId (body req)) as [roomId|] eqn:Hroom;
    [|left; split; [|apply createBooking_invalid];
      unfold validationResult; by rewrite Hroom].
  destruct (Create.startTime (body req)) as [s|] eqn:Hstart;
    [|left; split; [|apply createBooking_invalid];
      unfold validationResult; by rewrite Hroom, Hstart].
  destruct (Create.endTime (body req)) as [e|] eqn:Hend;
    [|left; split; [|apply createBooking_invalid];
      unfold validationResult; by rewrite Hroom, Hstart, Hend].
  right. exists roomId, s, e. split; [done|]. split; [done|]. split; [done|].
  destruct (Rooms w !! roomId) as [room|] eqn:Hr.
  - right. exists room. split; [done|].
    by apply (createBooking_stages rt req w roomId s e room).
  - left. split; [done|]. by apply (createBooking_room_missing rt req w roomId s e).
Qed.

(** What the last stage leaves in the world. *)
Lemma persist_world rt req w roomId room studio s e :
  let after := try_catch "Create booking error:"
                 (persistAndNotify rt req roomId (room, studio) s e) w in
  Bookings after.2 = <[newObjectId (Bookings w) := newBooking req roomId room s e]> (Bookings w)
  ∧ Rooms after.2 = Rooms w ∧ Studios after.2 = Studios w
  ∧ Equipments after.2 = Equipments w ∧ Staffs after.2 = Staffs w
  ∧ Users after.2 = Users w
  ∧ ((statusCode after.1 = 201
      ∧ ∃ st o, studio = Some st ∧ Users w !! studio_owner st = Some o
          ∧ outbox after.2
            = outbox w ++ [newBookingEmail (user_email o) (studio_name st)])
     ∨ (statusCode after.1 = 500 ∧ outbox after.2 = outbox w)).
Proof.
  cbv zeta. rewrite persist_run. unfold serverError.
  destruct studio as [st|]; [|cbn; auto 10].
  destruct (Users w !! studio_owner st) as [o|] eqn:Ho; [|cbn; auto 10].
  cbv zeta. destruct (mailer rt _); cbn; [|auto 10].
  repeat (split; [done|]). left. split; [done|]. by exists st, o.
Qed.

(** X1. createBooking never changes or removes a stored booking, and never
    touches the rooms, studios, equipment, staff or users. Whatever the
    request and the answer, the bookings afterwards are the bookings before,
    or the bookings before plus one booking under an id that was free, and
    that booking is pending and belongs to the requesting user. *)
Theorem createBooking_keeps_stored
    (rt : Runtime) (req : Request Create.body) (w : World) :
  (∀ j b, Bookings w !! j = Some b → Bookings (createBooking rt req w).2 !! j = Some b)
  ∧ (Bookings (createBooking rt req w).2 = Bookings w
     ∨ ∃ b, Bookings w !! newObjectId (Bookings w) = None
            ∧ Bookings (createBooking rt req w).2 = <[newObjectId (Bookings w) := b]> (Bookings w)
            ∧ status b = "pending" ∧ client b = user_id (user req))
  ∧ sameDirectory w (createBooking rt req w).2.
Proof.
  assert (Hsame : ∀ (r : Response) (w' : World),
    Bookings w' = Bookings w → sameDirectory w w' →
    (∀ j b, Bookings w !! j = Some b → Bookings (r, w').2 !! j = Some b)
    ∧ (Bookings (r, w').2 = Bookings w
       ∨ ∃ b, Bookings w !! newObjectId (Bookings w) = None
              ∧ Bookings (r, w').2 = <[newObjectId (Bookings w) := b]> (Bookings w)
              ∧ status b = "pending" ∧ client b = user_id (user req))
    ∧ sameDirectory w (r, w').2).
  { intros r w' Hb Hd. cbn. rewrite Hb. auto. }
  destruct (createBooking_cases rt req w)
    as [[_ ->]|(roomId & s & e & _ & _ & _ & [[_ ->]|(room & _ & ->)])];
    [by apply Hsame | by apply Hsame |].
  destruct (queryHits _ _ _ _); [by apply Hsame|].
  destruct (equipmentStage _ _ _ _) as [[r|]|ex]; [by apply Hsame| |by apply Hsame].
  destruct (staffStage _ _ _ _ _) as [[r|]|ex]; [by apply Hsame| |by apply Hsame].
  destruct (persist_world rt req w roomId room (Studios w !! room_studio room) s e)
    as (Hb & Hr & Hst & He & Hsf & Hu & _).
  rewrite Hb. split; [|split; [|done]].
  - intros j b Hj. rewrite lookup_insert_ne; [done|].
    intros <-. rewrite newObjectId_fresh in Hj. done.
  - right. exists (newBooking req roomId room s e).
    split; [apply newObjectId_fresh|]. done.
Qed.

(** X2. createBooking sends mail exactly when it answers 201. With 201 the
    answer carries the booking now stored under the new id, and one mail,
    the new-booking request, has gone to the owner of the studio of the
    requested room; with any other answer the outbox is as before. *)
Theorem createBooking_mail_iff_created
    (rt : Runtime) (req : Request Create.body) (w : World) :
  (statusCode (createBooking rt req w).1 = 201 →
   ∃ roomId room st o b,
     Create.roomId (body req) = Some roomId
     ∧ Rooms w !! roomId = Some room
     ∧ Studios w !! room_studio room = Some st
     ∧ Users w !! studio_owner st = Some o
     ∧ (createBooking rt req w).1 = res 201 (Doc (Some b))
     ∧ Bookings (createBooking rt req w).2 !! newObjectId (Bookings w) = Some b
     ∧ outbox (createBooking rt req w).2
       = outbox w ++ [newBookingEmail (user_email o) (studio_name st)])
  ∧ (statusCode (createBooking rt req w).1 ≠ 201 →
     outbox (createBooking rt req w).2 = outbox w).
Proof.
  destruct (createBooking_cases rt req w)
    as [[_ ->]|(roomId & s & e & Hroom & _ & _ & [[_ ->]|(room & Hr & ->)])];
    [by split | by split |].
  destruct (queryHits _ _ _ _); [by split|].
  destruct (equipmentStage _ _ _ _) as [[r|]|ex] eqn:He;
    [apply equipmentStage_400 in He; cbn; split; [congruence|done] | | by split].
  destruct (staffStage _ _ _ _ _) as [[r|]|ex] eqn:Hs;
    [apply staffStage_400 in Hs; cbn; split; [congruence|done] | | by split].
  rewrite persist_run. unfold serverError.
  destruct (Studios w !! room_studio room) as [st|] eqn:Hst; [|by split].
  destruct (Users w !! studio_owner st) as [o|] eqn:Ho; [|by split].
  cbv zeta. destruct (mailer rt _); [|by split].
  split; [|done]. intros _.
  exists roomId, room, st, o, (newBooking req roomId room s e).
  cbn. rewrite lookup_insert_eq. done.
Qed.

(** ** The invariant createBooking keeps *)

Lemma properWindows_lookup w :
  properWindows w = true ↔ ∀ i b, Bookings w !! i = Some b → startTime b < endTime b.
Proof.
  unfold properWindows. rewrite forallb_forall. split.
  - intros H i b Hi. apply Z.ltb_lt, H, list_elem_of_In, elem_of_documents. eauto.
  - intros H b Hb. apply list_elem_of_In, elem_of_documents in Hb as [i Hi].
    apply Z.ltb_lt. eauto.
Qed.

Lemma queryHits_false_free w r s e :
  queryHits w r s e = false → ¬ reserved w r s e.
Proof.
  intros Hq Hres. apply checkConflict_reserved, checkConflict_queryHits in Hres. congruence.
Qed.

(** X3. A createBooking request handled on its own, with no other request
    writing between its availability queries and its save, keeps the
    collection free of double bookings. If every stored window ends after
    it starts and no two distinct bookings that are not cancelled hold the
    same room, equipment item or staff member over windows that share an
    instant, then after such a request whose window has [startTime] before
    [endTime] both still hold, whatever the answer. The handler takes no
    lock and opens no transaction: requests whose queries and saves
    interleave are not covered. *)
Theorem createBooking_keeps_noDoubleBooking
    (rt : Runtime) (req : Request Create.body) (w : World) (s e : Z) :
  Create.startTime (body req) = Some s →
  Create.endTime (body req) = Some e →
  s < e →
  properWindows w = true →
  noDoubleBooking w →
  properWindows (createBooking rt req w).2 = true
  ∧ noDoubleBooking (createBooking rt req w).2.
Proof.
  intros Hstart Hend Hse Hw Hinv.
  assert (Hsame : ∀ (r : Response) (w' : World),
    Bookings w' = Bookings w →
    properWindows (r, w').2 = true ∧ noDoubleBooking (r, w').2).
  { intros r w' Hb. cbn. split.
    - unfold properWindows in *. by rewrite Hb.
    - unfold noDoubleBooking in *. by rewrite Hb. }
  destruct (createBooking_cases rt req w)
    as [[_ ->]|(roomId & s' & e' & Hroom & Hs' & He' & [[_ ->]|(room & Hr & ->)])];
    [by apply Hsame | by apply Hsame |].
  rewrite Hstart in Hs'. rewrite Hend in He'. injection Hs' as <-. injection He' as <-.
  destruct (queryHits _ _ _ _) eqn:Hq; [by apply Hsame|].
  pose proof (equipmentStage_cases w (Create.equipmentIds (body req)) s e Hw Hse) as Heq.
  pose proof (staffStage_cases rt w (Create.staffIds (body req)) s e Hw Hse) as Hsf.
  destruct (equipmentStage _ _ _ _) as [[r|]|ex]; [by apply Hsame| |by apply Hsame].
  destruct (staffStage _ _ _ _ _) as [[r|]|ex]; [by apply Hsame| |by apply Hsame].
  destruct (persist_world rt req w roomId room (Studios w !! room_studio room) s e)
    as (Hb & _).
  set (n := newObjectId (Bookings w)) in *.
  set (new := newBooking req roomId room s e) in *.
  assert (Hn : Bookings w !! n = None) by apply newObjectId_fresh.
  assert (Hfree : ∀ r, references r new = true → ¬ reserved w r s e).
  { intros [x|x|x] Hx; cbn in Hx; apply bool_decide_eq_true in Hx.
    - subst x. by apply queryHits_false_free.
    - by apply Heq.
    - by apply Hsf. }
  split.
  - apply properWindows_lookup. intros i b. rewrite Hb.
    destruct (decide (i = n)) as [->|Hne].
    + rewrite lookup_insert_eq. by intros [= <-].
    + rewrite lookup_insert_ne by done. by apply properWindows_lookup.
  - intros i j a b r Hij. rewrite Hb.
    destruct (decide (i = n)) as [->|Hi], (decide (j = n)) as [->|Hj]; [done| | |].
    + rewrite lookup_insert_eq, lookup_insert_ne by done.
      intros [= <-] Hjb Hra Hrb _ Hsb [H1 H2].
      apply (Hfree r Hra). exists j, b. cbn in H1, H2. auto.
    + rewrite lookup_insert_ne, lookup_insert_eq by done.
      intros Hia [= <-] Hra Hrb Hsa _ [H1 H2].
      apply (Hfree r Hrb). exists i, a. cbn in H1, H2. auto.
    + rewrite !lookup_insert_ne by done. by apply Hinv.
Qed.

(** Room R is booked back to back with the microphone, by two clients; a
    third asks for the room and the microphone from 12:00 to 13:00, and the
    booking is made. *)
Lemma createBooking_keeps_noDoubleBooking_witness :
  statusCode (createBooking Scenario.mailUp
                (Scenario.post Scenario.otherMusician 1 Scenario.t12_00 Scenario.t13_00
                   [1%N] [])
                backToBack).1 = 201
  ∧ properWindows (createBooking Scenario.mailUp
                     (Scenario.post Scenario.otherMusician 1 Scenario.t12_00
                        Scenario.t13_00 [1%N] [])
                     backToBack).2 = true
  ∧ noDoubleBooking (createBooking Scenario.mailUp
                       (Scenario.post Scenario.otherMusician 1 Scenario.t12_00
                          Scenario.t13_00 [1%N] [])
                       backToBack).2.
Proof.
  split; [by vm_compute|].
  apply (createBooking_keeps_noDoubleBooking Scenario.mailUp
           (Scenario.post Scenario.otherMusician 1 Scenario.t12_00 Scenario.t13_00 [1%N] [])
           backToBack Scenario.t12_00 Scenario.t13_00);
    [reflexivity | reflexivity | reflexivity | reflexivity |].
  intros i j a b r Hij Hi Hj _ _ _ _ [H1 H2].
  change (Bookings backToBack)
    with (<[1%N := Scenario.booked 1 2 Scenario.t10_00 Scenario.t11_00 [1%N] "pending"]>
          (<[2%N := Scenario.booked 1 3 Scenario.t11_00 Scenario.t12_00 [1%N] "confirmed"]>
             (∅ : gmap N Booking))) in Hi, Hj.
  apply lookup_insert_Some in Hi as [[<- <-]|[Hi1 Hi]];
    apply lookup_insert_Some in Hj as [[<- <-]|[Hj1 Hj]]; [done| | |].
  - apply lookup_insert_Some in Hj as [[<- <-]|[_ Hj]]; [|done].
    cbn in H1, H2. unfold Scenario.t11_00 in H2. lia.
  - apply lookup_insert_Some in Hi as [[<- <-]|[_ Hi]]; [|done].
    cbn in H1, H2. unfold Scenario.t11_00 in H1. lia.
  - apply lookup_insert_Some in Hi as [[<- <-]|[_ Hi]]; [|done].
    apply lookup_insert_Some in Hj as [[<- <-]|[_ Hj]]; done.
Defined.

(** ** The length test on the requested equipment *)

Lemma size_list_to_set_NoDup (ids : list N) :
  size (list_to_set ids : gset N) = length ids → NoDup ids.
Proof.
  induction ids as [|a ids IH]; [constructor|].
  change (list_to_set (a :: ids) : gset N) with ({[a]} ∪ list_to_set ids : gset N).
  rewrite size_union_alt, size_singleton. cbn [length]. intros Hsize.
  pose proof (size_list_to_set_le ids) as Hle.
  assert (Hsub : (list_to_set ids ∖ {[a]} : gset N) ⊆ list_to_set ids).
  { intros x Hx. by apply elem_of_difference in Hx as [Hx _]. }
  pose proof (subseteq_size _ _ Hsub) as Hle'.
  assert (Heq : (list_to_set ids ∖ {[a]} : gset N) = list_to_set ids)
    by (apply set_subseteq_size_eq; [done | lia]).
  constructor.
  - intros Ha. apply (elem_of_list_to_set (C := gset N)) in Ha. rewrite <- Heq in Ha.
    apply elem_of_difference in Ha as [_ Ha]. apply Ha. by apply elem_of_singleton.
  - apply IH. lia.
Qed.

Lemma found_iff {A} (m : gmap N A) (ids : list N) :
  length (map_to_list (filter (λ kv, kv.1 ∈ ids) m)) = length ids
  ↔ NoDup ids ∧ ∀ i, i ∈ ids → is_Some (m !! i).
Proof.
  rewrite length_map_to_list, <- (size_dom (D := gset N)).
  set (D := dom (filter (λ kv : N * A, kv.1 ∈ ids) m)).
  assert (HD : D ⊆ list_to_set ids).
  { intros i Hi. apply elem_of_dom in Hi as [x Hx].
    apply map_lookup_filter_Some in Hx as [_ Hx]. by apply elem_of_list_to_set. }
  pose proof (size_list_to_set_le ids) as Hle.
  pose proof (subseteq_size _ _ HD) as Hle'.
  split.
  - intros Hlen.
    assert (HE : D = list_to_set ids) by (apply set_subseteq_size_eq; [done | lia]).
    split.
    + apply size_list_to_set_NoDup. lia.
    + intros i Hi. apply (elem_of_list_to_set (C := gset N)) in Hi. rewrite <- HE in Hi.
      apply elem_of_dom in Hi as [x Hx]. apply map_lookup_filter_Some in Hx as [Hx _]. eauto.
  - intros [Hnd Hall].
    assert (HE : D = list_to_set ids).
    { apply set_eq. intros i. split; [apply HD|]. intros Hi.
      apply elem_of_list_to_set in Hi. destruct (Hall i Hi) as [x Hx].
      apply elem_of_dom. exists x. by apply map_lookup_filter_Some. }
    rewrite HE. by apply size_list_to_set.
Qed.

Lemma equipmentStage_not_found w ids s e :
  equipmentStage w ids s e
  = Normal (Some (res 400 (Message "One or more equipment items not found")))
  ↔ ids ≠ [] ∧ equipmentFound w ids = false.
Proof.
  unfold equipmentStage. destruct ids as [|i0 ids0]; [by split; [|intros [? _]]|].
  assert (Hne : i0 :: ids0 ≠ []) by done. revert Hne.
  generalize (i0 :: ids0). intros ids Hne.
  destruct (equipmentFound w ids); cbn [negb]; [|by split].
  split; [|by intros [_ ?]].
  destruct (List.find _ ids) as [i|]; [|done].
  destruct (Equipments w !! i); [|done]. intros H. by inversion H.
Qed.

Lemma staffStage_other_message rt w ids s e r :
  staffStage rt w ids s e = Normal (Some r) →
  r ≠ res 400 (Message "One or more equipment items not found").
Proof.
  unfold staffStage. destruct ids as [|i0 ids0]; [done|]. generalize (i0 :: ids0).
  intros ids. destruct (negb (Staff_bound rt)); [done|].
  destruct (negb _); [by intros [= <-]|].
  destruct (List.find _ ids) as [i|]; [|done].
  destruct (Staffs w !! i) as [d|]; [|done].
  destruct (Users w !! staff_user d); [by intros [= <-] | done].
Qed.

(** X4. The lookup of the requested equipment passes exactly when the
    requested ids are pairwise distinct and every one of them is a stored
    equipment item. So, for a request that reaches the equipment stage (the
    room exists and the room query finds nothing), createBooking answers
    400 [One or more equipment items not found] exactly when equipment is
    requested and an id is unknown or listed twice; nothing is stored with
    that answer. *)
Theorem createBooking_equipment_lookup
    (rt : Runtime) (req : Request Create.body) (w : World) (roomId : Id) (s e : Z) :
  Create.roomId (body req) = Some roomId →
  Create.startTime (body req) = Some s →
  Create.endTime (body req) = Some e →
  is_Some (Rooms w !! roomId) →
  queryHits w (OfRoom roomId) s e = false →
  (equipmentFound w (Create.equipmentIds (body req)) = true
   ↔ NoDup (Create.equipmentIds (body req))
     ∧ ∀ i, i ∈ Create.equipmentIds (body req) → is_Some (Equipments w !! i))
  ∧ ((createBooking rt req w).1 = res 400 (Message "One or more equipment items not found")
     ↔ Create.equipmentIds (body req) ≠ []
       ∧ ¬ (NoDup (Create.equipmentIds (body req))
            ∧ ∀ i, i ∈ Create.equipmentIds (body req) → is_Some (Equipments w !! i)))
  ∧ ((createBooking rt req w).1 = res 400 (Message "One or more equipment items not found") →
     (createBooking rt req w).2 = w).
Proof.
  intros Hroom Hstart Hend [room Hr] Hq.
  set (ids := Create.equipmentIds (body req)).
  assert (Hfound : equipmentFound w ids = true
                   ↔ NoDup ids ∧ ∀ i, i ∈ ids → is_Some (Equipments w !! i)).
  { unfold equipmentFound. rewrite Nat.eqb_eq. apply found_iff. }
  split; [done|].
  pose proof (equipmentStage_not_found w ids s e) as Hnf.
  pose proof (persist_status rt req w roomId (room, Studios w !! room_studio room) s e) as Hp.
  rewrite (createBooking_stages rt req w roomId s e room Hroom Hstart Hend Hr), Hq.
  fold ids. rewrite <- Hfound.
  assert (Hbool : equipmentFound w ids = false ↔ ¬ equipmentFound w ids = true)
    by (destruct (equipmentFound w ids); split; congruence).
  rewrite <- Hbool, <- Hnf.
  destruct (equipmentStage w ids s e) as [[r|]|ex] eqn:He.
  - cbn [fst snd]. split; [|done]. split; [by intros ->|by intros [= ->]].
  - destruct (staffStage rt w _ s e) as [[r|]|ex] eqn:Hs.
    + cbn [fst snd]. apply staffStage_other_message in Hs. split; [by split|done].
    + split; [split; [|done]|]; intros H; cbv zeta in Hp; rewrite H in Hp; cbn in Hp; lia.
    + cbn. split; [by split|done].
  - cbn. split; [by split|done].
Qed.

(** Room R is free and the microphone is asked for twice. *)
Lemma createBooking_equipment_lookup_witness :
  ¬ NoDup [1%N; 1%N]
  ∧ createBooking Scenario.mailUp
      (Scenario.post Scenario.musician 1 Scenario.t10_00 Scenario.t11_00 [1%N; 1%N] [])
      (Scenario.studio ∅)
    = (res 400 (Message "One or more equipment items not found"), Scenario.studio ∅).
Proof.
  split; [intros H; apply NoDup_cons in H as [H _]; apply H; by left|].
  pose proof (createBooking_equipment_lookup Scenario.mailUp
                (Scenario.post Scenario.musician 1 Scenario.t10_00 Scenario.t11_00
                   [1%N; 1%N] [])
                (Scenario.studio ∅) 1%N Scenario.t10_00 Scenario.t11_00
                eq_refl eq_refl eq_refl ltac:(by eexists) eq_refl) as (_ & _ & Hw).
  assert (Ha : (createBooking Scenario.mailUp
                  (Scenario.post Scenario.musician 1 Scenario.t10_00 Scenario.t11_00
                     [1%N; 1%N] [])
                  (Scenario.studio ∅)).1
               = res 400 (Message "One or more equipment items not found"))
    by by vm_compute.
  specialize (Hw Ha). revert Ha Hw.
  destruct (createBooking _ _ _) as [r w']. cbn. by intros -> ->.
Defined.

(** ** Cancelling and deleting release what a booking held *)


Lemma reserved_delete w w' i r s e :
  Bookings w' = delete i (Bookings w) →
  reserved w' r s e
  ↔ ∃ j b, j ≠ i ∧ Bookings w !! j = Some b ∧ references r b = true
           ∧ status b ≠ "cancelled" ∧ s < endTime b ∧ startTime b < e.
Proof.
  intros Hb. unfold reserved. rewrite Hb. split.
  - intros (j & b & Hj & Hrest). apply lookup_delete_Some in Hj as [Hne Hj]. eauto 10.
  - intros (j & b & Hne & Hj & Hrest). exists j, b.
    rewrite lookup_delete_ne by done. auto.
Qed.

Section AuthorizedCancel.
Variables (rt : Runtime) (req : Request Cancel.body) (w : World) (booking : Booking).
Variables (studio : StudioDoc) (isStudioOwner isStaff : bool).
Hypothesis Hfound : Bookings w !! params_id req = Some booking.
Hypothesis Hrel :
  (studioRelation rt (user req) booking w).1 = Normal (studio, isStudioOwner, isStaff).
Hypothesis Hauth : isClientOf (user req) booking || isStudioOwner || isStaff = true.

(** An authorized cancellation, in full. *)
Lemma cancelBooking_authorized :
  cancelBooking rt req w =
  let after := cancelled rt req booking in
  let saved := setBookings (<[params_id req := after]> (Bookings w)) w in
  let reason := default "" (cancellationReason after) in
  let recipient := if isClientOf (user req) booking then Users w !! studio_owner studio
                   else Users w !! client booking in
  match recipient with
  | None => serverError "Cancel booking error:" (TypeError "email") saved
  | Some r =>
      let m := cancelledEmail (user_email r) (studio_name studio)
                 (isClientOf (user req) booking) reason in
      if mailer rt m then (res 200 (Doc (Some after)), pushMail m saved)
      else serverError "Cancel booking error:" MailError saved
  end.
Proof.
  destruct req as [u i b]. cbn [user params_id body] in *.
  pose proof (cancelBooking_run rt w u i booking Hfound studio isStudioOwner isStaff Hrel b)
    as Hrun. cbv zeta in Hrun. rewrite Hrun.
  assert (negb (isClientOf u booking) && negb isStudioOwner && negb isStaff = false) as ->
    by (destruct (isClientOf u booking), isStudioOwner, isStaff; done).
  reflexivity.
Qed.

End AuthorizedCancel.




(** X6. What a cancellation records and whom it tells. After an authorized
    cancelBooking the stored booking carries the reason from the body, or
    [No reason provided] when the body has none or an empty one, the id of
    the actor and the time of the call. When the answer is 200 exactly one
    mail has been sent, with that reason: to the studio's owner when the
    client cancelled, to the client otherwise. Any other answer is the 500
    of the catch block and no mail has been sent. *)
Theorem cancelBooking_records_and_notifies
    (rt : Runtime) (req : Request Cancel.body) (w : World) (booking : Booking)
    (studio : StudioDoc) (isStudioOwner isStaff : bool) :
  Bookings w !! params_id req = Some booking →
  (studioRelation rt (user req) booking w).1 = Normal (studio, isStudioOwner, isStaff) →
  isClientOf (user req) booking || isStudioOwner || isStaff = true →
  let reason := if truthy (Cancel.reason (body req))
                then default "" (Cancel.reason (body req)) else "No reason provided" in
  (∃ stored, Bookings (cancelBooking rt req w).2 !! params_id req = Some stored
             ∧ cancellationReason stored = Some reason
             ∧ cancelledBy stored = Some (user_id (user req))
             ∧ cancelledAt stored = Some (Date_now rt))
  ∧ (statusCode (cancelBooking rt req w).1 = 200 →
     ∃ r, (if isClientOf (user req) booking then Users w !! studio_owner studio
           else Users w !! client booking) = Some r
          ∧ outbox (cancelBooking rt req w).2
            = outbox w ++ [cancelledEmail (user_email r) (studio_name studio)
                             (isClientOf (user req) booking) reason])
  ∧ (statusCode (cancelBooking rt req w).1 ≠ 200 →
     statusCode (cancelBooking rt req w).1 = 500
     ∧ outbox (cancelBooking rt req w).2 = outbox w).
Proof.
  intros Hfound Hrel Hauth reason.
  rewrite (cancelBooking_authorized rt req w booking studio isStudioOwner isStaff
             Hfound Hrel Hauth).
  cbv zeta. unfold serverError.
  assert (Hreason : default "" (cancellationReason (cancelled rt req booking)) = reason
                    ∧ cancellationReason (cancelled rt req booking) = Some reason).
  { subst reason. cbn. destruct (Cancel.reason (body req)) as [t|]; cbn; [|done].
    by destruct (negb (bool_decide (t = ""))). }
  destruct Hreason as [Hr1 Hr2]. rewrite Hr1.
  destruct (if isClientOf (user req) booking then _ else _) as [r|] eqn:Hrec; cbn.
  - destruct (mailer rt _); cbn.
    + split; [|split; [|done]].
      * eexists. rewrite lookup_insert_eq. split; [done|]. by rewrite Hr2.
      * intros _. by exists r.
    + split; [|split; [done|]].
      * eexists. rewrite lookup_insert_eq. split; [done|]. by rewrite Hr2.
      * done.
  - split; [|split; [done|]].
    + eexists. rewrite lookup_insert_eq. split; [done|]. by rewrite Hr2.
    + done.
Qed.

(** The owner cancels pending booking 1 without giving a reason. *)
Lemma cancelBooking_records_and_notifies_witness :
  ∃ stored,
    Bookings (cancelBooking Scenario.mailUp (Scenario.cancelBy Scenario.owner 1 (Some ""))
                Scenario.microphoneHeld).2 !! 1%N = Some stored
    ∧ cancellationReason stored = Some "No reason provided"
    ∧ cancelledBy stored = Some 1%N
    ∧ cancelledAt stored = Some 0.
Proof.
  apply (cancelBooking_records_and_notifies Scenario.mailUp
           (Scenario.cancelBy Scenario.owner 1 (Some "")) Scenario.microphoneHeld
           (Scenario.booked 1 2 Scenario.t10_00 Scenario.t11_00 [1%N] "pending")
           {| studio_name := "Studio One"; studio_owner := 1%N |} true false);
    reflexivity.
Defined.

(** ** A booking that is not there *)

Lemma deleteBooking_not_found rt req w :
  Bookings w !! params_id req = None →
  deleteBooking rt req w = (res 404 (Message "Booking not found"), w).
Proof.
  intros Hnone. unfold deleteBooking, try_catch, bind, Booking_findById. by rewrite Hnone.
Qed.

Lemma confirmBooking_not_found rt req w :
  Bookings w !! params_id req = None →
  confirmBooking rt req w = (res 404 (Message "Booking not found"), w).
Proof.
  intros Hnone. unfold confirmBooking, try_catch, bind, Booking_findById. by rewrite Hnone.
Qed.

Lemma cancelBooking_not_found rt req w :
  Bookings w !! params_id req = None →
  cancelBooking rt req w = (res 404 (Message "Booking not found"), w).
Proof.
  intros Hnone. unfold cancelBooking, try_catch, bind, Booking_findById. by rewrite Hnone.
Qed.

(** X7. A deleted booking is gone for every later request. When
    deleteBooking answers 200, the booking of that id is removed and no
    other booking, mail or directory entry is touched; it no longer counts
    in the availability rule; and updateBooking, deleteBooking,
    confirmBooking and cancelBooking on that id, by any actor, are answered
    404 [Booking not found] and change nothing. *)
Theorem deleteBooking_then_not_found
    (rt : Runtime) (req : Request unit) (w : World) :
  statusCode (deleteBooking rt req w).1 = 200 →
  Bookings (deleteBooking rt req w).2 = delete (params_id req) (Bookings w)
  ∧ sameDirectory w (deleteBooking rt req w).2
  ∧ outbox (deleteBooking rt req w).2 = outbox w
  ∧ (∀ r s e,
       reserved (deleteBooking rt req w).2 r s e
       ↔ ∃ j b, j ≠ params_id req ∧ Bookings w !! j = Some b ∧ references r b = true
                ∧ status b ≠ "cancelled" ∧ s < endTime b ∧ startTime b < e)
  ∧ (∀ rt' u b,
       updateBooking rt' {| user := u; params_id := params_id req; body := b |}
         (deleteBooking rt req w).2
       = (res 404 (Message "Booking not found"), (deleteBooking rt req w).2))
  ∧ (∀ rt' u,
       deleteBooking rt' {| user := u; params_id := params_id req; body := tt |}
         (deleteBooking rt req w).2
       = (res 404 (Message "Booking not found"), (deleteBooking rt req w).2))
  ∧ (∀ rt' u,
       confirmBooking rt' {| user := u; params_id := params_id req; body := tt |}
         (deleteBooking rt req w).2
       = (res 404 (Message "Booking not found"), (deleteBooking rt req w).2))
  ∧ (∀ rt' u b,
       cancelBooking rt' {| user := u; params_id := params_id req; body := b |}
         (deleteBooking rt req w).2
       = (res 404 (Message "Booking not found"), (deleteBooking rt req w).2)).
Proof.
  intros Hcode.
  assert (Hdel : (deleteBooking rt req w).2 = setBookings (delete (params_id req) (Bookings w)) w).
  { destruct (Bookings w !! params_id req) as [booking|] eqn:Hfound;
      [|by rewrite deleteBooking_not_found in Hcode].
    destruct req as [u i []]. cbn [user params_id body] in *.
    destruct (studioRelation rt u booking w).1 as [[[studio isO] isS]|ex] eqn:Hrel.
    - rewrite (deleteBooking_run rt w u i booking Hfound studio isO isS Hrel) in *.
      destruct (negb _ && negb _ && negb _); [done|].
      by destruct (isClientOf u booking && _).
    - by rewrite (deleteBooking_thrown rt w u i booking Hfound ex Hrel) in Hcode. }
  rewrite Hdel.
  assert (Hgone : Bookings (setBookings (delete (params_id req) (Bookings w)) w)
                    !! params_id req = None) by apply lookup_delete_eq.
  split; [done|]. split; [done|]. split; [done|].
  split; [intros r s e; by apply reserved_delete|].
  split; [intros rt' u b; by apply updateBooking_not_found|].
  split; [intros rt' u; by apply deleteBooking_not_found|].
  split; [intros rt' u; by apply confirmBooking_not_found|].
  intros rt' u b. by apply cancelBooking_not_found.
Qed.

(** The client deletes pending booking 1. *)
Lemma deleteBooking_then_not_found_witness :
  Bookings (deleteBooking Scenario.mailUp (Scenario.on Scenario.musician 1)
              Scenario.microphoneHeld).2
  = delete 1%N (Bookings Scenario.microphoneHeld).
Proof.
  apply (deleteBooking_then_not_found Scenario.mailUp (Scenario.on Scenario.musician 1)
           Scenario.microphoneHeld).
  by vm_compute.
Defined.

(** ** Who is refused *)

Ltac settle_403 :=
  cbn; split;
  [ split; [ intros H; first [ discriminate H | by repeat split ]
           | intros H; first [ reflexivity | by destruct H as (? & ?) | by destruct H as (? & ? & ?) ] ]
  | intros H; first [ discriminate H | reflexivity ] ].

(** X8. The handlers agree on whom they refuse. For a stored booking and
    an actor for whom the relationship lines complete without throwing
    (the booking's room and its studio resolve, and the [Staff] lookup,
    reached only for an actor of type [staff], does not throw), updateBooking,
    deleteBooking and cancelBooking answer 403 exactly when the actor is
    neither the booking's client nor the studio's owner nor on its staff,
    and confirmBooking answers 403 exactly when the actor is neither the
    owner nor on the staff, so also to the booking's client. A request
    answered 403 changes nothing. *)
Theorem forbidden_iff_unrelated
    (rt : Runtime) (w : World) (u : Actor) (i : Id) (booking : Booking)
    (studio : StudioDoc) (isStudioOwner isStaff : bool) :
  Bookings w !! i = Some booking →
  (studioRelation rt u booking w).1 = Normal (studio, isStudioOwner, isStaff) →
  let unrelated := isClientOf u booking = false ∧ isStudioOwner = false ∧ isStaff = false in
  (∀ b, statusCode (updateBooking rt {| user := u; params_id := i; body := b |} w).1 = 403
        ↔ unrelated)
  ∧ (statusCode (deleteBooking rt {| user := u; params_id := i; body := tt |} w).1 = 403
     ↔ unrelated)
  ∧ (∀ b, statusCode (cancelBooking rt {| user := u; params_id := i; body := b |} w).1 = 403
          ↔ unrelated)
  ∧ (statusCode (confirmBooking rt {| user := u; params_id := i; body := tt |} w).1 = 403
     ↔ isStudioOwner = false ∧ isStaff = false)
  ∧ (∀ b, statusCode (updateBooking rt {| user := u; params_id := i; body := b |} w).1 = 403 →
          (updateBooking rt {| user := u; params_id := i; body := b |} w).2 = w)
  ∧ (statusCode (deleteBooking rt {| user := u; params_id := i; body := tt |} w).1 = 403 →
     (deleteBooking rt {| user := u; params_id := i; body := tt |} w).2 = w)
  ∧ (∀ b, statusCode (cancelBooking rt {| user := u; params_id := i; body := b |} w).1 = 403 →
          (cancelBooking rt {| user := u; params_id := i; body := b |} w).2 = w)
  ∧ (statusCode (confirmBooking rt {| user := u; params_id := i; body := tt |} w).1 = 403 →
     (confirmBooking rt {| user := u; params_id := i; body := tt |} w).2 = w).
Proof.
  intros Hfound Hrel unrelated. subst unrelated.
  pose proof (updateBooking_run rt w u i booking Hfound studio isStudioOwner isStaff Hrel)
    as Hupd.
  pose proof (deleteBooking_run rt w u i booking Hfound studio isStudioOwner isStaff Hrel)
    as Hdel.
  pose proof (cancelBooking_run rt w u i booking Hfound studio isStudioOwner isStaff Hrel)
    as Hcan.
  pose proof (confirmBooking_run rt w u i booking Hfound studio isStudioOwner isStaff Hrel)
    as Hcon.
  cbv zeta in Hcan, Hcon. unfold serverError in *.
  assert (Hupd' : ∀ b,
    (statusCode (updateBooking rt {| user := u; params_id := i; body := b |} w).1 = 403
     ↔ isClientOf u booking = false ∧ isStudioOwner = false ∧ isStaff = false)
    ∧ (statusCode (updateBooking rt {| user := u; params_id := i; body := b |} w).1 = 403 →
       (updateBooking rt {| user := u; params_id := i; body := b |} w).2 = w)).
  { intros b. rewrite Hupd.
    destruct (isClientOf u booking), isStudioOwner, isStaff; cbn;
      try destruct (bool_decide (status booking = "pending")); settle_403. }
  assert (Hdel' :
    (statusCode (deleteBooking rt {| user := u; params_id := i; body := tt |} w).1 = 403
     ↔ isClientOf u booking = false ∧ isStudioOwner = false ∧ isStaff = false)
    ∧ (statusCode (deleteBooking rt {| user := u; params_id := i; body := tt |} w).1 = 403 →
       (deleteBooking rt {| user := u; params_id := i; body := tt |} w).2 = w)).
  { rewrite Hdel.
    destruct (isClientOf u booking), isStudioOwner, isStaff; cbn;
      try destruct (bool_decide (status booking = "pending")); settle_403. }
  assert (Hcan' : ∀ b,
    (statusCode (cancelBooking rt {| user := u; params_id := i; body := b |} w).1 = 403
     ↔ isClientOf u booking = false ∧ isStudioOwner = false ∧ isStaff = false)
    ∧ (statusCode (cancelBooking rt {| user := u; params_id := i; body := b |} w).1 = 403 →
       (cancelBooking rt {| user := u; params_id := i; body := b |} w).2 = w)).
  { intros b. rewrite Hcan.
    destruct (isClientOf u booking), isStudioOwner, isStaff; cbn;
      repeat match goal with
             | |- context [match ?x with Some _ => _ | None => _ end] => destruct x; cbn
             | |- context [if mailer ?r ?m then _ else _] => destruct (mailer r m); cbn
             end; settle_403. }
  assert (Hcon' :
    (statusCode (confirmBooking rt {| user := u; params_id := i; body := tt |} w).1 = 403
     ↔ isStudioOwner = false ∧ isStaff = false)
    ∧ (statusCode (confirmBooking rt {| user := u; params_id := i; body := tt |} w).1 = 403 →
       (confirmBooking rt {| user := u; params_id := i; body := tt |} w).2 = w)).
  { rewrite Hcon.
    destruct isStudioOwner, isStaff; cbn;
      repeat match goal with
             | |- context [match ?x with Some _ => _ | None => _ end] => destruct x; cbn
             | |- context [if mailer ?r ?m then _ else _] => destruct (mailer r m); cbn
             end; settle_403. }
  split; [intros b; apply Hupd'|]. split; [apply Hdel'|]. split; [intros b; apply Hcan'|].
  split; [apply Hcon'|]. split; [intros b; apply Hupd'|]. split; [apply Hdel'|].
  split; [intros b; apply Hcan'|]. apply Hcon'.
Qed.

(** Another musician asks to cancel, and the client asks to confirm,
    pending booking 1. *)
Lemma forbidden_iff_unrelated_witness :
  statusCode (cancelBooking Scenario.mailUp (Scenario.cancelBy Scenario.otherMusician 1 None)
                Scenario.microphoneHeld).1 = 403
  ∧ statusCode (confirmBooking Scenario.mailUp (Scenario.on Scenario.musician 1)
                  Scenario.microphoneHeld).1 = 403.
Proof.
  split.
  - apply (forbidden_iff_unrelated Scenario.mailUp Scenario.microphoneHeld
             Scenario.otherMusician 1%N
             (Scenario.booked 1 2 Scenario.t10_00 Scenario.t11_00 [1%N] "pending")
             {| studio_name := "Studio One"; studio_owner := 1%N |} false false
             eq_refl eq_refl).
    by repeat split.
  - apply (forbidden_iff_unrelated Scenario.mailUp Scenario.microphoneHeld
             Scenario.musician 1%N
             (Scenario.booked 1 2 Scenario.t10_00 Scenario.t11_00 [1%N] "pending")
             {| studio_name := "Studio One"; studio_owner := 1%N |} false false
             eq_refl eq_refl).
    by split.
Defined.

(** ** Booking again after a cancellation *)






(** ** The reading handlers *)

#[global] Instance byStartTime_total : Total byStartTime.
Proof. intros a b. unfold byStartTime. lia. Qed.

Lemma respondWithList_run q w :
  respondWithList q w
  = (Normal {| listStatus := 200;
               listJson := Docs (merge_sort byStartTime (List.filter q (documents (Bookings w)))) |},
     w).
Proof. reflexivity. Qed.

Lemma listed_sorted q w :
  Sorted byStartTime (merge_sort byStartTime (List.filter q (documents (Bookings w)))).
Proof. apply Sorted_merge_sort. apply _. Qed.

Lemma listed_iff q w b :
  b ∈ merge_sort byStartTime (List.filter q (documents (Bookings w)))
  ↔ (∃ i, Bookings w !! i = Some b) ∧ q b = true.
Proof.
  rewrite merge_sort_Permutation, list_elem_of_In, filter_In, <- list_elem_of_In.
  by rewrite elem_of_documents.
Qed.

(** X10. A musician's listing holds the musician's bookings and no others.
    For an actor of type [musician], getUserBookings answers 200 with a list
    that is, up to order, the stored bookings whose client is the actor; the
    list is in ascending order of start time; and nothing is changed. *)
Theorem getUserBookings_own
    (rt : Runtime) (studioBound : bool) (req : Request unit) (w : World) :
  userType (user req) = "musician" →
  ∃ l,
    getUserBookings rt studioBound req w = ({| listStatus := 200; listJson := Docs l |}, w)
    ∧ Sorted byStartTime l
    ∧ l ≡ₚ List.filter (fun b => bool_decide (client b = user_id (user req)))
             (documents (Bookings w))
    ∧ ∀ b, b ∈ l ↔ (∃ i, Bookings w !! i = Some b) ∧ client b = user_id (user req).
Proof.
  intros Hu. eexists. unfold getUserBookings, try_catch_list.
  rewrite Hu. cbn [bool_decide decide_rel]. rewrite bool_decide_eq_true_2 by done.
  rewrite respondWithList_run. split; [reflexivity|].
  split; [apply listed_sorted|]. split; [apply merge_sort_Permutation|].
  intros b. rewrite listed_iff. by rewrite bool_decide_eq_true.
Qed.

(** The client of booking 1 lists the shared-microphone studio. *)
Lemma getUserBookings_own_witness :
  ∃ l,
    getUserBookings Scenario.mailUp false (Scenario.on Scenario.musician 0)
      Scenario.sharedMicrophone
    = ({| listStatus := 200; listJson := Docs l |}, Scenario.sharedMicrophone)
    ∧ Sorted byStartTime l
    ∧ l ≡ₚ List.filter (fun b => bool_decide (client b = 2%N))
             (documents (Bookings Scenario.sharedMicrophone))
    ∧ ∀ b, b ∈ l ↔ (∃ i, Bookings Scenario.sharedMicrophone !! i = Some b) ∧ client b = 2%N.
Proof.
  apply (getUserBookings_own Scenario.mailUp false (Scenario.on Scenario.musician 0)
           Scenario.sharedMicrophone eq_refl).
Defined.

(** X11. getAllBookings filters by room only for owners and staff. For an
    actor whose type is neither [studio_owner] nor [staff], a musician for
    one, it answers 200 with every stored booking, of every studio and every
    client, in ascending order of start time, and changes nothing. *)
Theorem getAllBookings_unfiltered
    (rt : Runtime) (studioBound : bool) (req : Request unit) (w : World) :
  userType (user req) ≠ "studio_owner" →
  userType (user req) ≠ "staff" →
  ∃ l,
    getAllBookings rt studioBound req w = ({| listStatus := 200; listJson := Docs l |}, w)
    ∧ Sorted byStartTime l
    ∧ l ≡ₚ documents (Bookings w)
    ∧ ∀ b, b ∈ l ↔ ∃ i, Bookings w !! i = Some b.
Proof.
  intros Ho Hs. eexists. unfold getAllBookings, try_catch_list, bind.
  rewrite (bool_decide_eq_false_2 _ Ho), (bool_decide_eq_false_2 _ Hs).
  cbn [ret]. rewrite respondWithList_run. split; [reflexivity|].
  split; [apply listed_sorted|]. split.
  - rewrite merge_sort_Permutation. cbn [roomFilter].
    induction (documents (Bookings w)) as [|b l IH]; [done|]. cbn. by rewrite IH.
  - intros b. rewrite listed_iff. cbn. tauto.
Qed.

(** A musician lists the shared-microphone studio and sees the booking of
    the other client too. *)
Lemma getAllBookings_unfiltered_witness :
  ∃ l,
    getAllBookings Scenario.mailUp false (Scenario.on Scenario.musician 0)
      Scenario.sharedMicrophone
    = ({| listStatus := 200; listJson := Docs l |}, Scenario.sharedMicrophone)
    ∧ Scenario.booked 2 3 Scenario.t10_30 Scenario.t11_30 [] "pending" ∈ l.
Proof.
  destruct (getAllBookings_unfiltered Scenario.mailUp false (Scenario.on Scenario.musician 0)
              Scenario.sharedMicrophone) as (l & Hrun & _ & _ & Hin); [done | done |].
  exists l. split; [exact Hrun|]. apply Hin. by exists 2%N.
Defined.

Lemma elem_of_studioIdsOf w ownerId i :
  i ∈ studioIdsOf w ownerId
  ↔ ∃ st, Studios w !! i = Some st ∧ studio_owner st = ownerId.
Proof.
  unfold studioIdsOf. rewrite list_elem_of_fmap. split.
  - intros [[j st] [-> Hin]]. apply elem_of_map_to_list, map_lookup_filter_Some in Hin.
    cbn in *. eauto.
  - intros (st & Hst & Ho). exists (i, st). split; [done|].
    by apply elem_of_map_to_list, map_lookup_filter_Some.
Qed.

Lemma elem_of_roomIdsIn w studioIds i :
  i ∈ roomIdsIn w studioIds
  ↔ ∃ r, Rooms w !! i = Some r ∧ room_studio r ∈ studioIds.
Proof.
  unfold roomIdsIn. rewrite list_elem_of_fmap. split.
  - intros [[j r] [-> Hin]]. apply elem_of_map_to_list, map_lookup_filter_Some in Hin.
    cbn in *. eauto.
  - intros (r & Hr & Hs). exists (i, r). split; [done|].
    by apply elem_of_map_to_list, map_lookup_filter_Some.
Qed.

(** X12. What getAllBookings shows a studio owner. As the controller is
    written the identifier [Studio] does not resolve and an actor of type
    [studio_owner] is answered 500. Where it resolves, the answer is 200
    with, in ascending order of start time, exactly the stored bookings
    whose room belongs to a studio the actor owns. Either way no collection
    changes. *)
Theorem getAllBookings_for_owner
    (rt : Runtime) (studioBound : bool) (req : Request unit) (w : World) :
  userType (user req) = "studio_owner" →
  (studioBound = false →
   getAllBookings rt studioBound req w
   = listServerError "Get all bookings error:" (ReferenceError "Studio") w)
  ∧ (studioBound = true →
     ∃ l,
       getAllBookings rt studioBound req w = ({| listStatus := 200; listJson := Docs l |}, w)
       ∧ Sorted byStartTime l
       ∧ ∀ b, b ∈ l
              ↔ (∃ i, Bookings w !! i = Some b)
                ∧ ∃ r st, Rooms w !! room b = Some r
                          ∧ Studios w !! room_studio r = Some st
                          ∧ studio_owner st = user_id (user req)).
Proof.
  intros Hu. unfold getAllBookings, try_catch_list, bind, Studio.
  rewrite Hu. rewrite bool_decide_eq_true_2 by done.
  rewrite (bool_decide_eq_false_2 ("studio_owner" = "staff")) by done.
  split; intros ->; [done|]. cbn [ret]. eexists. rewrite respondWithList_run.
  split; [reflexivity|]. split; [apply listed_sorted|].
  intros b. rewrite listed_iff. cbn [roomFilter]. rewrite bool_decide_eq_true.
  rewrite elem_of_roomIdsIn. setoid_rewrite elem_of_studioIdsOf.
  split; intros [Hb Hr]; (split; [done|]).
  - destruct Hr as (r & Hr & st & Hst & Ho). eauto.
  - destruct Hr as (r & st & Hr & Hst & Ho). eauto.
Qed.

(** The owner lists the shared-microphone studio, as written and with
    [Studio] in scope. *)
Lemma getAllBookings_for_owner_witness :
  getAllBookings Scenario.mailUp false (Scenario.on Scenario.owner 0) Scenario.sharedMicrophone
  = listServerError "Get all bookings error:" (ReferenceError "Studio")
      Scenario.sharedMicrophone.
Proof.
  by apply (getAllBookings_for_owner Scenario.mailUp false (Scenario.on Scenario.owner 0)
              Scenario.sharedMicrophone).
Defined.

(** X13. What getAllBookings shows a member of staff. As the controller is
    written the identifier [Staff] does not resolve and an actor of type
    [staff] is answered 500. Where it resolves: an actor with no staff
    record is answered 404 [Staff record not found]; otherwise the answer
    is 200 with, in ascending order of start time, exactly the stored
    bookings whose room belongs to the studio of a staff record of the
    actor. No collection changes. *)
Theorem getAllBookings_for_staff
    (rt : Runtime) (studioBound : bool) (req : Request unit) (w : World) :
  userType (user req) = "staff" →
  (Staff_bound rt = false →
   getAllBookings rt studioBound req w
   = listServerError "Get all bookings error:" (ReferenceError "Staff") w)
  ∧ (Staff_bound rt = true →
     (∀ i d, Staffs w !! i = Some d → staff_user d ≠ user_id (user req)) →
     getAllBookings rt studioBound req w
     = ({| listStatus := 404; listJson := ListMessage "Staff record not found" |}, w))
  ∧ (Staff_bound rt = true →
     (∃ i d, Staffs w !! i = Some d ∧ staff_user d = user_id (user req)) →
     ∃ d l,
       (∃ i, Staffs w !! i = Some d) ∧ staff_user d = user_id (user req)
       ∧ getAllBookings rt studioBound req w
         = ({| listStatus := 200; listJson := Docs l |}, w)
       ∧ Sorted byStartTime l
       ∧ ∀ b, b ∈ l
              ↔ (∃ i, Bookings w !! i = Some b)
                ∧ ∃ r, Rooms w !! room b = Some r ∧ room_studio r = staff_studio d).
Proof.
  intros Hu. unfold getAllBookings, try_catch_list, bind, Staff_findOne, Staff.
  rewrite Hu. rewrite (bool_decide_eq_false_2 ("staff" = "studio_owner")) by done.
  rewrite bool_decide_eq_true_2 by done. cbn [ret].
  split; [by intros ->|]. split.
  - intros -> Hnone. cbn [ret bind].
    destruct (List.find _ _) as [d|] eqn:Hfind; [|done].
    apply find_some in Hfind as [Hin Hd]. apply bool_decide_eq_true in Hd.
    apply list_elem_of_In, list_elem_of_fmap in Hin as [[i d'] [-> Hin]].
    apply elem_of_map_to_list in Hin. by destruct (Hnone i d' Hin).
  - intros -> (i & d0 & Hi & Hd0). cbn [ret bind].
    destruct (List.find _ _) as [d|] eqn:Hfind.
    + apply find_some in Hfind as [Hin Hd]. apply bool_decide_eq_true in Hd.
      apply list_elem_of_In, list_elem_of_fmap in Hin as [[j d'] [-> Hin]].
      apply elem_of_map_to_list in Hin. cbn in *.
      exists d'. eexists.
      split; [eauto|]. split; [done|]. split; [reflexivity|].
      split; [apply listed_sorted|].
      intros b. rewrite listed_iff. cbn [roomFilter]. rewrite bool_decide_eq_true.
      rewrite elem_of_roomIdsIn. setoid_rewrite list_elem_of_singleton. done.
    + exfalso. pose proof (find_none _ _ Hfind d0) as Hno. cbv beta in Hno.
      rewrite bool_decide_eq_true_2 in Hno by done.
      assert (Hin : In d0 (snd <$> map_to_list (Staffs w))).
      { apply list_elem_of_In, list_elem_of_fmap. exists (i, d0). split; [done|].
        by apply elem_of_map_to_list. }
      specialize (Hno Hin). done.
Qed.

(** The studio's engineer lists the bookings, as the controller is written. *)
Lemma getAllBookings_for_staff_witness :
  getAllBookings Scenario.mailUp false (Scenario.on Scenario.engineer 0)
    Scenario.sharedMicrophone
  = listServerError "Get all bookings error:" (ReferenceError "Staff")
      Scenario.sharedMicrophone.
Proof.
  by apply (getAllBookings_for_staff Scenario.mailUp false (Scenario.on Scenario.engineer 0)
              Scenario.sharedMicrophone).
Defined.

Lemma getBookingById_found rt req w booking :
  Bookings w !! params_id req = Some booking →
  getBookingById rt req w =
  match Users w !! client booking with
  | None => serverError "Get booking by ID error:" (TypeError "_id") w
  | Some _ =>
      match (studioRelation rt (user req) booking w).1 with
      | Normal (_, isStudioOwner, isStaff) =>
          if negb (isClientOf (user req) booking) && negb isStudioOwner && negb isStaff
          then (res 403 (Message "Not authorized to access this booking"), w)
          else (res 200 (Doc (Some booking)), w)
      | Throw ex => serverError "Get booking by ID error:" ex w
      end
  end.
Proof.
  intros Hfound. unfold getBookingById, try_catch.
  unfold bind at 1. unfold Booking_findById at 1. rewrite Hfound.
  unfold bind at 1. unfold User_findById at 1.
  destruct (Users w !! client booking) as [c|]; [|done].
  unfold bind at 1. unfold prop at 1. unfold ret at 1. unfold bind at 1.
  rewrite (studioRelation_eq rt (user req) booking w _ eq_refl).
  destruct (studioRelation rt (user req) booking w).1 as [[[studio isO] isS]|ex]; [|done].
  by destruct (isClientOf (user req) booking), isO, isS.
Qed.

(** X14. Who may read a booking. getBookingById changes no collection and
    sends no mail, whatever it answers. An unknown id is answered 404. For
    a stored booking whose client record resolves and an actor for whom the
    relationship lines complete without throwing (the booking's room and
    its studio resolve, and the [Staff] lookup, reached only for an actor
    of type [staff], does not throw), it answers 200 with the booking when
    the actor is the booking's client or the handler finds the actor to be
    the studio's owner or on its staff, and 403 otherwise. As the
    controller is written the identifier [Staff] does not resolve, and an
    actor of type [staff] asking for a stored booking whose client, room
    and studio resolve is answered 500, the studio's own staff included. *)
Theorem getBookingById_access
    (rt : Runtime) (req : Request unit) (w : World) :
  (Bookings (getBookingById rt req w).2 = Bookings w
   ∧ sameDirectory w (getBookingById rt req w).2
   ∧ outbox (getBookingById rt req w).2 = outbox w)
  ∧ (Bookings w !! params_id req = None →
     getBookingById rt req w = (res 404 (Message "Booking not found"), w))
  ∧ (∀ booking c studio isStudioOwner isStaff,
       Bookings w !! params_id req = Some booking →
       Users w !! client booking = Some c →
       (studioRelation rt (user req) booking w).1 = Normal (studio, isStudioOwner, isStaff) →
       getBookingById rt req w
       = if negb (isClientOf (user req) booking) && negb isStudioOwner && negb isStaff
         then (res 403 (Message "Not authorized to access this booking"), w)
         else (res 200 (Doc (Some booking)), w))
  ∧ (∀ booking c r st,
       Staff_bound rt = false →
       userType (user req) = "staff" →
       Bookings w !! params_id req = Some booking →
       Users w !! client booking = Some c →
       Rooms w !! room booking = Some r →
       Studios w !! room_studio r = Some st →
       getBookingById rt req w
       = serverError "Get booking by ID error:" (ReferenceError "Staff") w).
Proof.
  split; [|split; [|split]].
  - destruct (Bookings w !! params_id req) as [booking|] eqn:Hfound.
    + rewrite (getBookingById_found rt req w booking Hfound).
      destruct (Users w !! client booking) as [c|]; [|done].
      destruct (studioRelation rt (user req) booking w).1 as [[[studio isO] isS]|ex]; [|done].
      by destruct (isClientOf (user req) booking), isO, isS.
    + unfold getBookingById, try_catch, bind, Booking_findById. by rewrite Hfound.
  - intros Hnone. unfold getBookingById, try_catch, bind, Booking_findById. by rewrite Hnone.
  - intros booking c studio isO isS Hfound Hc Hrel.
    by rewrite (getBookingById_found rt req w booking Hfound), Hc, Hrel.
  - intros booking c r st Hb Hu Hfound Hc Hr Hst.
    rewrite (getBookingById_found rt req w booking Hfound), Hc.
    by rewrite (staff_actor_throws rt (user req) booking w r st Hb Hu Hr Hst).
Qed.

(** * The error middleware *)


(** * The bookings slice *)

Lemma slice_filter_id (i : Id) (l : list BookingSlice.Item) :
  (∀ b, b ∈ l → BookingSlice.id b ≠ i) →
  filter (fun b => BookingSlice.id b ≠ i) l = l.
Proof.
  induction l as [|a l IH]; intros H; [done|].
  rewrite filter_cons_True by (apply H; by left).
  f_equal. apply IH. intros b Hb. apply H. by right.
Qed.

Lemma slice_replace_absent (p : BookingSlice.Item) (l : list BookingSlice.Item) :
  (∀ b, b ∈ l → BookingSlice.id b ≠ BookingSlice.id p) →
  BookingSlice.replaceById p l = l.
Proof.
  intros H. unfold BookingSlice.replaceById.
  destruct (list_find _ l) as [[k b]|] eqn:Hfind; [|done].
  apply list_find_Some in Hfind as (Hk & Hb & _).
  destruct (H b); [|done]. by apply list_elem_of_lookup_2 in Hk.
Qed.

(** X16. deleteBooking.fulfilled removes every listed booking of the given
    id and nothing else: the list afterwards is the list before without the
    bookings of that id, in the same order; the selected booking is dropped
    exactly when it had that id; the loading flag is off. Doing it twice is
    doing it once, and an updateBooking.fulfilled that arrives afterwards
    for that id does not put the booking back in the list. *)
Theorem slice_delete_fulfilled (state : BookingSlice.State) (i : Id) :
  let after := BookingSlice.reducer state (BookingSlice.deleteBooking_fulfilled i) in
  (∀ b, b ∈ BookingSlice.bookings after
        ↔ b ∈ BookingSlice.bookings state ∧ BookingSlice.id b ≠ i)
  ∧ BookingSlice.bookings after `sublist_of` BookingSlice.bookings state
  ∧ (∀ selected, BookingSlice.selectedBooking after = Some selected
                 ↔ BookingSlice.selectedBooking state = Some selected
                   ∧ BookingSlice.id selected ≠ i)
  ∧ BookingSlice.isLoading after = false
  ∧ BookingSlice.error after = BookingSlice.error state
  ∧ BookingSlice.reducer after (BookingSlice.deleteBooking_fulfilled i) = after
  ∧ (∀ p, BookingSlice.id p = i →
          BookingSlice.bookings
            (BookingSlice.reducer after (BookingSlice.updateBooking_fulfilled p))
          = BookingSlice.bookings after).
Proof.
  cbn.
  assert (Hin : ∀ b, b ∈ filter (λ b, BookingSlice.id b ≠ i) (BookingSlice.bookings state)
                     → BookingSlice.id b ≠ i).
  { intros b Hb. by apply list_elem_of_filter in Hb as [? _]. }
  split; [intros b; rewrite list_elem_of_filter; tauto|].
  split; [apply sublist_filter|].
  split.
  { intros selected. destruct (BookingSlice.selectedBooking state) as [sel|]; [|by split; [|intros [? _]]].
    case_bool_decide as Hsel.
    - split; [done|]. intros [[= ->] Hne]. done.
    - split; [intros [= ->]; done | by intros [? _]]. }
  split; [done|]. split; [done|]. split.
  - f_equal.
    + by apply slice_filter_id.
    + destruct (BookingSlice.selectedBooking state) as [sel|]; [|done].
      case_bool_decide as Hsel; [done|]. by rewrite bool_decide_eq_false_2.
  - intros p Hp. apply slice_replace_absent. intros b Hb. rewrite Hp. by apply Hin.
Qed.



(** X18. A booking that is created and then deleted leaves the list as it
    was: when no listed booking has the payload's id,
    createBooking.fulfilled followed by deleteBooking.fulfilled of that id
    gives back the list of bookings. *)
Theorem slice_create_then_delete (state : BookingSlice.State) (p : BookingSlice.Item) :
  (∀ b, b ∈ BookingSlice.bookings state → BookingSlice.id b ≠ BookingSlice.id p) →
  BookingSlice.bookings
    (BookingSlice.reducer
       (BookingSlice.reducer state (BookingSlice.createBooking_fulfilled p))
       (BookingSlice.deleteBooking_fulfilled (BookingSlice.id p)))
  = BookingSlice.bookings state.
Proof.
  intros Hfresh. cbn. rewrite filter_app, filter_cons_False, filter_nil, app_nil_r.
  - by apply slice_filter_id.
  - by intros H.
Qed.

(** Bookings 3 and 5 are listed; booking 7 is created and then deleted, and
    the list is bookings 3 and 5 again. *)
Lemma slice_create_then_delete_witness :
  BookingSlice.bookings
    (BookingSlice.reducer
       (BookingSlice.reducer
          {| BookingSlice.bookings :=
               [ {| BookingSlice.id := 3;
                    BookingSlice.fields :=
                      Scenario.booked 1 2 Scenario.t10_00 Scenario.t11_00 [] "confirmed" |};
                 {| BookingSlice.id := 5;
                    BookingSlice.fields :=
                      Scenario.booked 2 2 Scenario.t12_00 Scenario.t13_00 [1%N] "pending" |} ];
             BookingSlice.selectedBooking := None;
             BookingSlice.isLoading := true;
             BookingSlice.error := None |}
          (BookingSlice.createBooking_fulfilled
             {| BookingSlice.id := 7;
                BookingSlice.fields :=
                  Scenario.booked 1 2 Scenario.t11_00 Scenario.t12_00 [] "pending" |}))
       (BookingSlice.deleteBooking_fulfilled 7%N))
  = [ {| BookingSlice.id := 3;
         BookingSlice.fields :=
           Scenario.booked 1 2 Scenario.t10_00 Scenario.t11_00 [] "confirmed" |};
      {| BookingSlice.id := 5;
         BookingSlice.fields :=
           Scenario.booked 2 2 Scenario.t12_00 Scenario.t13_00 [1%N] "pending" |} ].
Proof.
  apply (slice_create_then_delete
           {| BookingSlice.bookings :=
                [ {| BookingSlice.id := 3;
                     BookingSlice.fields :=
                       Scenario.booked 1 2 Scenario.t10_00 Scenario.t11_00 [] "confirmed" |};
                  {| BookingSlice.id := 5;
                     BookingSlice.fields :=
                       Scenario.booked 2 2 Scenario.t12_00 Scenario.t13_00 [1%N] "pending" |} ];
              BookingSlice.selectedBooking := None;
              BookingSlice.isLoading := true;
              BookingSlice.error := None |}
           {| BookingSlice.id := 7;
              BookingSlice.fields :=
                Scenario.booked 1 2 Scenario.t11_00 Scenario.t12_00 [] "pending" |}).
  intros b Hb. cbn in Hb.
  apply elem_of_cons in Hb as [->|Hb]; [done|].
  apply elem_of_cons in Hb as [->|Hb]; [done|].
  by apply elem_of_nil in Hb.
Defined.

(** X19. The loading flag and the error follow the phase of the request.
    A pending action turns the flag on and clears the error; a fulfilled
    action turns the flag off and leaves the error; a rejected action turns
    the flag off and sets an error message that is never empty, the
    payload's message when it has one and it is not empty; and neither a
    pending nor a rejected action touches the bookings or the selection. *)
Theorem slice_phases (state : BookingSlice.State) (action : BookingSlice.Action) :
  let after := BookingSlice.reducer state action in
  (BookingSlice.phase action = BookingSlice.Pending →
   BookingSlice.isLoading after = true ∧ BookingSlice.error after = None
   ∧ BookingSlice.bookings after = BookingSlice.bookings state
   ∧ BookingSlice.selectedBooking after = BookingSlice.selectedBooking state)
  ∧ (BookingSlice.phase action = BookingSlice.Fulfilled →
     BookingSlice.isLoading after = false
     ∧ BookingSlice.error after = BookingSlice.error state)
  ∧ (BookingSlice.phase action = BookingSlice.Rejected →
     BookingSlice.isLoading after = false
     ∧ (∃ m, BookingSlice.error after = Some m ∧ m ≠ "")
     ∧ BookingSlice.bookings after = BookingSlice.bookings state
     ∧ BookingSlice.selectedBooking after = BookingSlice.selectedBooking state)
  ∧ (BookingSlice.phase action = BookingSlice.Plain →
     BookingSlice.isLoading after = BookingSlice.isLoading state
     ∧ BookingSlice.bookings after = BookingSlice.bookings state).
Proof.
  assert (Hmsg : ∀ (m : option string) (fallback : string), fallback ≠ "" →
            (if truthy m then default "" m else fallback) ≠ "").
  { intros [t|] fallback Hf; cbn; [|done]. by case_bool_decide. }
  destruct action; cbn; repeat split; try done;
    eexists; (split; [reflexivity|]); by apply Hmsg.
Qed.

(** ** The accounts *)

Lemma findByEmail_Some w e i a :
  Auth.findByEmail w e = Some (i, a) → Auth.Users w !! i = Some a ∧ Auth.email a = e.
Proof.
  unfold Auth.findByEmail. intros H.
  apply find_some in H as [Hin He].
  apply list_elem_of_In, elem_of_map_to_list in Hin.
  by apply bool_decide_eq_true in He.
Qed.

Lemma findByEmail_None w e i a :
  Auth.findByEmail w e = None → Auth.Users w !! i = Some a → Auth.email a ≠ e.
Proof.
  unfold Auth.findByEmail. intros H Hi He.
  assert (Hin : In (i, a) (map_to_list (Auth.Users w)))
    by by apply list_elem_of_In, elem_of_map_to_list.
  pose proof (find_none _ _ H (i, a) Hin) as Hno. cbn in Hno.
  by apply bool_decide_eq_false in Hno.
Qed.

Lemma findByEmail_only w e i a :
  Auth.Users w !! i = Some a → Auth.email a = e →
  (∀ j b, Auth.Users w !! j = Some b → Auth.email b = e → j = i) →
  Auth.findByEmail w e = Some (i, a).
Proof.
  intros Hi He Hone.
  destruct (Auth.findByEmail w e) as [[j b]|] eqn:Hf.
  - apply findByEmail_Some in Hf as [Hj Hb].
    pose proof (Hone j b Hj Hb) as ->. congruence.
  - by destruct (findByEmail_None w e i a Hf Hi).
Qed.

Lemma auth_fresh_absent (w : Auth.World) : Auth.Users w !! fresh (dom (Auth.Users w)) = None.
Proof. apply not_elem_of_dom, is_fresh. Qed.

(** What [register] does once the validators have let the body through. *)
Lemma register_valid lib b :
  Auth.registerErrors lib b = [] →
  ∃ name email password userType,
    Auth.Register.name b = Some name ∧ Auth.Register.email b = Some email
    ∧ Auth.Register.password b = Some password ∧ Auth.Register.userType b = Some userType
    ∧ Auth.isLength lib 6 password = true ∧ Auth.isEmail lib email = true.
Proof.
  unfold Auth.registerErrors.
  destruct (truthy _) eqn:Hn; [|done].
  destruct (Auth.validEmail _ _) eqn:He; [|done].
  destruct (Auth.longEnough _ _) eqn:Hp; [|done].
  case_bool_decide as Ht; [|done]. intros _.
  destruct b as [[n|] [e|] [p|] [t|]]; cbn in *; try done.
  - by eexists _, _, _, _.
  - by repeat (apply elem_of_cons in Ht as [?|Ht]; [done|]); apply elem_of_nil in Ht.
Qed.

(** The outcome of [register] on a body that passed the validators. *)
Lemma register_run lib b w name email password userType :
  Auth.registerErrors lib b = [] →
  Auth.Register.name b = Some name → Auth.Register.email b = Some email →
  Auth.Register.password b = Some password → Auth.Register.userType b = Some userType →
  Auth.register lib b w =
    match Auth.findByEmail w email with
    | Some _ => (Auth.res 400 (Auth.Message "User already exists"), w)
    | None =>
        let _id := fresh (dom (Auth.Users w)) in
        let user :=
          {| Auth.name := name; Auth.email := email;
             Auth.password := Auth.hash lib password (Auth.genSalt lib);
             Auth.userType := userType;
             Auth.resetPasswordToken := None; Auth.resetPasswordExpires := None |} in
        (Auth.res 201 (Auth.Session (Auth.generateToken lib _id) (Auth.view _id user)),
         Auth.setUsers (<[_id := user]> (Auth.Users w)) w)
    end.
Proof.
  intros He Hn Hm Hp Ht. unfold Auth.register. by rewrite He, Hn, Hm, Hp, Ht.
Qed.

Lemma register_invalid lib b w :
  Auth.registerErrors lib b ≠ [] →
  Auth.register lib b w = (Auth.res 400 (Auth.Errors (Auth.registerErrors lib b)), w).
Proof.
  intros He. unfold Auth.register. by destruct (Auth.registerErrors lib b).
Qed.

(** X20. [register] keeps the emails of the accounts distinct: when no two
    stored accounts share an email before the request, none do after it,
    whatever the request body is. *)
Theorem register_keeps_unique_emails lib b w :
  Auth.uniqueEmails w → Auth.uniqueEmails (Auth.register lib b w).2.
Proof.
  intros Huniq.
  destruct (decide (Auth.registerErrors lib b = [])) as [He|He];
    [|by rewrite register_invalid].
  destruct (register_valid lib b He) as (n & e & p & t & Hn & Hm & Hp & Ht & _).
  rewrite (register_run lib b w n e p t He Hn Hm Hp Ht).
  destruct (Auth.findByEmail w e) as [[j0 a0]|] eqn:Hf; [done|].
  intros i j a b' Hi Hj Hab. cbn in Hi, Hj.
  destruct (decide (i = fresh (dom (Auth.Users w)))) as [->|Hni];
    destruct (decide (j = fresh (dom (Auth.Users w)))) as [->|Hnj]; [done| | |].
  - rewrite lookup_insert_eq in Hi. rewrite lookup_insert_ne in Hj by done.
    injection Hi as <-. cbn in Hab.
    by destruct (findByEmail_None w e j b' Hf Hj).
  - rewrite lookup_insert_eq in Hj. rewrite lookup_insert_ne in Hi by done.
    injection Hj as <-. cbn in Hab.
    by destruct (findByEmail_None w e i a Hf Hi).
  - rewrite lookup_insert_ne in Hi, Hj by done. by eapply Huniq.
Qed.

Lemma register_keeps_unique_emails_witness :
  Auth.uniqueEmails Auth.Scenario.oneAccount
  ∧ Auth.uniqueEmails
      (Auth.register (Auth.Scenario.libraries 0 true) Auth.Scenario.newcomer
         Auth.Scenario.oneAccount).2.
Proof.
  assert (H : Auth.uniqueEmails Auth.Scenario.oneAccount).
  { intros i j a b Hi Hj _.
    change (Auth.Users Auth.Scenario.oneAccount)
      with ({[ 0%N := Auth.Scenario.ada ]} : gmap N Auth.Account) in Hi, Hj.
    apply lookup_singleton_Some in Hi as [<- _].
    by apply lookup_singleton_Some in Hj as [<- _]. }
  split; [exact H|].
  exact (register_keeps_unique_emails _ _ _ H).
Defined.

(** X21. An account that [register] has just created can log in: with the
    email and the password of the registration, [login] answers 200 with
    a session for the account that was created, provided [bcrypt.compare]
    accepts the password against its own hash. *)
Theorem register_then_login lib b w :
  Auth.statusCode (Auth.register lib b w).1 = 201 →
  (∀ p, Auth.Register.password b = Some p →
        Auth.compare lib p (Auth.hash lib p (Auth.genSalt lib)) = true) →
  ∃ i user,
    (Auth.register lib b w).1
      = Auth.res 201 (Auth.Session (Auth.generateToken lib i) (Auth.view i user))
    ∧ Auth.Users w !! i = None
    ∧ Auth.Users (Auth.register lib b w).2 !! i = Some user
    ∧ Auth.login lib {| Auth.Login.email := Auth.Register.email b;
                        Auth.Login.password := Auth.Register.password b |}
        (Auth.register lib b w).2
      = (Auth.res 200 (Auth.Session (Auth.generateToken lib i) (Auth.view i user)),
         (Auth.register lib b w).2).
Proof.
  intros H201 Hcmp.
  destruct (decide (Auth.registerErrors lib b = [])) as [He|He];
    [|by rewrite register_invalid in H201].
  destruct (register_valid lib b He) as (n & e & p & t & Hn & Hm & Hp & Ht & _ & Hmail).
  rewrite (register_run lib b w n e p t He Hn Hm Hp Ht) in *.
  destruct (Auth.findByEmail w e) as [[j0 a0]|] eqn:Hf; [done|]. cbv zeta.
  set (i := fresh (dom (Auth.Users w))).
  set (user := Auth.Build_Account n e (Auth.hash lib p (Auth.genSalt lib)) t None None).
  set (w' := Auth.setUsers (<[i := user]> (Auth.Users w)) w).
  assert (Hfind : Auth.findByEmail w' e = Some (i, user)).
  { apply findByEmail_only; [apply lookup_insert_eq | done |].
    intros j a Hj Ha. destruct (decide (j = i)) as [|Hne]; [done|].
    unfold w' in Hj. cbn in Hj. rewrite lookup_insert_ne in Hj by done.
    by destruct (findByEmail_None w e j a Hf Hj). }
  exists i, user. split; [done|]. split; [apply auth_fresh_absent|].
  split; [apply lookup_insert_eq|].
  unfold Auth.login, Auth.loginErrors, Auth.validEmail.
  cbn [Auth.Login.email Auth.Login.password fst snd]. rewrite Hm, Hp, Hmail.
  cbn [app]. rewrite Hfind. cbn [Auth.password user].
  unfold user at 1. cbn [Auth.password]. by rewrite (Hcmp p Hp).
Qed.

Lemma register_then_login_witness :
  ∃ i user,
    (Auth.register (Auth.Scenario.libraries 0 true) Auth.Scenario.newcomer
       Auth.Scenario.oneAccount).1
      = Auth.res 201 (Auth.Session
          (Auth.generateToken (Auth.Scenario.libraries 0 true) i) (Auth.view i user))
    ∧ Auth.Users Auth.Scenario.oneAccount !! i = None
    ∧ Auth.Users (Auth.register (Auth.Scenario.libraries 0 true) Auth.Scenario.newcomer
                    Auth.Scenario.oneAccount).2 !! i = Some user
    ∧ Auth.login (Auth.Scenario.libraries 0 true)
        {| Auth.Login.email := Auth.Register.email Auth.Scenario.newcomer;
           Auth.Login.password := Auth.Register.password Auth.Scenario.newcomer |}
        (Auth.register (Auth.Scenario.libraries 0 true) Auth.Scenario.newcomer
           Auth.Scenario.oneAccount).2
      = (Auth.res 200 (Auth.Session
           (Auth.generateToken (Auth.Scenario.libraries 0 true) i) (Auth.view i user)),
         (Auth.register (Auth.Scenario.libraries 0 true) Auth.Scenario.newcomer
            Auth.Scenario.oneAccount).2).
Proof.
  apply register_then_login.
  - by vm_compute.
  - intros p Hp. injection Hp as <-. by vm_compute.
Defined.

(** X22. [login] changes nothing, and it issues a session only for a
    stored account that has the email of the request and whose stored
    hash [bcrypt.compare] accepts; an unknown email and a wrong password
    are answered alike, 401 "Invalid credentials". *)
Theorem login_outcome lib b w :
  (Auth.login lib b w).2 = w
  ∧ ((∃ i user p,
        (Auth.login lib b w).1
          = Auth.res 200 (Auth.Session (Auth.generateToken lib i) (Auth.view i user))
        ∧ Auth.Users w !! i = Some user
        ∧ Auth.Login.email b = Some (Auth.email user)
        ∧ Auth.Login.password b = Some p
        ∧ Auth.compare lib p (Auth.password user) = true)
     ∨ ((Auth.login lib b w).1 = Auth.res 401 (Auth.Message "Invalid credentials")
        ∧ ∃ e p, Auth.Login.email b = Some e ∧ Auth.Login.password b = Some p
          ∧ ∀ i user, Auth.findByEmail w e = Some (i, user) →
                      Auth.compare lib p (Auth.password user) = false)
     ∨ (∃ errors, errors ≠ []
        ∧ (Auth.login lib b w).1 = Auth.res 400 (Auth.Errors errors))).
Proof.
  unfold Auth.login.
  destruct (Auth.loginErrors lib b) as [|x l] eqn:He;
    [|split; [done|]; right; right; by exists (x :: l)].
  destruct b as [[e|] [p|]]; cbn in *; try done.
  - destruct (Auth.findByEmail w e) as [[i user]|] eqn:Hf.
    + apply findByEmail_Some in Hf as Hu. destruct Hu as [Hi Hmail].
      destruct (Auth.compare lib p (Auth.password user)) eqn:Hc; cbn.
      * split; [done|]. left. exists i, user, p. by rewrite Hmail.
      * split; [done|]. right; left. split; [done|]. exists e, p.
        split; [done|]. split; [done|]. intros i' user' ?. by simplify_eq.
    + split; [done|]. right; left. split; [done|]. exists e, p.
      split; [done|]. split; [done|]. intros i user ?. congruence.
  - by destruct (Auth.isEmail lib e).
Qed.

Lemma truthy_Some o : truthy o = true → ∃ s, o = Some s ∧ s ≠ "".
Proof.
  destruct o as [s|]; [|done]. cbn. intros H. exists s. split; [done|].
  intros ->. by rewrite bool_decide_eq_true_2 in H.
Qed.

(** X23. [updateProfile] leaves every other account and the user type as
    they are, and it replaces the stored password only when the request
    carries the current password and [bcrypt.compare] accepts it against
    the stored hash. When it does not answer 200 nothing of the request
    is saved, the new name and email included. *)
Theorem updateProfile_guard lib uid b w user :
  Auth.Users w !! uid = Some user →
  (Auth.statusCode (Auth.updateProfile lib uid b w).1 ≠ 200 →
     (Auth.updateProfile lib uid b w).2 = w)
  ∧ (∀ j, j ≠ uid →
       Auth.Users (Auth.updateProfile lib uid b w).2 !! j = Auth.Users w !! j)
  ∧ ∃ user',
      Auth.Users (Auth.updateProfile lib uid b w).2 !! uid = Some user'
      ∧ Auth.userType user' = Auth.userType user
      ∧ (Auth.password user' ≠ Auth.password user →
           ∃ current new,
             Auth.UpdateProfile.currentPassword b = Some current
             ∧ Auth.UpdateProfile.newPassword b = Some new ∧ new ≠ ""
             ∧ Auth.compare lib current (Auth.password user) = true
             ∧ Auth.password user' = Auth.hash lib new (Auth.genSalt lib)).
Proof.
  intros Hu. unfold Auth.updateProfile. rewrite Hu.
  destruct (truthy (Auth.UpdateProfile.currentPassword b)
            && truthy (Auth.UpdateProfile.newPassword b)) eqn:Hboth.
  - apply andb_prop in Hboth as [Hc Hn].
    apply truthy_Some in Hc as (current & Hc & _).
    apply truthy_Some in Hn as (new & Hn & Hnew).
    rewrite Hc, Hn. cbn [default from_option id Auth.renamed Auth.password].
    destruct (Auth.compare lib current (Auth.password user)) eqn:Hcmp; cbn.
    + split; [done|]. split; [intros j Hj; by rewrite lookup_insert_ne|].
      eexists. split; [apply lookup_insert_eq|]. split; [done|].
      intros _. by exists current, new.
    + split; [done|]. split; [done|]. exists user. by rewrite Hu.
  - cbn. split; [done|]. split; [intros j Hj; by rewrite lookup_insert_ne|].
    eexists. split; [apply lookup_insert_eq|]. by split.
Qed.

Lemma updateProfile_guard_witness :
  ∃ user',
    Auth.Users (Auth.updateProfile (Auth.Scenario.libraries 0 true) 0%N
                  {| Auth.UpdateProfile.name := Some "Ada L.";
                     Auth.UpdateProfile.email := None;
                     Auth.UpdateProfile.currentPassword := Some "secret1";
                     Auth.UpdateProfile.newPassword := Some "secret2" |}
                  Auth.Scenario.oneAccount).2 !! 0%N = Some user'
    ∧ Auth.userType user' = Auth.userType Auth.Scenario.ada
    ∧ (Auth.password user' ≠ Auth.password Auth.Scenario.ada →
         ∃ current new,
           Some "secret1" = Some current ∧ Some "secret2" = Some new ∧ new ≠ ""
           ∧ Auth.compare (Auth.Scenario.libraries 0 true) current
               (Auth.password Auth.Scenario.ada) = true
           ∧ Auth.password user'
             = Auth.hash (Auth.Scenario.libraries 0 true) new
                 (Auth.genSalt (Auth.Scenario.libraries 0 true))).
Proof.
  apply (updateProfile_guard (Auth.Scenario.libraries 0 true) 0%N
           {| Auth.UpdateProfile.name := Some "Ada L.";
              Auth.UpdateProfile.email := None;
              Auth.UpdateProfile.currentPassword := Some "secret1";
              Auth.UpdateProfile.newPassword := Some "secret2" |}
           Auth.Scenario.oneAccount Auth.Scenario.ada).
  reflexivity.
Defined.

Lemma resetPassword_ok lib b w t p id user expires :
  Auth.ResetPassword.token b = Some t → t ≠ "" →
  Auth.ResetPassword.password b = Some p → Auth.isLength lib 6 p = true →
  Auth.verify lib t = Auth.Decoded id →
  Auth.Users w !! id = Some user →
  Auth.resetPasswordToken user = Some t →
  Auth.resetPasswordExpires user = Some expires → Auth.Date_now lib < expires →
  Auth.resetPassword lib b w
  = (Auth.res 200 (Auth.Session (Auth.generateToken lib id)
                     (Auth.view id (afterReset lib p user))),
     Auth.setUsers (<[id := afterReset lib p user]> (Auth.Users w)) w).
Proof.
  intros Ht Hne Hp Hlen Hv Hu Htok Hex Hnow.
  unfold Auth.resetPassword, Auth.resetErrors, Auth.longEnough, truthy.
  rewrite Ht, Hp, Hlen, Hv, Hu, Htok, Hex.
  rewrite (bool_decide_eq_false_2 _ Hne). cbn.
  rewrite bool_decide_eq_true_2 by done.
  by rewrite (proj2 (Z.ltb_lt _ _) Hnow).
Qed.

Lemma resetPassword_200 lib b w :
  Auth.statusCode (Auth.resetPassword lib b w).1 = 200 →
  ∃ t p id user expires,
    Auth.ResetPassword.token b = Some t ∧ t ≠ ""
    ∧ Auth.ResetPassword.password b = Some p ∧ Auth.isLength lib 6 p = true
    ∧ Auth.verify lib t = Auth.Decoded id
    ∧ Auth.Users w !! id = Some user
    ∧ Auth.resetPasswordToken user = Some t
    ∧ Auth.resetPasswordExpires user = Some expires ∧ Auth.Date_now lib < expires.
Proof.
  unfold Auth.resetPassword, Auth.resetErrors, Auth.longEnough.
  destruct (truthy (Auth.ResetPassword.token b)) eqn:Ht; [|done].
  apply truthy_Some in Ht as (t & Ht & Hne). rewrite Ht.
  destruct (Auth.ResetPassword.password b) as [p|]; [|done].
  destruct (Auth.isLength lib 6 p) eqn:Hlen; [|done]. cbn [app].
  destruct (Auth.verify lib t) as [id|n m] eqn:Hv; [|by case_bool_decide].
  destruct (Auth.Users w !! id) as [user|] eqn:Hu; [|done].
  case_bool_decide as Htok; [|done].
  destruct (Auth.resetPasswordExpires user) as [expires|] eqn:Hex; [|done].
  destruct (Auth.Date_now lib <? expires) eqn:Hnow; [|done].
  intros _. exists t, p, id, user, expires. apply Z.ltb_lt in Hnow. done.
Qed.

Lemma resetPassword_refused lib b w :
  Auth.statusCode (Auth.resetPassword lib b w).1 ≠ 200 →
  Auth.Users (Auth.resetPassword lib b w).2 = Auth.Users w.
Proof.
  unfold Auth.resetPassword.
  destruct (Auth.resetErrors lib b); [|done].
  destruct (Auth.ResetPassword.token b) as [t|]; [|done].
  destruct (Auth.ResetPassword.password b) as [p|]; [|done].
  destruct (Auth.verify lib t) as [id|n m]; [|by case_bool_decide].
  destruct (Auth.Users w !! id) as [user|]; [|done].
  by destruct (_ && _).
Qed.

(** X24. The link that [forgotPassword] mails resets the password: for a
    registered email that the validator [isEmail] accepts, the token it
    signs, when it is not the empty string
    and is presented to [resetPassword] with a password the validator
    accepts, at a time before the stored expiry (the time of the
    [forgotPassword] request plus 3600000 ms) at which [jwt.verify]
    accepts the token and decodes it to the account's id, is answered 200
    and replaces the stored hash, and this whether or not the mail could
    be sent. *)
Theorem forgot_then_reset lib lib' e p w i user :
  Auth.isEmail lib e = true →
  Auth.findByEmail w e = Some (i, user) →
  Auth.sign lib i "1h" ≠ "" →
  Auth.isLength lib' 6 p = true →
  Auth.verify lib' (Auth.sign lib i "1h") = Auth.Decoded i →
  Auth.Date_now lib' < Auth.Date_now lib + 3600000 →
  ∃ user',
    Auth.resetPassword lib'
      {| Auth.ResetPassword.token := Some (Auth.sign lib i "1h");
         Auth.ResetPassword.password := Some p |}
      (Auth.forgotPassword lib (Some e) w).2
    = (Auth.res 200 (Auth.Session (Auth.generateToken lib' i) (Auth.view i user')),
       Auth.setUsers (<[i := user']> (Auth.Users (Auth.forgotPassword lib (Some e) w).2))
         (Auth.forgotPassword lib (Some e) w).2)
    ∧ Auth.password user' = Auth.hash lib' p (Auth.genSalt lib')
    ∧ Auth.name user' = Auth.name user ∧ Auth.email user' = e
    ∧ Auth.userType user' = Auth.userType user
    ∧ Auth.resetPasswordToken user' = None.
Proof.
  intros Hmail Hf Hne Hlen Hv Hnow.
  apply findByEmail_Some in Hf as Hu. destruct Hu as [Hu He].
  set (w1 := (Auth.forgotPassword lib (Some e) w).2).
  set (held := Auth.Build_Account (Auth.name user) (Auth.email user) (Auth.password user)
                 (Auth.userType user) (Some (Auth.sign lib i "1h"))
                 (Some (Auth.Date_now lib + 3600000))).
  assert (Hheld : Auth.Users w1 !! i = Some held).
  { unfold w1, Auth.forgotPassword, Auth.validEmail. rewrite Hmail. cbn [negb default from_option id].
    rewrite Hf. cbv zeta. destruct (Auth.mailer lib _); cbn; apply lookup_insert_eq. }
  exists (afterReset lib' p held). split; [|by rewrite <- He].
  by eapply resetPassword_ok.
Qed.

Lemma forgot_then_reset_witness :
  ∃ user',
    Auth.resetPassword (Auth.Scenario.libraries 5 true)
      {| Auth.ResetPassword.token := Some (Auth.sign (Auth.Scenario.libraries 0 false) 0%N "1h");
         Auth.ResetPassword.password := Some "secret2" |}
      (Auth.forgotPassword (Auth.Scenario.libraries 0 false) (Some "ada@example.org")
         Auth.Scenario.oneAccount).2
    = (Auth.res 200 (Auth.Session (Auth.generateToken (Auth.Scenario.libraries 5 true) 0%N)
                       (Auth.view 0%N user')),
       Auth.setUsers
         (<[0%N := user']>
            (Auth.Users (Auth.forgotPassword (Auth.Scenario.libraries 0 false)
                           (Some "ada@example.org") Auth.Scenario.oneAccount).2))
         (Auth.forgotPassword (Auth.Scenario.libraries 0 false) (Some "ada@example.org")
            Auth.Scenario.oneAccount).2)
    ∧ Auth.password user'
      = Auth.hash (Auth.Scenario.libraries 5 true) "secret2"
          (Auth.genSalt (Auth.Scenario.libraries 5 true))
    ∧ Auth.name user' = Auth.name Auth.Scenario.ada
    ∧ Auth.email user' = "ada@example.org"
    ∧ Auth.userType user' = Auth.userType Auth.Scenario.ada
    ∧ Auth.resetPasswordToken user' = None.
Proof.
  apply (forgot_then_reset (Auth.Scenario.libraries 0 false) (Auth.Scenario.libraries 5 true)
           "ada@example.org" "secret2" Auth.Scenario.oneAccount 0%N Auth.Scenario.ada).
  - reflexivity.
  - by vm_compute.
  - done.
  - reflexivity.
  - reflexivity.
  - cbn. lia.
Defined.

(** X25. [resetPassword] answers 200 exactly when the validators accept
    the body, [jwt.verify] decodes the token to the id of a stored
    account, that account holds this very token, and its expiry lies
    after the time of the request. In every other case the accounts stay
    as they were. *)
Theorem resetPassword_accepts_iff lib b w :
  (Auth.statusCode (Auth.resetPassword lib b w).1 = 200 ↔
   ∃ t p id user expires,
     Auth.ResetPassword.token b = Some t ∧ t ≠ ""
     ∧ Auth.ResetPassword.password b = Some p ∧ Auth.isLength lib 6 p = true
     ∧ Auth.verify lib t = Auth.Decoded id
     ∧ Auth.Users w !! id = Some user
     ∧ Auth.resetPasswordToken user = Some t
     ∧ Auth.resetPasswordExpires user = Some expires ∧ Auth.Date_now lib < expires)
  ∧ (Auth.statusCode (Auth.resetPassword lib b w).1 ≠ 200 →
     Auth.Users (Auth.resetPassword lib b w).2 = Auth.Users w).
Proof.
  split; [split|apply resetPassword_refused].
  - apply resetPassword_200.
  - intros (t & p & id & user & expires & Ht & Hne & Hp & Hlen & Hv & Hu & Htok & Hex & Hnow).
    by rewrite (resetPassword_ok lib b w t p id user expires).
Qed.

(** X26. A reset token works once: after [resetPassword] has answered
    200, the same body is never answered 200 again and changes no
    account, at whatever time it is sent, as long as [jwt.verify] does
    not decode the token to another id than before. *)
Theorem resetPassword_single_use lib lib' b w :
  Auth.statusCode (Auth.resetPassword lib b w).1 = 200 →
  (∀ t id, Auth.ResetPassword.token b = Some t →
           Auth.verify lib' t = Auth.Decoded id → Auth.verify lib t = Auth.Decoded id) →
  Auth.statusCode (Auth.resetPassword lib' b (Auth.resetPassword lib b w).2).1 ≠ 200
  ∧ Auth.Users (Auth.resetPassword lib' b (Auth.resetPassword lib b w).2).2
    = Auth.Users (Auth.resetPassword lib b w).2.
Proof.
  intros H200 Hsame.
  assert (Hnot : Auth.statusCode
                   (Auth.resetPassword lib' b (Auth.resetPassword lib b w).2).1 ≠ 200);
    [|split; [done|by apply resetPassword_refused]].
  intros Hagain.
  apply resetPassword_200 in H200
    as (t & p & id & user & expires & Ht & Hne & Hp & Hlen & Hv & Hu & Htok & Hex & Hnow).
  apply resetPassword_200 in Hagain
    as (t' & p' & id' & user' & expires' & Ht' & _ & _ & _ & Hv' & Hu' & Htok' & _).
  assert (t' = t) as -> by congruence.
  pose proof (Hsame t id' Ht Hv') as Hid. assert (id' = id) as -> by congruence.
  rewrite (resetPassword_ok lib b w t p id user expires) in Hu' by done.
  cbn in Hu'. rewrite lookup_insert_eq in Hu'. injection Hu' as <-. done.
Qed.

Lemma resetPassword_single_use_witness :
  Auth.statusCode
    (Auth.resetPassword (Auth.Scenario.libraries 9 true)
       {| Auth.ResetPassword.token := Some "zero.1h";
          Auth.ResetPassword.password := Some "secret3" |}
       (Auth.resetPassword (Auth.Scenario.libraries 5 true)
          {| Auth.ResetPassword.token := Some "zero.1h";
             Auth.ResetPassword.password := Some "secret3" |}
          (Auth.forgotPassword (Auth.Scenario.libraries 0 true) (Some "ada@example.org")
             Auth.Scenario.oneAccount).2).2).1 ≠ 200.
Proof.
  apply (resetPassword_single_use (Auth.Scenario.libraries 5 true)
           (Auth.Scenario.libraries 9 true)).
  - by vm_compute.
  - intros t id _ H. exact H.
Defined.
